(** * kraken2krona: aggregation of Kraken 2 reports into a Krona table

    A shallow embedding of [kraken2krona.py].  Python integers are [Z],
    text is [string] (characters are code points below 256), the
    insertion-ordered [taxon_info_dict] is an association list, and the
    effects of the script (calls on the taxonomy tree, [log.info]
    messages, raised exceptions) are threaded through a small
    trace-and-exception monad. *)

From Stdlib Require Import ZArith List String Ascii Bool Lia Permutation.
From Stdlib Require Import DecimalString DecimalPos.
Import ListNotations.

Local Open Scope string_scope.
Local Open Scope list_scope.
Local Open Scope Z_scope.

(** ** Python built-ins used by the script *)

Module Py.

(** [str.isspace] on the code points below 256. *)
Definition isspace (c : ascii) : bool :=
  let n := N_of_ascii c in
  (((9 <=? n) && (n <=? 13)) || ((28 <=? n) && (n <=? 32))
   || (n =? 133) || (n =? 160))%N.

(** [str.split()] without arguments: the maximal runs of
    non-whitespace characters, in order.  [word] is the run being
    read, if any. *)
Fixpoint split_from (word : option string) (s : string) : list string :=
  match s with
  | EmptyString =>
      match word with Some w => [w] | None => [] end
  | String c s' =>
      if isspace c then
        match word with
        | Some w => w :: split_from None s'
        | None => split_from None s'
        end
      else
        match word with
        | Some w => split_from (Some (String.append w (String c EmptyString))) s'
        | None => split_from (Some (String c EmptyString)) s'
        end
  end.

Definition split (s : string) : list string := split_from None s.

(** The whitespace [int] skips around a literal: the ASCII whitespace
    of C, and the spaces above 127, which are first turned into
    blanks.  The separators 28 to 31 are whitespace for [split], not
    for [int]. *)
Definition int_space (c : ascii) : bool :=
  let n := N_of_ascii c in
  (((9 <=? n) && (n <=? 13)) || (n =? 32) || (n =? 133) || (n =? 160))%N.

Fixpoint skip_spaces (s : string) : string :=
  match s with
  | EmptyString => EmptyString
  | String c s' => if int_space c then skip_spaces s' else s
  end.

Fixpoint drop_final_spaces (s : string) : string :=
  match s with
  | EmptyString => EmptyString
  | String c s' =>
      match drop_final_spaces s' with
      | EmptyString => if int_space c then EmptyString else String c EmptyString
      | r => String c r
      end
  end.

Definition digit_value (c : ascii) : option Z :=
  let n := N_of_ascii c in
  if ((48 <=? n) && (n <=? 57))%N then Some (Z.of_N n - 48) else None.

(** The digit part of a base-10 literal: digits, with single
    underscores allowed between two digits.  [prev_digit] tells
    whether the previous character was a digit. *)
Fixpoint int_digits (acc : Z) (prev_digit : bool) (s : string) : option Z :=
  match s with
  | EmptyString => if prev_digit then Some acc else None
  | String c s' =>
      match digit_value c with
      | Some v => int_digits (10 * acc + v) true s'
      | None =>
          if Ascii.eqb c "_" && prev_digit then int_digits acc false s'
          else None
      end
  end.

(** [sys.int_max_str_digits], at its default: the most digits a
    decimal literal may have for [int] to convert it. *)
Definition int_max_str_digits : N := 4300.

(** The number of digits of a literal; leading zeros count, the sign
    and the underscores do not. *)
Fixpoint digit_count (s : string) : N :=
  match s with
  | EmptyString => 0%N
  | String c s' =>
      match digit_value c with
      | Some _ => N.succ (digit_count s')
      | None => digit_count s'
      end
  end.

(** [int(s)] for a string [s]: surrounding whitespace is dropped, an
    optional sign is read, then the digits, which may not be more than
    [int_max_str_digits].  [None] stands for the [ValueError] Python
    raises. *)
Definition int (s : string) : option Z :=
  let literal := drop_final_spaces (skip_spaces s) in
  if (int_max_str_digits <? digit_count literal)%N then None
  else
    match literal with
    | String "+" r => int_digits 0 false r
    | String "-" r => option_map Z.opp (int_digits 0 false r)
    | r => int_digits 0 false r
    end.

(** The decimal writing of an integer [n]: what [str(n)] gives when
    [n] has at most [int_max_str_digits] digits.  (For a longer one
    [str] raises [ValueError]; the writing is defined all the same.) *)
Definition str (n : Z) : string := NilEmpty.string_of_int (Z.to_int n).

End Py.

(** ** Effects: trace and exceptions *)

(** The three queries the script makes on [stringmeup]'s
    [TaxonomyTree]. *)
Inductive tree_query : Type :=
| GetLineage (tax_id : Z)
| GetRank (tax_id : Z)
| GetName (tax_id : Z).

(** What the script does that can be observed besides its output file:
    the queries on the tree and the three [log.info] messages. *)
Inductive event : Type :=
| Query (q : tree_query)
| LogReading (file : string)
| LogRemoving
| LogSaving (file : string).

Inductive exception : Type :=
| IndexError
| ValueError
| KeyError
| FileNotFoundError (file : string)
| TaxonomyError (q : tree_query).

Inductive result (A : Type) : Type :=
| Raise (e : exception)
| Return (a : A).
Arguments Raise {A} e.
Arguments Return {A} a.

(** A computation yields the events it performed, in order, and either
    a value or the exception that stopped it. *)
Definition M (A : Type) : Type := (list event * result A)%type.

Definition ret {A} (a : A) : M A := ([], Return a).
Definition raise {A} (e : exception) : M A := ([], Raise e).
Definition emit (ev : event) : M unit := ([ev], Return tt).

Definition bind {A B} (m : M A) (k : A -> M B) : M B :=
  match m with
  | (t, Raise e) => (t, Raise e)
  | (t, Return a) => let (t', r) := k a in (t ++ t', r)
  end.

Declare Scope monad_scope.
Delimit Scope monad_scope with monad.
Notation "x <- m ;; k" := (bind m (fun x => k))
  (at level 61, m at next level, right associativity) : monad_scope.
Notation "m ;;; k" := (bind m (fun _ => k))
  (at level 61, right associativity) : monad_scope.
Local Open Scope monad_scope.

(** A [for] loop whose body updates [acc] and may raise. *)
Fixpoint for_each {A S} (xs : list A) (acc : S) (body : A -> S -> M S) : M S :=
  match xs with
  | [] => ret acc
  | x :: xs' => acc' <- body x acc ;; for_each xs' acc' body
  end.

Definition trace {A} (m : M A) : list event := fst m.
Definition outcome {A} (m : M A) : result A := snd m.

(** ** The taxonomy tree *)

(** [TaxonomyTree] comes from the [stringmeup] package.  Only its three
    look-ups are used; each is a function of the tax ID, and [None]
    stands for a look-up that raises. *)
Record TaxonomyTree : Type := {
  get_lineage : Z -> option (list Z);
  get_rank : Z -> option string;
  get_name : Z -> option string
}.

Definition query {A} (q : tree_query) (answer : option A) : M A :=
  emit (Query q) ;;;
  match answer with
  | Some a => ret a
  | None => raise (TaxonomyError q)
  end.

Definition tt_get_lineage (tt : TaxonomyTree) (tax_id : Z) : M (list Z) :=
  query (GetLineage tax_id) (get_lineage tt tax_id).
Definition tt_get_rank (tt : TaxonomyTree) (tax_id : Z) : M string :=
  query (GetRank tax_id) (get_rank tt tax_id).
Definition tt_get_name (tt : TaxonomyTree) (tax_id : Z) : M string :=
  query (GetName tax_id) (get_name tt tax_id).

(** ** Data model *)

(** The eight rank attributes of [TaxonInfo], standing for the
    attribute names ['t_superkingdom'] .. ['t_species']. *)
Inductive rank_attr : Type :=
| A_superkingdom | A_kingdom | A_phylum | A_class
| A_order | A_family | A_genus | A_species.

(** [taxonomy_ranks], in the order of the source. *)
Definition taxonomy_ranks : list (string * rank_attr) :=
  [ ("superkingdom", A_superkingdom); ("kingdom", A_kingdom);
    ("phylum", A_phylum); ("class", A_class); ("order", A_order);
    ("family", A_family); ("genus", A_genus); ("species", A_species) ].

Fixpoint assoc_string {V} (k : string) (l : list (string * V)) : option V :=
  match l with
  | [] => None
  | (k', v) :: l' => if String.eqb k k' then Some v else assoc_string k l'
  end.

(** The dict built by [get_taxonomy]: one entry per rank attribute,
    [None] where no name was stored. *)
Record TaxonomyDict : Type := {
  d_superkingdom : option string;
  d_kingdom : option string;
  d_phylum : option string;
  d_class : option string;
  d_order : option string;
  d_family : option string;
  d_genus : option string;
  d_species : option string
}.

(** [taxonomy_dict.values()] *)
Definition dict_values (d : TaxonomyDict) : list (option string) :=
  [ d_superkingdom d; d_kingdom d; d_phylum d; d_class d;
    d_order d; d_family d; d_genus d; d_species d ].

Definition empty_taxonomy_dict : TaxonomyDict :=
  {| d_superkingdom := None; d_kingdom := None; d_phylum := None;
     d_class := None; d_order := None; d_family := None;
     d_genus := None; d_species := None |}.

(** [taxonomy_dict[a] = v] *)
Definition setitem (a : rank_attr) (v : option string) (d : TaxonomyDict)
  : TaxonomyDict :=
  match a with
  | A_superkingdom =>
      {| d_superkingdom := v; d_kingdom := d_kingdom d; d_phylum := d_phylum d;
         d_class := d_class d; d_order := d_order d; d_family := d_family d;
         d_genus := d_genus d; d_species := d_species d |}
  | A_kingdom =>
      {| d_superkingdom := d_superkingdom d; d_kingdom := v; d_phylum := d_phylum d;
         d_class := d_class d; d_order := d_order d; d_family := d_family d;
         d_genus := d_genus d; d_species := d_species d |}
  | A_phylum =>
      {| d_superkingdom := d_superkingdom d; d_kingdom := d_kingdom d; d_phylum := v;
         d_class := d_class d; d_order := d_order d; d_family := d_family d;
         d_genus := d_genus d; d_species := d_species d |}
  | A_class =>
      {| d_superkingdom := d_superkingdom d; d_kingdom := d_kingdom d;
         d_phylum := d_phylum d; d_class := v; d_order := d_order d;
         d_family := d_family d; d_genus := d_genus d; d_species := d_species d |}
  | A_order =>
      {| d_superkingdom := d_superkingdom d; d_kingdom := d_kingdom d;
         d_phylum := d_phylum d; d_class := d_class d; d_order := v;
         d_family := d_family d; d_genus := d_genus d; d_species := d_species d |}
  | A_family =>
      {| d_superkingdom := d_superkingdom d; d_kingdom := d_kingdom d;
         d_phylum := d_phylum d; d_class := d_class d; d_order := d_order d;
         d_family := v; d_genus := d_genus d; d_species := d_species d |}
  | A_genus =>
      {| d_superkingdom := d_superkingdom d; d_kingdom := d_kingdom d;
         d_phylum := d_phylum d; d_class := d_class d; d_order := d_order d;
         d_family := d_family d; d_genus := v; d_species := d_species d |}
  | A_species =>
      {| d_superkingdom := d_superkingdom d; d_kingdom := d_kingdom d;
         d_phylum := d_phylum d; d_class := d_class d; d_order := d_order d;
         d_family := d_family d; d_genus := d_genus d; d_species := v |}
  end.

Record TaxonInfo : Type := {
  hits_at_clade : Z;
  hits_at_taxon : Z;
  t_id : Z;
  t_superkingdom : option string;
  t_kingdom : option string;
  t_phylum : option string;
  t_class : option string;
  t_order : option string;
  t_family : option string;
  t_genus : option string;
  t_species : option string
}.

(** The [TaxonInfo] built from the keyword arguments in [taxon_dict],
    once ['t_id'], ['hits_at_clade'] and ['hits_at_taxon'] have been
    added to that dict. *)
Definition new_TaxonInfo (taxon_dict : TaxonomyDict)
    (tax_id hits_clade hits_taxon : Z) : TaxonInfo :=
  {| hits_at_clade := hits_clade; hits_at_taxon := hits_taxon; t_id := tax_id;
     t_superkingdom := d_superkingdom taxon_dict;
     t_kingdom := d_kingdom taxon_dict;
     t_phylum := d_phylum taxon_dict;
     t_class := d_class taxon_dict;
     t_order := d_order taxon_dict;
     t_family := d_family taxon_dict;
     t_genus := d_genus taxon_dict;
     t_species := d_species taxon_dict |}.

(** The eight rank fields of a record, in column order. *)
Definition ranks (r : TaxonInfo) : list (option string) :=
  [ t_superkingdom r; t_kingdom r; t_phylum r; t_class r;
    t_order r; t_family r; t_genus r; t_species r ].

(** The two in-place updates [+=] of [parse_report]. *)
Definition add_hits (hits_clade hits_taxon : Z) (r : TaxonInfo) : TaxonInfo :=
  {| hits_at_clade := hits_at_clade r + hits_clade;
     hits_at_taxon := hits_at_taxon r + hits_taxon;
     t_id := t_id r;
     t_superkingdom := t_superkingdom r; t_kingdom := t_kingdom r;
     t_phylum := t_phylum r; t_class := t_class r; t_order := t_order r;
     t_family := t_family r; t_genus := t_genus r; t_species := t_species r |}.

(** [taxon_info_dict]: tax ID to [TaxonInfo], in insertion order. *)
Definition TaxonInfoDict : Type := list (Z * TaxonInfo).

Fixpoint lookup {V} (k : Z) (d : list (Z * V)) : option V :=
  match d with
  | [] => None
  | (k', v) :: d' => if k =? k' then Some v else lookup k d'
  end.

Definition contains {V} (k : Z) (d : list (Z * V)) : bool :=
  match lookup k d with Some _ => true | None => false end.

(** Mutation of the object stored under [k]; its place in the dict
    does not change. *)
Fixpoint update {V} (k : Z) (f : V -> V) (d : list (Z * V)) : list (Z * V) :=
  match d with
  | [] => []
  | (k', v) :: d' =>
      if k =? k' then (k', f v) :: d' else (k', v) :: update k f d'
  end.

(** Insertion of a key that is not in the dict yet. *)
Definition insert_new {V} (k : Z) (v : V) (d : list (Z * V)) : list (Z * V) :=
  d ++ [(k, v)].

Definition keys {V} (d : list (Z * V)) : list Z := map fst d.
Definition values {V} (d : list (Z * V)) : list V := map snd d.

(** ** get_taxonomy *)

(** The body of the loop over the lineage: the name of a tax ID of the
    lineage is stored when its rank is one of [taxonomy_ranks]. *)
Definition store_rank (tt : TaxonomyTree) (lineage_tax_id : Z)
    (taxonomy_dict : TaxonomyDict) : M TaxonomyDict :=
  lineage_tax_id_rank <- tt_get_rank tt lineage_tax_id ;;
  match assoc_string lineage_tax_id_rank taxonomy_ranks with
  | Some taxon_info_rank =>
      taxon_info_rank_name <- tt_get_name tt lineage_tax_id ;;
      ret (setitem taxon_info_rank (Some taxon_info_rank_name) taxonomy_dict)
  | None => ret taxonomy_dict
  end.

Definition get_taxonomy (tax_id : Z) (tt : TaxonomyTree) : M TaxonomyDict :=
  let taxonomy_dict := empty_taxonomy_dict in
  if tax_id =? 0 then ret taxonomy_dict
  else
    lineage <- tt_get_lineage tt tax_id ;;
    for_each lineage taxonomy_dict (store_rank tt).

(** ** parse_report *)

(** [int(line[i])]: [IndexError] when the line has no field [i],
    [ValueError] when the field is not an integer literal. *)
Definition int_field (line : list string) (i : nat) : M Z :=
  match nth_error line i with
  | None => raise IndexError
  | Some s =>
      match Py.int s with
      | None => raise ValueError
      | Some n => ret n
      end
  end.

(** The body of the loop over the lines of a report. *)
Definition parse_line (tt : TaxonomyTree) (line : string)
    (taxon_info_dict : TaxonInfoDict) : M TaxonInfoDict :=
  let line := Py.split line in
  hits_at_clade <- int_field line 1 ;;
  hits_at_taxon <- int_field line 2 ;;
  tax_id <- int_field line 4 ;;
  if contains tax_id taxon_info_dict then
    ret (update tax_id (add_hits hits_at_clade hits_at_taxon) taxon_info_dict)
  else
    taxon_dict <- get_taxonomy tax_id tt ;;
    ret (insert_new tax_id
           (new_TaxonInfo taxon_dict tax_id hits_at_clade hits_at_taxon)
           taxon_info_dict).

(** An open report: its name and its lines. *)
Record TextIOWrapper : Type := {
  name : string;
  readlines : list string
}.

Definition parse_report (report_file_object : TextIOWrapper)
    (taxon_info_dict : TaxonInfoDict) (tt : TaxonomyTree)
  : M TaxonInfoDict :=
  emit (LogReading (name report_file_object)) ;;;
  for_each (readlines report_file_object) taxon_info_dict (parse_line tt).

(** ** read_file *)

(** What [open] and [gzip.open] give for a file name: the lines of the
    text, or [None] when the file cannot be opened.  A file that opens
    is taken to be read to its end: its lines are those the loop of
    [parse_report] gets before the file is exhausted. *)
Definition FileSystem : Type := string -> option (list string).

Definition read_file (fs : FileSystem) (filename : string) : M TextIOWrapper :=
  match fs filename with
  | Some text => ret {| name := filename; readlines := text |}
  | None => raise (FileNotFoundError filename)
  end.

(** ** The part of pandas the script uses *)

Module Pandas.

(** A frame of [TaxonInfo] rows after [set_index('t_id')]: each row
    with its index label. *)
Definition DataFrame : Type := list (Z * TaxonInfo).

Inductive column : Type :=
| C_hits_at_clade
| C_hits_at_taxon
| C_rank (a : rank_attr).

Inductive cell : Type :=
| IntCell (n : Z)
| ObjCell (v : option string).

Definition getattr (a : rank_attr) (r : TaxonInfo) : option string :=
  match a with
  | A_superkingdom => t_superkingdom r
  | A_kingdom => t_kingdom r
  | A_phylum => t_phylum r
  | A_class => t_class r
  | A_order => t_order r
  | A_family => t_family r
  | A_genus => t_genus r
  | A_species => t_species r
  end.

Definition get_cell (r : TaxonInfo) (c : column) : cell :=
  match c with
  | C_hits_at_clade => IntCell (hits_at_clade r)
  | C_hits_at_taxon => IntCell (hits_at_taxon r)
  | C_rank a => ObjCell (getattr a r)
  end.

(** [pd.DataFrame(records).set_index('t_id')].  A frame built from an
    empty list has no columns, and [set_index] raises [KeyError]. *)
Definition DataFrame_set_index (records : list TaxonInfo) : M DataFrame :=
  match records with
  | [] => raise KeyError
  | _ => ret (map (fun r => (t_id r, r)) records)
  end.

Definition index_values (df : DataFrame) : list Z := map fst df.

(** [label in df.index.values] *)
Definition index_contains (label : Z) (df : DataFrame) : bool :=
  existsb (Z.eqb label) (index_values df).

(** [df.drop(label, inplace=True)] *)
Definition drop (label : Z) (df : DataFrame) : M DataFrame :=
  if index_contains label df
  then ret (filter (fun row => negb (fst row =? label)) df)
  else raise KeyError.

(** [df[columns].isnull().all(axis=1)] for one row. *)
Definition all_null (columns : list rank_attr) (r : TaxonInfo) : bool :=
  forallb (fun a => match getattr a r with None => true | Some _ => false end)
          columns.

(** [df[mask]] for the mask above. *)
Definition rows_all_null (columns : list rank_attr) (df : DataFrame)
  : DataFrame :=
  filter (fun row => all_null columns (snd row)) df.

Definition set_superkingdom (v : string) (r : TaxonInfo) : TaxonInfo :=
  {| hits_at_clade := hits_at_clade r; hits_at_taxon := hits_at_taxon r;
     t_id := t_id r;
     t_superkingdom := Some v; t_kingdom := t_kingdom r;
     t_phylum := t_phylum r; t_class := t_class r; t_order := t_order r;
     t_family := t_family r; t_genus := t_genus r; t_species := t_species r |}.

(** [df.at[label, 't_superkingdom'] = v] *)
Definition at_set_superkingdom (label : Z) (v : string) (df : DataFrame)
  : DataFrame :=
  map (fun row => if fst row =? label
                  then (fst row, set_superkingdom v (snd row)) else row) df.

(** [df[columns]]: the selected cells of every row. *)
Definition select (columns : list column) (df : DataFrame) : list (list cell) :=
  map (fun row => map (get_cell (snd row)) columns) df.

(** *** to_csv *)

Definition quotechar : ascii := ascii_of_nat 34.
Definition LF : ascii := ascii_of_nat 10.

(** Text of a cell: [str] of an integer, the empty string for a
    missing value. *)
Definition cell_text (c : cell) : string :=
  match c with
  | IntCell n => Py.str n
  | ObjCell (Some s) => s
  | ObjCell None => EmptyString
  end.

(** The characters that make the writer quote a field: the separator,
    the quote character and the characters of the line terminator,
    which is [os.linesep], a line feed.  A carriage return is written
    as any other character. *)
Definition special (sep c : ascii) : bool :=
  Ascii.eqb c sep || Ascii.eqb c quotechar || Ascii.eqb c LF.

Fixpoint needs_quote (sep : ascii) (s : string) : bool :=
  match s with
  | EmptyString => false
  | String c s' => special sep c || needs_quote sep s'
  end.

Fixpoint double_quotes (s : string) : string :=
  match s with
  | EmptyString => EmptyString
  | String c s' =>
      if Ascii.eqb c quotechar
      then String c (String c (double_quotes s'))
      else String c (double_quotes s')
  end.

(** Minimal quoting: a field is quoted when it holds the separator,
    the quote character or a line feed; quote characters inside are
    doubled. *)
Definition csv_field (sep : ascii) (s : string) : string :=
  if needs_quote sep s
  then String quotechar
         (String.append (double_quotes s) (String quotechar EmptyString))
  else s.

(** A row whose only field is empty is written as a pair of quote
    characters. *)
Definition csv_row (sep : ascii) (fields : list string) : string :=
  match fields with
  | [EmptyString] => String quotechar (String quotechar EmptyString)
  | _ => String.concat (String sep EmptyString) (map (csv_field sep) fields)
  end.

(** [to_csv(file, index=False, header=False, sep=...)]: the rows
    written, one string per row, without the line terminator. *)
Definition to_csv (sep : ascii) (table : list (list cell)) : list string :=
  map (fun row => csv_row sep (map cell_text row)) table.

End Pandas.

(** ** kraken2krona *)

Record Namespace : Type := {
  kraken_report : list string;
  output_file : string;
  include_unclassified : bool
}.

Definition TAB : ascii := ascii_of_nat 9.

(** The main loop over the report files. *)
Definition parse_reports (kraken_report : list string) (fs : FileSystem)
    (tt : TaxonomyTree) : M TaxonInfoDict :=
  for_each kraken_report [] (fun report_filename taxon_info_dict =>
    report_file_object <- read_file fs report_filename ;;
    parse_report report_file_object taxon_info_dict tt).

(** "Drop unclassified row if user specified so". *)
Definition drop_unclassified (include_unclassified : bool)
    (taxon_info_df : Pandas.DataFrame) : M Pandas.DataFrame :=
  if negb include_unclassified then
    if Pandas.index_contains 0 taxon_info_df then
      emit LogRemoving ;;;
      Pandas.drop 0 taxon_info_df
    else ret taxon_info_df
  else ret taxon_info_df.

(** The body of the loop of the naming pass. *)
Definition name_row (tt : TaxonomyTree) (tax_id : Z)
    (taxon_info_df : Pandas.DataFrame) : M Pandas.DataFrame :=
  tax_id_name <- (if tax_id =? 0 then ret "Unclassified"
                  else tt_get_name tt tax_id) ;;
  ret (Pandas.at_set_superkingdom tax_id tax_id_name taxon_info_df).

(** "Set names for the rows without any values in the taxonomic
    levels". *)
Definition name_empty_rows (tt : TaxonomyTree) (taxonomy_cols : list rank_attr)
    (taxon_info_df : Pandas.DataFrame) : M Pandas.DataFrame :=
  let taxonomically_empty_rows :=
    Pandas.rows_all_null taxonomy_cols taxon_info_df in
  for_each (Pandas.index_values taxonomically_empty_rows) taxon_info_df
    (name_row tt).

(** The script's entry point, for parsed arguments [args], the files
    [fs] and the tree [tt] built from the names and nodes dumps.  The
    value is the text written to [args.output_file]; when an exception
    is raised nothing has been written. *)
Definition kraken2krona (args : Namespace) (fs : FileSystem)
    (tt : TaxonomyTree) : M (list string) :=
  taxon_info_dict <- parse_reports (kraken_report args) fs tt ;;
  let taxon_info_list := values taxon_info_dict in
  taxon_info_df <- Pandas.DataFrame_set_index taxon_info_list ;;
  let taxonomy_cols := map snd taxonomy_ranks in
  let cols := Pandas.C_hits_at_taxon :: map Pandas.C_rank taxonomy_cols in
  taxon_info_df <- drop_unclassified (include_unclassified args) taxon_info_df ;;
  taxon_info_df <- name_empty_rows tt taxonomy_cols taxon_info_df ;;
  emit (LogSaving (output_file args)) ;;;
  ret (Pandas.to_csv TAB (Pandas.select cols taxon_info_df)).

(** ** Notions used to state the properties *)

(** The three integers [parse_report] reads from a line:
    [(hits_at_clade, hits_at_taxon, tax_id)], when all three are
    there. *)
Definition entry : Type := (Z * Z * Z)%type.

Definition entry_id (e : entry) : Z := snd e.
Definition entry_clade (e : entry) : Z := fst (fst e).
Definition entry_taxon (e : entry) : Z := snd (fst e).

Definition line_fields (line : string) : option entry :=
  let fields := Py.split line in
  match nth_error fields 1, nth_error fields 2, nth_error fields 4 with
  | Some a, Some b, Some c =>
      match Py.int a, Py.int b, Py.int c with
      | Some x, Some y, Some z => Some (x, y, z)
      | _, _, _ => None
      end
  | _, _, _ => None
  end.

(** Field [i] of the line is there and is not an integer literal. *)
Definition not_an_integer (line : string) (i : nat) : Prop :=
  exists s, nth_error (Py.split line) i = Some s /\ Py.int s = None.

(** A line with fewer than 5 fields, or with a non-integer in one of
    the positions 1, 2 and 4. *)
Definition malformed (line : string) : Prop :=
  (List.length (Py.split line) < 5)%nat
  \/ not_an_integer line 1 \/ not_an_integer line 2 \/ not_an_integer line 4.

(** The entries of the lines of a text that have one. *)
Definition entries (text : list string) : list entry :=
  flat_map (fun line => match line_fields line with
                        | Some e => [e]
                        | None => []
                        end) text.

(** All the entries of the report files, in the order they are read. *)
Definition report_entries (fs : FileSystem) (files : list string) : list entry :=
  flat_map (fun f => match fs f with
                     | Some text => entries text
                     | None => []
                     end) files.

Definition for_id (tax_id : Z) (e : entry) : bool := entry_id e =? tax_id.

Definition seen (tax_id : Z) (es : list entry) : bool :=
  existsb (for_id tax_id) es.

Definition clade_sum (tax_id : Z) (es : list entry) : Z :=
  fold_right Z.add 0 (map entry_clade (filter (for_id tax_id) es)).

Definition taxon_sum (tax_id : Z) (es : list entry) : Z :=
  fold_right Z.add 0 (map entry_taxon (filter (for_id tax_id) es)).

(** The two counters of a tax ID, when it has a record. *)
Definition counters (d : TaxonInfoDict) (tax_id : Z) : option (Z * Z) :=
  option_map (fun r => (hits_at_clade r, hits_at_taxon r)) (lookup tax_id d).

(** Two runs end with the same counters: both raise, or both return
    and every tax ID has the same counters in the two dicts. *)
Definition same_counters (m1 m2 : M TaxonInfoDict) : Prop :=
  match outcome m1, outcome m2 with
  | Return d1, Return d2 =>
      forall tax_id, counters d1 tax_id = counters d2 tax_id
  | Raise _, Raise _ => True
  | _, _ => False
  end.

(** The rank fields of a record, as the dict they were built from. *)
Definition taxonomy_of (r : TaxonInfo) : TaxonomyDict :=
  {| d_superkingdom := t_superkingdom r; d_kingdom := t_kingdom r;
     d_phylum := t_phylum r; d_class := t_class r; d_order := t_order r;
     d_family := t_family r; d_genus := t_genus r; d_species := t_species r |}.

(** The tax IDs whose lineage was asked of the tree, in order. *)
Definition lineage_queries (t : list event) : list Z :=
  flat_map (fun ev => match ev with
                      | Query (GetLineage i) => [i]
                      | _ => []
                      end) t.

(** The tax IDs whose name was asked of the tree, in order. *)
Definition name_queries (t : list event) : list Z :=
  flat_map (fun ev => match ev with
                      | Query (GetName i) => [i]
                      | _ => []
                      end) t.

Definition nonzero (k : Z) : bool := negb (k =? 0).

(** The name the naming pass gives to a row without ranks. *)
Definition display_name (tt : TaxonomyTree) (tax_id : Z) : option string :=
  if tax_id =? 0 then Some "Unclassified" else get_name tt tax_id.

(** *** Reading a delimited row *)

(** The fields of a row written with minimal quoting.  [read] gives
    the fields of the rest of the row, the first of them being the
    rest of the field that is being read. *)
Inductive reader_state : Type :=
| StartField | InField | InQuoted | QuoteInQuoted.

Definition push (c : ascii) (fields : list string) : list string :=
  match fields with
  | f :: fs => String c f :: fs
  | [] => [String c EmptyString]
  end.

Fixpoint read (sep : ascii) (st : reader_state) (s : string) : list string :=
  match s with
  | EmptyString => [EmptyString]
  | String c s' =>
      match st with
      | StartField =>
          if Ascii.eqb c Pandas.quotechar then read sep InQuoted s'
          else if Ascii.eqb c sep then EmptyString :: read sep StartField s'
          else push c (read sep InField s')
      | InField =>
          if Ascii.eqb c sep then EmptyString :: read sep StartField s'
          else push c (read sep InField s')
      | InQuoted =>
          if Ascii.eqb c Pandas.quotechar then read sep QuoteInQuoted s'
          else push c (read sep InQuoted s')
      | QuoteInQuoted =>
          if Ascii.eqb c Pandas.quotechar then push c (read sep InQuoted s')
          else if Ascii.eqb c sep then EmptyString :: read sep StartField s'
          else push c (read sep InField s')
      end
  end.

Definition csv_fields (sep : ascii) (row : string) : list string :=
  read sep StartField row.

(** The fields of an output row, read with the quoting it was written
    with: a tab between quote characters is part of a field. *)
Definition fields (row : string) : list string := csv_fields TAB row.

(** The pieces of a text between its separators, as [str.split(sep)]
    gives them. *)
Fixpoint split_on (sep : ascii) (s : string) : list string :=
  match s with
  | EmptyString => [EmptyString]
  | String c s' =>
      if Ascii.eqb c sep then EmptyString :: split_on sep s'
      else push c (split_on sep s')
  end.

(** The tab-separated fields of an output row: what lies between its
    tabs. *)
Definition tab_separated (row : string) : list string := split_on TAB row.

(** The text of a rank field: empty when the rank is absent. *)
Definition field_text (v : option string) : string :=
  match v with Some s => s | None => EmptyString end.

(** The nine fields a record is emitted with. *)
Definition krona_fields (r : TaxonInfo) : list string :=
  Py.str (hits_at_taxon r) :: map field_text (ranks r).

(** A record under another tax ID and with another clade count. *)
Definition relabel (tax_id hits_clade : Z) (r : TaxonInfo) : TaxonInfo :=
  {| hits_at_clade := hits_clade; hits_at_taxon := hits_at_taxon r;
     t_id := tax_id;
     t_superkingdom := t_superkingdom r; t_kingdom := t_kingdom r;
     t_phylum := t_phylum r; t_class := t_class r; t_order := t_order r;
     t_family := t_family r; t_genus := t_genus r; t_species := t_species r |}.

(** The row a record is emitted as. *)
Definition krona_row (r : TaxonInfo) : string :=
  Pandas.csv_row TAB (krona_fields r).

(** The first rank field of an output row is [v]. *)
Definition first_rank_is (v : string) (row : string) : Prop :=
  nth_error (fields row) 1 = Some v.

(** *** The order of the passes *)

(** The order of section 4.3 of the specification: the naming pass
    runs on the merged records before the unclassified row is
    dropped. *)
Definition kraken2krona_naming_first (args : Namespace) (fs : FileSystem)
    (tt : TaxonomyTree) : M (list string) :=
  taxon_info_dict <- parse_reports (kraken_report args) fs tt ;;
  taxon_info_df <- Pandas.DataFrame_set_index (values taxon_info_dict) ;;
  let taxonomy_cols := map snd taxonomy_ranks in
  let cols := Pandas.C_hits_at_taxon :: map Pandas.C_rank taxonomy_cols in
  taxon_info_df <- name_empty_rows tt taxonomy_cols taxon_info_df ;;
  taxon_info_df <- drop_unclassified (include_unclassified args) taxon_info_df ;;
  emit (LogSaving (output_file args)) ;;;
  ret (Pandas.to_csv TAB (Pandas.select cols taxon_info_df)).

(** In a trace, every name look-up comes before the removal of the
    unclassified row. *)
Definition naming_before_removal (t : list event) : Prop :=
  forall t1 t2, t = t1 ++ LogRemoving :: t2 -> name_queries t2 = [].

(** *** The records of a run *)

Definition is_return {A} (m : M A) : bool :=
  match outcome m with Return _ => true | Raise _ => false end.

(** A line that [parse_report] can process: it has its three integers
    and the lineage of its tax ID can be resolved. *)
Definition line_ok (tt : TaxonomyTree) (line : string) : bool :=
  match line_fields line with
  | Some e => is_return (get_taxonomy (entry_id e) tt)
  | None => false
  end.

Definition file_ok (tt : TaxonomyTree) (fs : FileSystem) (f : string) : bool :=
  match fs f with
  | Some text => forallb (line_ok tt) text
  | None => false
  end.

(** The counters of a tax ID after the entries [es] have been added to
    the counters [o] it had. *)
Definition merge (o : option (Z * Z)) (tax_id : Z) (es : list entry)
  : option (Z * Z) :=
  if seen tax_id es then
    Some (match o with
          | Some (c, t) => (c + clade_sum tax_id es, t + taxon_sum tax_id es)
          | None => (clade_sum tax_id es, taxon_sum tax_id es)
          end)
  else o.

(** A record stored under the tax ID it belongs to, with the rank
    fields [get_taxonomy] gives for that ID. *)
Definition resolved (tt : TaxonomyTree) (kv : Z * TaxonInfo) : Prop :=
  t_id (snd kv) = fst kv
  /\ outcome (get_taxonomy (fst kv) tt) = Return (taxonomy_of (snd kv)).

Definition wf (tt : TaxonomyTree) (d : TaxonInfoDict) : Prop :=
  NoDup (keys d) /\ Forall (resolved tt) d.

(** What a computation [m] that started from the dict [d] has done,
    when [ok] tells whether its input could be processed and [es] are
    the entries of that input. *)
Definition summary (tt : TaxonomyTree) (m : M TaxonInfoDict)
    (d : TaxonInfoDict) (ok : bool) (es : list entry) : Prop :=
  match outcome m with
  | Return d' =>
      ok = true
      /\ wf tt d'
      /\ (forall k, counters d' k = merge (counters d k) k es)
      /\ exists new, keys d' = keys d ++ new
                     /\ lineage_queries (trace m) = filter nonzero new
  | Raise _ => ok = false
  end.

(** A rank field is empty or holds a name of the tree. *)
Definition from_tree (tt : TaxonomyTree) (v : option string) : Prop :=
  match v with
  | Some s => exists i, get_name tt i = Some s
  | None => True
  end.

(** *** A small taxonomy and a few reports *)

Module Sample.

(** root (1) > cellular organisms (131567) > Bacteria (2, a
    superkingdom) > 1234 (a species) and > 99 (a genus). *)
Definition tree : TaxonomyTree :=
  {| get_lineage := fun i =>
       if i =? 1 then Some [1]
       else if i =? 131567 then Some [1; 131567]
       else if i =? 2 then Some [1; 131567; 2]
       else if i =? 1234 then Some [1; 131567; 2; 1234]
       else if i =? 99 then Some [1; 131567; 2; 99]
       else None;
     get_rank := fun i =>
       if i =? 2 then Some "superkingdom"
       else if i =? 1234 then Some "species"
       else if i =? 99 then Some "genus"
       else if (i =? 1) || (i =? 131567) then Some "no rank"
       else None;
     get_name := fun i =>
       if i =? 1 then Some "root"
       else if i =? 131567 then Some "cellular organisms"
       else if i =? 2 then Some "Bacteria"
       else if i =? 1234 then Some "X"
       else if i =? 99 then Some "Y"
       else None |}.

(** The same tree, where the root is called "Unclassified". *)
Definition odd_tree : TaxonomyTree :=
  {| get_lineage := get_lineage tree;
     get_rank := get_rank tree;
     get_name := fun i => if i =? 1 then Some "Unclassified"
                          else get_name tree i |}.

(** The same tree, where the name of the species 1234 holds a tab. *)
Definition tab_tree : TaxonomyTree :=
  {| get_lineage := get_lineage tree;
     get_rank := get_rank tree;
     get_name := fun i => if i =? 1234 then Some (String "X" (String TAB "sp"))
                          else get_name tree i |}.

Definition files : FileSystem := fun f =>
  if String.eqb f "a.report" then
    Some [ "50.00 12 8 S 1234 Some name" ]
  else if String.eqb f "b.report" then
    Some [ " 20.00 20 5 G 99 Y"; " 10.00 10 3 U 0 unclassified" ]
  else if String.eqb f "c.report" then
    Some [ " 28.00 28 7 G 99 Y"; " 80.00 80 1 R 1 root" ]
  else if String.eqb f "negative.report" then
    Some [ " 20.00 20 5 G 99 Y"; " 10.00 -3 -2 G 99 Y" ]
  else if String.eqb f "short.report" then
    Some [ " 20.00 20 5 G 99 Y"; "10.00 4 4"; " 80.00 80 1 R 1 root" ]
  else if String.eqb f "empty.report" then
    Some []
  else None.

Definition args (reports : list string) (unclassified : bool) : Namespace :=
  {| kraken_report := reports; output_file := "krona.tsv";
     include_unclassified := unclassified |}.

End Sample.

(** *** The emitted table *)

Definition taxonomy_cols : list rank_attr := map snd taxonomy_ranks.

(** The rows that are emitted: all of them, or all but the one of tax
    ID 0. *)
Definition keep (include_unclassified : bool) (row : Z * TaxonInfo) : bool :=
  include_unclassified || nonzero (fst row).

(** The tree has no name for the tax ID. *)
Definition unnamed (tt : TaxonomyTree) (tax_id : Z) : bool :=
  match display_name tt tax_id with Some _ => false | None => true end.

(** A row with the name [display_name] gives to its tax ID. *)
Definition named (tt : TaxonomyTree) (row : Z * TaxonInfo) : Z * TaxonInfo :=
  match display_name tt (fst row) with
  | Some n => (fst row, Pandas.set_superkingdom n (snd row))
  | None => row
  end.

(** What the naming pass makes of a row: a row without ranks gets its
    name. *)
Definition rename (tt : TaxonomyTree) (row : Z * TaxonInfo) : Z * TaxonInfo :=
  if Pandas.all_null taxonomy_cols (snd row) then named tt row else row.

(** What the naming loop over [ids] makes of a row. *)
Definition rename_in (tt : TaxonomyTree) (ids : list Z) (row : Z * TaxonInfo)
  : Z * TaxonInfo :=
  if existsb (Z.eqb (fst row)) ids then named tt row else row.

(** The tax IDs of the rows without ranks. *)
Definition empty_ids (df : Pandas.DataFrame) : list Z :=
  Pandas.index_values (Pandas.rows_all_null taxonomy_cols df).

(** The events of the part of the run that follows the main loop, when
    it is completed: removal of the unclassified row, naming pass,
    saving. *)
Definition finishing_trace (args : Namespace) (d : TaxonInfoDict) : list event :=
  (if negb (include_unclassified args) && contains 0 d then [LogRemoving] else [])
  ++ map (fun k => Query (GetName k))
       (filter nonzero (empty_ids (filter (keep (include_unclassified args)) d)))
  ++ [LogSaving (output_file args)].

(** The outcome of the part of the run that follows the main loop,
    for the dict [d] the main loop returned. *)
Definition krona_table (tt : TaxonomyTree) (args : Namespace)
    (d : TaxonInfoDict) : result (list string) :=
  match d with
  | [] => Raise KeyError
  | _ =>
      let df := filter (keep (include_unclassified args)) d in
      match find (unnamed tt) (empty_ids df) with
      | Some k => Raise (TaxonomyError (GetName k))
      | None => Return (map (fun row => krona_row (snd row)) (map (rename tt) df))
      end
  end.

(** [s] put in front of the first of the fields. *)
Definition prepend (s : string) (fields : list string) : list string :=
  match fields with
  | f :: fs => String.append s f :: fs
  | [] => [s]
  end.

(** What follows a field in a row: nothing, or the separator and the
    other fields. *)
Definition field_end (sep : ascii) (rest : string) : Prop :=
  rest = EmptyString \/ exists r, rest = String sep r.

(** The property that no counter of a record ever decreases when a
    line is ingested. *)
Definition counters_never_decrease : Prop :=
  forall tt line d d' k r r',
    wf tt d ->
    outcome (parse_line tt line d) = Return d' ->
    lookup k d = Some r -> lookup k d' = Some r' ->
    hits_at_clade r <= hits_at_clade r' /\ hits_at_taxon r <= hits_at_taxon r'.

(** *** Scenario A *)

(** Fields joined by tabs. *)
Definition tab_row (fs : list string) : string :=
  String.concat (String TAB EmptyString) fs.

Module ScenarioA.

Definition line : string := "50.00 12 8 S 1234 Some name".

(** The lineage of the scenario: superkingdom "Bacteria", species
    "X", nothing at the other ranks. *)
Definition lineage : TaxonomyDict :=
  {| d_superkingdom := Some "Bacteria"; d_kingdom := None;
     d_phylum := None; d_class := None; d_order := None;
     d_family := None; d_genus := None; d_species := Some "X" |}.

(** The row as the specification writes it: two tabs after the
    count, six tabs before the species. *)
Definition row_of_spec : string :=
  tab_row [ "8"; ""; "Bacteria"; ""; ""; ""; ""; ""; "X" ].

(** The row with the superkingdom in the first rank field. *)
Definition row : string :=
  tab_row [ "8"; "Bacteria"; ""; ""; ""; ""; ""; ""; "X" ].

End ScenarioA.

(** *** Lineage resolution, rank by rank *)

(** [taxonomy_dict[a]] *)
Definition getitem (a : rank_attr) (d : TaxonomyDict) : option string :=
  match a with
  | A_superkingdom => d_superkingdom d
  | A_kingdom => d_kingdom d
  | A_phylum => d_phylum d
  | A_class => d_class d
  | A_order => d_order d
  | A_family => d_family d
  | A_genus => d_genus d
  | A_species => d_species d
  end.

Definition rank_attr_eqb (a b : rank_attr) : bool :=
  match a, b with
  | A_superkingdom, A_superkingdom | A_kingdom, A_kingdom
  | A_phylum, A_phylum | A_class, A_class | A_order, A_order
  | A_family, A_family | A_genus, A_genus | A_species, A_species => true
  | _, _ => false
  end.

(** The attribute under which the name of a tax ID is stored: the one
    of its rank, when the rank is one of [taxonomy_ranks]. *)
Definition attr_of (tt : TaxonomyTree) (tax_id : Z) : option rank_attr :=
  match get_rank tt tax_id with
  | Some rk => assoc_string rk taxonomy_ranks
  | None => None
  end.

(** The tax ID is stored under [a]. *)
Definition stored_under (tt : TaxonomyTree) (a : rank_attr) (tax_id : Z) : bool :=
  match attr_of tt tax_id with
  | Some b => rank_attr_eqb b a
  | None => false
  end.

(** The rank of the tax ID is one of [taxonomy_ranks]. *)
Definition tracked (tt : TaxonomyTree) (tax_id : Z) : bool :=
  match attr_of tt tax_id with Some _ => true | None => false end.

(** The tax IDs whose rank was asked of the tree, in order. *)
Definition rank_queries (t : list event) : list Z :=
  flat_map (fun ev => match ev with
                      | Query (GetRank i) => [i]
                      | _ => []
                      end) t.

(** *** The records, in closed form *)

(** The tax IDs seen so far, after one more is seen. *)
Definition sight (seen_ids : list Z) (tax_id : Z) : list Z :=
  if existsb (Z.eqb tax_id) seen_ids then seen_ids else seen_ids ++ [tax_id].

(** The distinct tax IDs of a list, in the order of their first
    occurrence. *)
Definition first_sightings (ids : list Z) : list Z := fold_left sight ids [].

(** The dict [get_taxonomy] gives for a tax ID it resolves. *)
Definition lineage_of (tt : TaxonomyTree) (tax_id : Z) : TaxonomyDict :=
  match outcome (get_taxonomy tax_id tt) with
  | Return td => td
  | Raise _ => empty_taxonomy_dict
  end.

(** The record of a tax ID after the entries [es]. *)
Definition record_of (tt : TaxonomyTree) (es : list entry) (tax_id : Z)
  : TaxonInfo :=
  new_TaxonInfo (lineage_of tt tax_id) tax_id
    (clade_sum tax_id es) (taxon_sum tax_id es).

(** The rows of the table for the entries [es]: one per distinct tax
    ID, in the order of first sighting, tax ID 0 left out unless
    [include_unclassified]. *)
Definition expected_rows (tt : TaxonomyTree) (include_unclassified : bool)
    (es : list entry) : list string :=
  map (fun k => krona_row (snd (rename tt (k, record_of tt es k))))
    (filter (fun k => include_unclassified || nonzero k)
       (first_sightings (map entry_id es))).

(** An entry without its clade-level count. *)
Definition taxon_part (e : entry) : Z * Z := (entry_taxon e, entry_id e).

(** All the lines of the report files, in the order they are read. *)
Definition report_lines (fs : FileSystem) (files : list string) : list string :=
  flat_map (fun f => match fs f with
                     | Some text => text
                     | None => []
                     end) files.

(** The [log.info] messages of a trace. *)
Definition log_messages (t : list event) : list event :=
  filter (fun ev => match ev with Query _ => false | _ => true end) t.

(** Both counters doubled. *)
Definition twice (c : Z * Z) : Z * Z := (2 * fst c, 2 * snd c).

(** *** Lines in the format of a report *)

Fixpoint all_chars (p : ascii -> bool) (s : string) : bool :=
  match s with
  | EmptyString => true
  | String c s' => p c && all_chars p s'
  end.

Definition decimal_char (c : ascii) : bool :=
  match Py.digit_value c with Some _ => true | None => false end.

(** Whitespace only. *)
Definition blank (s : string) : Prop := all_chars Py.isspace s = true.

(** A separator between two fields: whitespace, at least one
    character. *)
Definition separator (s : string) : Prop := blank s /\ s <> EmptyString.

(** A field: at least one character, no whitespace. *)
Definition token (s : string) : Prop :=
  s <> EmptyString /\ all_chars (fun c => negb (Py.isspace c)) s = true.

(** What may follow a field: nothing, or text that starts with
    whitespace. *)
Definition token_end (s : string) : Prop :=
  s = EmptyString \/ exists c r, s = String c r /\ Py.isspace c = true.

(** The number of digits of the decimal writing of an integer. *)
Definition digits (n : Z) : N := Py.digit_count (Py.str n).

(** A line of a report: percentage, clade count, taxon count, rank
    code, tax ID, then the rest of the line. *)
Definition report_line (ws0 pct ws1 : string) (hits_clade : Z) (ws2 : string)
    (hits_taxon : Z) (ws3 code ws4 : string) (tax_id : Z) (rest : string)
  : string :=
  String.append ws0 (String.append pct (String.append ws1
    (String.append (Py.str hits_clade) (String.append ws2
      (String.append (Py.str hits_taxon) (String.append ws3
        (String.append code (String.append ws4
          (String.append (Py.str tax_id) rest))))))))).

(** * Properties *)

(** ** The monad *)

Section MonadFacts.

Context {A B : Type}.

Lemma bind_ret (a : A) (k : A -> M B) : bind (ret a) k = k a.
Proof. unfold bind, ret. destruct (k a); reflexivity. Qed.

Lemma bind_raise (e : exception) (k : A -> M B) : bind (raise e) k = raise e.
Proof. reflexivity. Qed.

Lemma outcome_bind (m : M A) (k : A -> M B) :
  outcome (bind m k)
  = match outcome m with
    | Raise e => Raise e
    | Return a => outcome (k a)
    end.
Proof.
  destruct m as [t [e | a]]; simpl; [reflexivity |].
  destruct (k a); reflexivity.
Qed.

Lemma trace_bind (m : M A) (k : A -> M B) :
  trace (bind m k)
  = trace m ++ match outcome m with
               | Raise _ => []
               | Return a => trace (k a)
               end.
Proof.
  destruct m as [t [e | a]]; simpl.
  - now rewrite app_nil_r.
  - destruct (k a); reflexivity.
Qed.

End MonadFacts.

Lemma outcome_pair {A} (t : list event) (r : result A) : outcome (t, r) = r.
Proof. reflexivity. Qed.

Lemma trace_pair {A} (t : list event) (r : result A) : trace (t, r) = t.
Proof. reflexivity. Qed.

Lemma bind_assoc {A B C} (m : M A) (k : A -> M B) (h : B -> M C) :
  bind (bind m k) h = bind m (fun a => bind (k a) h).
Proof.
  destruct m as [t [e | a]]; simpl; [reflexivity |].
  destruct (k a) as [t' [e | b]]; simpl; [reflexivity |].
  destruct (h b) as [t'' r]. now rewrite app_assoc.
Qed.

Lemma bind_ext {A B} (m : M A) (k k' : A -> M B) :
  (forall a, outcome m = Return a -> k a = k' a) -> bind m k = bind m k'.
Proof.
  destruct m as [t [e | a]]; simpl; intros H; [reflexivity |].
  now rewrite (H a eq_refl).
Qed.

Lemma for_each_app {A S} (xs ys : list A) (acc : S) (body : A -> S -> M S) :
  for_each (xs ++ ys) acc body
  = bind (for_each xs acc body) (fun acc' => for_each ys acc' body).
Proof.
  revert acc. induction xs as [| x xs IH]; intros acc; cbn [for_each app].
  - now rewrite bind_ret.
  - rewrite bind_assoc. apply bind_ext. intros a _. apply IH.
Qed.

(** A loop that raises does so whatever follows the element it raised
    on. *)
Lemma for_each_raise_prefix {A S} (xs ys : list A) (acc : S)
    (body : A -> S -> M S) (e : exception) :
  outcome (for_each xs acc body) = Raise e ->
  for_each (xs ++ ys) acc body = for_each xs acc body.
Proof.
  intros H. rewrite for_each_app.
  destruct (for_each xs acc body) as [t [e' | a]]; simpl in *;
    [reflexivity | discriminate].
Qed.

(** ** Reading a line *)

Lemma parse_line_malformed tt line d :
  line_fields line = None -> exists e, parse_line tt line d = ([], Raise e).
Proof.
  unfold line_fields, parse_line, int_field.
  destruct (nth_error (Py.split line) 1) as [a |];
    [| intros _; eexists; reflexivity].
  destruct (Py.int a) as [x |]; [| intros _; eexists; reflexivity].
  destruct (nth_error (Py.split line) 2) as [b |];
    [| intros _; eexists; reflexivity].
  destruct (Py.int b) as [y |]; [| intros _; eexists; reflexivity].
  destruct (nth_error (Py.split line) 4) as [c |];
    [| intros _; eexists; reflexivity].
  destruct (Py.int c) as [z |]; [discriminate | intros _; eexists; reflexivity].
Qed.

Lemma parse_line_entry tt line d c t i :
  line_fields line = Some (c, t, i) ->
  parse_line tt line d
  = if contains i d then ret (update i (add_hits c t) d)
    else bind (get_taxonomy i tt)
           (fun td => ret (insert_new i (new_TaxonInfo td i c t) d)).
Proof.
  unfold line_fields, parse_line, int_field.
  destruct (nth_error (Py.split line) 1) as [a |]; [| discriminate].
  destruct (nth_error (Py.split line) 2) as [b |]; [| discriminate].
  destruct (nth_error (Py.split line) 4) as [c' |]; [| discriminate].
  destruct (Py.int a) as [x |]; [| discriminate].
  destruct (Py.int b) as [y |]; [| discriminate].
  destruct (Py.int c') as [z |]; [| discriminate].
  intros H. injection H as -> -> ->.
  cbv beta iota. now rewrite !bind_ret.
Qed.

Lemma malformed_no_entry line : malformed line -> line_fields line = None.
Proof.
  unfold malformed, not_an_integer, line_fields.
  intros [Hlen | [[s [Hs Hi]] | [[s [Hs Hi]] | [s [Hs Hi]]]]].
  - assert (H4 : nth_error (Py.split line) 4 = None)
      by (apply nth_error_None; lia).
    rewrite H4.
    destruct (nth_error (Py.split line) 1), (nth_error (Py.split line) 2);
      reflexivity.
  - rewrite Hs, Hi.
    destruct (nth_error (Py.split line) 2), (nth_error (Py.split line) 4);
      reflexivity.
  - rewrite Hs, Hi.
    destruct (nth_error (Py.split line) 1) as [a |],
             (nth_error (Py.split line) 4); try reflexivity;
      destruct (Py.int a); reflexivity.
  - rewrite Hs, Hi.
    destruct (nth_error (Py.split line) 1) as [a |],
             (nth_error (Py.split line) 2) as [b |]; try reflexivity;
      destruct (Py.int a); try reflexivity; destruct (Py.int b); reflexivity.
Qed.

(** ** The dict *)

Section DictFacts.

Context {V : Type}.
Implicit Types (d : list (Z * V)) (k : Z).

Lemma lookup_None_keys d k : lookup k d = None <-> ~ In k (keys d).
Proof.
  induction d as [| [k' v] d IH]; simpl.
  - tauto.
  - destruct (Z.eqb_spec k k') as [-> | Hne].
    + split; [discriminate | intros H; exfalso; apply H; now left].
    + rewrite IH. split; intros H; [intros [E | I]; [congruence | tauto] | tauto].
Qed.

Lemma contains_keys d k : contains k d = true <-> In k (keys d).
Proof.
  unfold contains. destruct (lookup k d) eqn:E.
  - split; [intros _ | reflexivity].
    destruct (in_dec Z.eq_dec k (keys d)) as [I | N]; [exact I |].
    apply lookup_None_keys in N. congruence.
  - apply lookup_None_keys in E. split; [discriminate | tauto].
Qed.

Lemma contains_false d k : contains k d = false <-> lookup k d = None.
Proof. unfold contains. destruct (lookup k d); split; congruence. Qed.

Lemma lookup_update d k k' (f : V -> V) :
  lookup k' (update k f d)
  = if k' =? k then option_map f (lookup k d) else lookup k' d.
Proof.
  induction d as [| [k0 v] d IH]; simpl.
  - now destruct (k' =? k).
  - destruct (Z.eqb_spec k k0) as [-> | Hne]; simpl.
    + destruct (Z.eqb_spec k' k0); reflexivity.
    + rewrite IH. destruct (Z.eqb_spec k' k0) as [-> | Hne'].
      * destruct (Z.eqb_spec k0 k); [congruence | reflexivity].
      * reflexivity.
Qed.

Lemma lookup_insert_new d k k' v :
  lookup k' (insert_new k v d)
  = match lookup k' d with
    | Some x => Some x
    | None => if k' =? k then Some v else None
    end.
Proof.
  unfold insert_new. induction d as [| [k0 v0] d IH]; simpl.
  - reflexivity.
  - destruct (k' =? k0); [reflexivity | exact IH].
Qed.

Lemma keys_update d k (f : V -> V) : keys (update k f d) = keys d.
Proof.
  induction d as [| [k0 v] d IH]; simpl; [reflexivity |].
  destruct (k =? k0); simpl; [reflexivity | now rewrite IH].
Qed.

Lemma keys_insert_new d k v : keys (insert_new k v d) = keys d ++ [k].
Proof. unfold keys, insert_new. now rewrite map_app. Qed.

Lemma Forall_update (P : Z * V -> Prop) d k (f : V -> V) :
  (forall v, P (k, v) -> P (k, f v)) ->
  Forall P d -> Forall P (update k f d).
Proof.
  intros Hf. induction 1 as [| [k0 v] d Hx Hd IH]; simpl; [constructor |].
  destruct (Z.eqb_spec k k0) as [-> | Hne]; constructor; auto.
Qed.

Lemma lookup_In d k v : lookup k d = Some v -> In (k, v) d.
Proof.
  induction d as [| [k0 v0] d IH]; simpl; [discriminate |].
  destruct (Z.eqb_spec k k0) as [-> | Hne].
  - intros H. injection H as ->. now left.
  - intros H. right. now apply IH.
Qed.

Lemma In_lookup d k v : NoDup (keys d) -> In (k, v) d -> lookup k d = Some v.
Proof.
  induction d as [| [k0 v0] d IH]; simpl; [tauto |].
  intros Hnd [E | I].
  - injection E as -> ->. now rewrite Z.eqb_refl.
  - inversion Hnd as [| ? ? Hn Hnd']; subst.
    destruct (Z.eqb_spec k k0) as [-> | Hne]; [| now apply IH].
    exfalso. apply Hn. change (In (fst (k0, v)) (map fst d)).
    now apply in_map.
Qed.

End DictFacts.

(** ** Sums over entries *)

Lemma seen_app k es1 es2 : seen k (es1 ++ es2) = seen k es1 || seen k es2.
Proof. apply existsb_app. Qed.

Lemma fold_add_app (l1 l2 : list Z) :
  fold_right Z.add 0 (l1 ++ l2) = fold_right Z.add 0 l1 + fold_right Z.add 0 l2.
Proof. induction l1 as [| x l1 IH]; simpl; [reflexivity | lia]. Qed.

Lemma clade_sum_app k es1 es2 :
  clade_sum k (es1 ++ es2) = clade_sum k es1 + clade_sum k es2.
Proof. unfold clade_sum. now rewrite filter_app, map_app, fold_add_app. Qed.

Lemma taxon_sum_app k es1 es2 :
  taxon_sum k (es1 ++ es2) = taxon_sum k es1 + taxon_sum k es2.
Proof. unfold taxon_sum. now rewrite filter_app, map_app, fold_add_app. Qed.

Lemma not_seen_filter k es : seen k es = false -> filter (for_id k) es = [].
Proof.
  unfold seen. induction es as [| e es IH]; simpl; [reflexivity |].
  destruct (for_id k e); simpl; [discriminate | exact IH].
Qed.

Lemma not_seen_sums k es :
  seen k es = false -> clade_sum k es = 0 /\ taxon_sum k es = 0.
Proof.
  intros H. unfold clade_sum, taxon_sum. now rewrite (not_seen_filter _ _ H).
Qed.

Lemma merge_app o k es1 es2 :
  merge (merge o k es1) k es2 = merge o k (es1 ++ es2).
Proof.
  unfold merge. rewrite seen_app, clade_sum_app, taxon_sum_app.
  destruct (seen k es1) eqn:E1, (seen k es2) eqn:E2; simpl;
    try (apply not_seen_sums in E1; destruct E1 as [-> ->]);
    try (apply not_seen_sums in E2; destruct E2 as [-> ->]);
    destruct o as [[c t] |]; try reflexivity; f_equal; f_equal; lia.
Qed.

(** ** Lineage resolution *)

Lemma lineage_queries_app t1 t2 :
  lineage_queries (t1 ++ t2) = lineage_queries t1 ++ lineage_queries t2.
Proof. apply flat_map_app. Qed.

Lemma name_queries_app t1 t2 :
  name_queries (t1 ++ t2) = name_queries t1 ++ name_queries t2.
Proof. apply flat_map_app. Qed.

Lemma query_trace {A} q (answer : option A) : trace (query q answer) = [Query q].
Proof. destruct answer; reflexivity. Qed.

Lemma query_outcome {A} q (answer : option A) :
  outcome (query q answer)
  = match answer with Some a => Return a | None => Raise (TaxonomyError q) end.
Proof. destruct answer; reflexivity. Qed.

Lemma get_taxonomy_zero tt : get_taxonomy 0 tt = ([], Return empty_taxonomy_dict).
Proof. reflexivity. Qed.

Lemma store_rank_lineage_queries tt i td :
  lineage_queries (trace (store_rank tt i td)) = [].
Proof.
  unfold store_rank, tt_get_rank, tt_get_name.
  rewrite trace_bind, query_trace, query_outcome.
  destruct (get_rank tt i) as [rk |]; [| reflexivity].
  destruct (assoc_string rk taxonomy_ranks); [| reflexivity].
  rewrite trace_bind, query_trace. simpl.
  now destruct (outcome (query (GetName i) (get_name tt i))).
Qed.

Lemma rank_loop_lineage_queries tt lineage td :
  lineage_queries (trace (for_each lineage td (store_rank tt))) = [].
Proof.
  revert td. induction lineage as [| i lineage IH]; intros td; [reflexivity |].
  cbn [for_each]. rewrite trace_bind, lineage_queries_app.
  rewrite store_rank_lineage_queries.
  destruct (outcome (store_rank tt i td)); [reflexivity | apply IH].
Qed.

Lemma get_taxonomy_lineage_queries tt i :
  lineage_queries (trace (get_taxonomy i tt)) = filter nonzero [i].
Proof.
  unfold get_taxonomy, nonzero. simpl filter.
  destruct (i =? 0); [reflexivity |]. simpl negb. cbv iota.
  unfold tt_get_lineage.
  rewrite trace_bind, query_trace, query_outcome, lineage_queries_app.
  destruct (get_lineage tt i) as [lineage |]; [| reflexivity].
  now rewrite rank_loop_lineage_queries.
Qed.

Lemma setitem_from_tree tt a s td :
  (exists i, get_name tt i = Some s) ->
  Forall (from_tree tt) (dict_values td) ->
  Forall (from_tree tt) (dict_values (setitem a (Some s) td)).
Proof.
  intros Hs H. unfold dict_values in *.
  repeat match goal with
         | H : Forall _ (_ :: _) |- _ => inversion H; subst; clear H
         end.
  destruct a; simpl; repeat constructor; assumption.
Qed.

Lemma store_rank_from_tree tt i td td' :
  Forall (from_tree tt) (dict_values td) ->
  outcome (store_rank tt i td) = Return td' ->
  Forall (from_tree tt) (dict_values td').
Proof.
  intros H. unfold store_rank, tt_get_rank, tt_get_name.
  rewrite outcome_bind, query_outcome.
  destruct (get_rank tt i) as [rk |]; [| discriminate].
  destruct (assoc_string rk taxonomy_ranks) as [a |].
  - rewrite outcome_bind, query_outcome.
    destruct (get_name tt i) as [s |] eqn:E; [| discriminate].
    simpl. intros H'. injection H' as <-.
    apply setitem_from_tree; [now exists i | exact H].
  - simpl. intros H'. now injection H' as <-.
Qed.

Lemma rank_loop_from_tree tt lineage td td' :
  Forall (from_tree tt) (dict_values td) ->
  outcome (for_each lineage td (store_rank tt)) = Return td' ->
  Forall (from_tree tt) (dict_values td').
Proof.
  revert td. induction lineage as [| i lineage IH]; intros td H.
  - simpl. intros H'. now injection H' as <-.
  - cbn [for_each]. rewrite outcome_bind.
    destruct (outcome (store_rank tt i td)) as [e | td1] eqn:E; [discriminate |].
    apply IH. eapply store_rank_from_tree; eassumption.
Qed.

Lemma get_taxonomy_from_tree tt i td :
  outcome (get_taxonomy i tt) = Return td ->
  Forall (from_tree tt) (dict_values td).
Proof.
  assert (H0 : Forall (from_tree tt) (dict_values empty_taxonomy_dict))
    by (repeat constructor).
  unfold get_taxonomy. destruct (i =? 0).
  - simpl. intros H. now injection H as <-.
  - unfold tt_get_lineage. rewrite outcome_bind, query_outcome.
    destruct (get_lineage tt i) as [lineage |]; [| discriminate].
    now apply rank_loop_from_tree.
Qed.

(** ** Aggregation *)

Lemma taxonomy_of_new td i c t : taxonomy_of (new_TaxonInfo td i c t) = td.
Proof. now destruct td. Qed.

Lemma NoDup_snoc {A} (l : list A) (x : A) :
  NoDup l -> ~ In x l -> NoDup (l ++ [x]).
Proof.
  intros Hl Hx. apply (Permutation_NoDup (l := x :: l)).
  - apply Permutation_cons_append.
  - now constructor.
Qed.

Lemma wf_resolves tt d k :
  wf tt d -> contains k d = true -> is_return (get_taxonomy k tt) = true.
Proof.
  intros [_ Hall] Hk. unfold contains in Hk.
  destruct (lookup k d) as [r |] eqn:E; [| discriminate].
  apply lookup_In in E. rewrite Forall_forall in Hall.
  destruct (Hall _ E) as [_ Hr]. unfold is_return. simpl in Hr. now rewrite Hr.
Qed.

Lemma sums_single k c t i :
  seen k (@cons entry (c, t, i) []) = (i =? k)
  /\ clade_sum k (@cons entry (c, t, i) []) = (if i =? k then c else 0)
  /\ taxon_sum k (@cons entry (c, t, i) []) = (if i =? k then t else 0).
Proof.
  unfold seen, clade_sum, taxon_sum, for_id, entry_id, entry_clade, entry_taxon.
  simpl. destruct (i =? k); simpl; repeat split; try reflexivity; lia.
Qed.

Lemma parse_line_summary tt line d :
  wf tt d ->
  summary tt (parse_line tt line d) d (line_ok tt line)
    (match line_fields line with Some e => [e] | None => [] end).
Proof.
  intros Hwf. unfold summary, line_ok.
  destruct (line_fields line) as [[[c t] i] |] eqn:E.
  2:{ destruct (parse_line_malformed tt line d E) as [e ->]. reflexivity. }
  rewrite (parse_line_entry tt line d c t i E).
  unfold entry_id. cbv beta iota. simpl snd.
  destruct (contains i d) eqn:Hc.
  - unfold ret, outcome, trace. cbn [fst snd].
    split; [now apply (wf_resolves tt d) |].
    destruct Hwf as [Hnd Hall]. split; [split |].
    + now rewrite keys_update.
    + apply Forall_update; [| exact Hall].
      intros v [H1 H2]. split; [exact H1 | exact H2].
    + split.
      * intros k. unfold counters, merge. rewrite lookup_update.
        destruct (sums_single k c t i) as (-> & -> & ->).
        rewrite (Z.eqb_sym i k).
        destruct (Z.eqb_spec k i) as [-> | Hne]; [| reflexivity].
        unfold contains in Hc. destruct (lookup i d); [| discriminate].
        simpl. do 2 f_equal; lia.
      * exists []. rewrite app_nil_r, keys_update. now split.
  - rewrite outcome_bind, trace_bind. unfold is_return.
    destruct (outcome (get_taxonomy i tt)) as [e | td] eqn:Ht; [reflexivity |].
    simpl outcome. simpl trace. rewrite app_nil_r.
    apply contains_false in Hc.
    destruct Hwf as [Hnd Hall]. split; [reflexivity |]. split; [split |].
    + rewrite keys_insert_new. apply NoDup_snoc; [exact Hnd |].
      now apply lookup_None_keys.
    + unfold insert_new. apply Forall_app. split; [exact Hall |].
      constructor; [| constructor]. split; [reflexivity |].
      simpl. now rewrite taxonomy_of_new.
    + split.
      * intros k. unfold counters, merge. rewrite lookup_insert_new.
        destruct (sums_single k c t i) as (-> & -> & ->).
        rewrite (Z.eqb_sym i k).
        destruct (Z.eqb_spec k i) as [-> | Hne].
        -- rewrite Hc. reflexivity.
        -- now destruct (lookup k d).
      * exists [i]. split; [apply keys_insert_new |].
        apply get_taxonomy_lineage_queries.
Qed.

(** A loop whose body is summarised by [ok] and [es] on each element
    is summarised by them on the whole list. *)
Lemma for_each_summary {A} tt (body : A -> TaxonInfoDict -> M TaxonInfoDict)
    (ok : A -> bool) (es : A -> list entry) :
  (forall x d, wf tt d -> summary tt (body x d) d (ok x) (es x)) ->
  forall xs d, wf tt d ->
    summary tt (for_each xs d body) d (forallb ok xs) (flat_map es xs).
Proof.
  intros Hbody. induction xs as [| x xs IH]; intros d Hwf.
  - unfold summary. simpl. repeat split; try apply Hwf.
    exists []. now rewrite app_nil_r.
  - specialize (Hbody x d Hwf). unfold summary in *.
    cbn [for_each forallb flat_map]. rewrite outcome_bind, trace_bind.
    destruct (outcome (body x d)) as [e | d1]; [now rewrite Hbody |].
    destruct Hbody as (-> & Hwf1 & Hc1 & new1 & Hk1 & Hq1).
    specialize (IH d1 Hwf1).
    destruct (outcome (for_each xs d1 body)) as [e | d']; [exact IH |].
    destruct IH as (-> & Hwf' & Hc' & new' & Hk' & Hq').
    split; [reflexivity |]. split; [exact Hwf' |]. split.
    + intros k. now rewrite Hc', Hc1, merge_app.
    + exists (new1 ++ new'). split.
      * now rewrite Hk', Hk1, app_assoc.
      * now rewrite lineage_queries_app, Hq1, Hq', filter_app.
Qed.

Lemma parse_report_summary tt rf d :
  wf tt d ->
  summary tt (parse_report rf d tt) d
    (forallb (line_ok tt) (readlines rf)) (entries (readlines rf)).
Proof.
  intros Hwf. unfold parse_report.
  pose proof (for_each_summary tt (parse_line tt) (line_ok tt)
                (fun line => match line_fields line with
                             | Some e => [e]
                             | None => []
                             end)
                (fun x d0 H => parse_line_summary tt x d0 H)
                (readlines rf) d Hwf) as H.
  unfold summary in *. fold (entries (readlines rf)) in H.
  rewrite outcome_bind, trace_bind. simpl outcome. simpl trace.
  destruct (outcome (for_each (readlines rf) d (parse_line tt)));
    [exact H | exact H].
Qed.

Lemma parse_reports_summary tt fs files :
  summary tt (parse_reports files fs tt) []
    (forallb (file_ok tt fs) files) (report_entries fs files).
Proof.
  unfold parse_reports, report_entries.
  apply for_each_summary; [| split; constructor].
  intros f d Hwf. unfold read_file, file_ok.
  destruct (fs f) as [text |]; [| reflexivity].
  rewrite bind_ret.
  exact (parse_report_summary tt {| name := f; readlines := text |} d Hwf).
Qed.

(** ** Order of the reports *)

Lemma forallb_Permutation {A} (f : A -> bool) l l' :
  Permutation l l' -> forallb f l = forallb f l'.
Proof.
  induction 1 as [| x l l' _ IH | x y l | l l' l'' _ IH1 _ IH2]; simpl.
  - reflexivity.
  - now rewrite IH.
  - now destruct (f x), (f y).
  - congruence.
Qed.

Lemma seen_Permutation k es es' :
  Permutation es es' -> seen k es = seen k es'.
Proof.
  unfold seen.
  induction 1 as [| x l l' _ IH | x y l | l l' l'' _ IH1 _ IH2]; simpl.
  - reflexivity.
  - now rewrite IH.
  - now destruct (for_id k x), (for_id k y).
  - congruence.
Qed.

Lemma clade_sum_Permutation k es es' :
  Permutation es es' -> clade_sum k es = clade_sum k es'.
Proof.
  unfold clade_sum.
  induction 1 as [| x l l' _ IH | x y l | l l' l'' _ IH1 _ IH2]; simpl.
  - reflexivity.
  - destruct (for_id k x); simpl; now rewrite IH.
  - destruct (for_id k x), (for_id k y); simpl; lia.
  - congruence.
Qed.

Lemma taxon_sum_Permutation k es es' :
  Permutation es es' -> taxon_sum k es = taxon_sum k es'.
Proof.
  unfold taxon_sum.
  induction 1 as [| x l l' _ IH | x y l | l l' l'' _ IH1 _ IH2]; simpl.
  - reflexivity.
  - destruct (for_id k x); simpl; now rewrite IH.
  - destruct (for_id k x), (for_id k y); simpl; lia.
  - congruence.
Qed.

Lemma merge_Permutation o k es es' :
  Permutation es es' -> merge o k es = merge o k es'.
Proof.
  intros H. unfold merge.
  now rewrite (seen_Permutation k _ _ H), (clade_sum_Permutation k _ _ H),
    (taxon_sum_Permutation k _ _ H).
Qed.

(** The counters a successful run ends with. *)
Lemma parse_reports_counters tt fs files d :
  outcome (parse_reports files fs tt) = Return d ->
  forall k, counters d k = merge None k (report_entries fs files).
Proof.
  intros H k. pose proof (parse_reports_summary tt fs files) as S.
  unfold summary in S. rewrite H in S.
  destruct S as (_ & _ & Hc & _). exact (Hc k).
Qed.

Lemma filter_seen k es e l :
  filter (for_id k) es = e :: l -> seen k es = true.
Proof.
  intros H. unfold seen. apply existsb_exists. exists e.
  apply filter_In. rewrite H. now left.
Qed.

(** C1: the merged counters do not depend on the order in which the
    report files are given: two orders of the same files both fail, or
    both succeed with the same [hits_at_clade] and [hits_at_taxon] for
    every tax ID; these counters are the sums over all the lines of
    the tax ID.  In particular two files with one line each for tax ID
    99, of taxon counts 5 and 7, give [hits_at_taxon = 12]. *)
Theorem report_order_irrelevant :
  (forall tt fs files files',
      Permutation files files' ->
      same_counters (parse_reports files fs tt) (parse_reports files' fs tt))
  /\ (forall tt fs files d,
         outcome (parse_reports files fs tt) = Return d ->
         forall k,
           counters d k
           = if seen k (report_entries fs files)
             then Some (clade_sum k (report_entries fs files),
                        taxon_sum k (report_entries fs files))
             else None)
  /\ (forall tt fs fa fb ta tb ca cb d,
         fs fa = Some ta -> fs fb = Some tb ->
         filter (for_id 99) (entries ta) = [(ca, 5, 99)] ->
         filter (for_id 99) (entries tb) = [(cb, 7, 99)] ->
         outcome (parse_reports [fa; fb] fs tt) = Return d ->
         exists r, lookup 99 d = Some r /\ hits_at_taxon r = 12).
Proof.
  split; [| split].
  - intros tt fs files files' HP. unfold same_counters.
    pose proof (parse_reports_summary tt fs files) as S.
    pose proof (parse_reports_summary tt fs files') as S'.
    unfold summary in S, S'.
    rewrite (forallb_Permutation _ _ _ HP) in S.
    destruct (outcome (parse_reports files fs tt)) as [e | d],
             (outcome (parse_reports files' fs tt)) as [e' | d'].
    + exact I.
    + destruct S' as [S' _]. congruence.
    + destruct S as [S _]. congruence.
    + destruct S as (_ & _ & Hc & _), S' as (_ & _ & Hc' & _).
      intros k. rewrite Hc, Hc'. apply merge_Permutation.
      unfold report_entries. now apply Permutation_flat_map.
  - intros tt fs files d H k.
    now rewrite (parse_reports_counters tt fs files d H k).
  - intros tt fs fa fb ta tb ca cb d Ha Hb Fa Fb H.
    pose proof (parse_reports_counters tt fs _ d H 99) as Hc.
    unfold report_entries in Hc. simpl flat_map in Hc.
    rewrite Ha, Hb, app_nil_r in Hc. unfold merge in Hc.
    rewrite seen_app, (filter_seen _ _ _ _ Fa) in Hc. simpl orb in Hc.
    rewrite taxon_sum_app in Hc. unfold taxon_sum in Hc at 1 2.
    rewrite Fa, Fb in Hc. unfold counters in Hc.
    destruct (lookup 99 d) as [r |]; [| discriminate].
    exists r. split; [reflexivity |].
    simpl in Hc. injection Hc as _ Ht. exact Ht.
Qed.

Lemma report_order_irrelevant_witness :
  same_counters
    (parse_reports ["b.report"; "c.report"; "a.report"] Sample.files Sample.tree)
    (parse_reports ["a.report"; "b.report"; "c.report"] Sample.files Sample.tree)
  /\ counters
       (match outcome (parse_reports ["b.report"; "c.report"]
                         Sample.files Sample.tree) with
        | Return d => d
        | Raise _ => []
        end) 99
     = Some (48, 12)
  /\ exists r,
       lookup 99 (match outcome (parse_reports ["b.report"; "c.report"]
                                   Sample.files Sample.tree) with
                  | Return d => d
                  | Raise _ => []
                  end) = Some r
       /\ hits_at_taxon r = 12.
Proof.
  destruct report_order_irrelevant as (H1 & H2 & H3).
  split; [| split].
  - apply H1. apply Permutation_sym.
    apply (Permutation_cons_append ["b.report"; "c.report"] "a.report").
  - rewrite (H2 Sample.tree Sample.files ["b.report"; "c.report"] _ eq_refl).
    reflexivity.
  - apply (H3 Sample.tree Sample.files "b.report" "c.report" _ _ 20 28 _
              eq_refl eq_refl eq_refl eq_refl eq_refl).
Defined.

(** ** The frame *)

Lemma filter_all {A} (p : A -> bool) (l : list A) :
  (forall x, In x l -> p x = true) -> filter p l = l.
Proof.
  induction l as [| x l IH]; intros H; simpl; [reflexivity |].
  rewrite (H x (or_introl eq_refl)), IH; [reflexivity |].
  intros y Hy. apply H. now right.
Qed.

Lemma index_contains_contains (df : Pandas.DataFrame) k :
  Pandas.index_contains k df = contains k df.
Proof.
  unfold Pandas.index_contains, Pandas.index_values.
  destruct (contains k df) eqn:E.
  - apply contains_keys in E. apply existsb_exists. exists k.
    split; [exact E | apply Z.eqb_refl].
  - destruct (existsb (Z.eqb k) (map fst df)) eqn:E'; [| reflexivity].
    apply existsb_exists in E'. destruct E' as (k' & Hin & Hk).
    apply Z.eqb_eq in Hk. subst k'.
    apply contains_keys in Hin. congruence.
Qed.

Lemma index_of_values tt (d : TaxonInfoDict) :
  Forall (resolved tt) d -> map (fun r => (t_id r, r)) (values d) = d.
Proof.
  induction 1 as [| [k r] d [Ht _] _ IH]; simpl; [reflexivity |].
  simpl in Ht. rewrite Ht. f_equal. exact IH.
Qed.

Lemma set_index_values tt d :
  wf tt d ->
  Pandas.DataFrame_set_index (values d)
  = match d with [] => raise KeyError | _ => ret d end.
Proof.
  intros [_ Hall]. unfold Pandas.DataFrame_set_index.
  rewrite (index_of_values tt d Hall). now destruct d.
Qed.

Lemma drop_unclassified_eq inc (df : Pandas.DataFrame) :
  drop_unclassified inc df
  = ((if negb inc && contains 0 df then [LogRemoving] else []),
     Return (filter (keep inc) df)).
Proof.
  unfold drop_unclassified, Pandas.drop. rewrite index_contains_contains.
  destruct inc; simpl.
  - unfold ret. f_equal. f_equal. symmetry. now apply filter_all.
  - destruct (contains 0 df) eqn:E; simpl.
    + reflexivity.
    + unfold ret. f_equal. f_equal. symmetry. apply filter_all.
      intros [k r] Hin. unfold keep, nonzero. simpl.
      destruct (Z.eqb_spec k 0) as [-> | Hne]; [| reflexivity].
      exfalso. assert (Hk : In 0 (keys df)).
      { change 0 with (fst (0, r)). now apply in_map. }
      apply contains_keys in Hk. congruence.
Qed.

Lemma name_row_eq tt k df :
  name_row tt k df
  = ((if k =? 0 then [] else [Query (GetName k)]),
     match display_name tt k with
     | Some n => Return (Pandas.at_set_superkingdom k n df)
     | None => Raise (TaxonomyError (GetName k))
     end).
Proof.
  unfold name_row, display_name, tt_get_name, query.
  destruct (k =? 0); [reflexivity |].
  destruct (get_name tt k); reflexivity.
Qed.

Lemma rename_in_step tt k n ids row :
  display_name tt k = Some n ->
  rename_in tt ids
    (if fst row =? k then (fst row, Pandas.set_superkingdom n (snd row)) else row)
  = rename_in tt (k :: ids) row.
Proof.
  intros Hn. unfold rename_in, named. cbn [existsb].
  destruct (Z.eqb_spec (fst row) k) as [E | Hne]; simpl.
  - rewrite E, Hn. now destruct (existsb (Z.eqb k) ids).
  - reflexivity.
Qed.

Lemma name_loop_outcome tt ids : forall df,
  outcome (for_each ids df (name_row tt))
  = match find (unnamed tt) ids with
    | Some k => Raise (TaxonomyError (GetName k))
    | None => Return (map (rename_in tt ids) df)
    end.
Proof.
  induction ids as [| k ids IH]; intros df.
  - simpl. f_equal. symmetry. rewrite <- (map_id df) at 2.
    apply map_ext. intros row. reflexivity.
  - cbn [for_each find]. rewrite outcome_bind, name_row_eq. unfold unnamed at 1.
    simpl outcome. destruct (display_name tt k) as [n |] eqn:Hn; [| reflexivity].
    rewrite IH. destruct (find (unnamed tt) ids); [reflexivity |].
    f_equal. unfold Pandas.at_set_superkingdom. rewrite map_map.
    apply map_ext. intros row. now apply rename_in_step.
Qed.

Lemma name_loop_trace tt ids : forall df,
  find (unnamed tt) ids = None ->
  trace (for_each ids df (name_row tt))
  = map (fun k => Query (GetName k)) (filter nonzero ids).
Proof.
  induction ids as [| k ids IH]; intros df; [reflexivity |].
  cbn [for_each find filter]. rewrite trace_bind, name_row_eq.
  unfold unnamed at 1. simpl outcome. simpl trace.
  destruct (display_name tt k) as [n |] eqn:Hn; [| discriminate].
  intros Hf. rewrite (IH _ Hf). unfold nonzero at 2.
  now destruct (k =? 0).
Qed.

Lemma name_loop_no_lineage tt ids : forall df,
  lineage_queries (trace (for_each ids df (name_row tt))) = [].
Proof.
  induction ids as [| k ids IH]; intros df; [reflexivity |].
  cbn [for_each]. rewrite trace_bind, lineage_queries_app, name_row_eq.
  simpl outcome. simpl trace.
  assert (H0 : lineage_queries (if k =? 0 then [] else [Query (GetName k)]) = [])
    by now destruct (k =? 0).
  rewrite H0. destruct (display_name tt k); [apply IH | reflexivity].
Qed.

Lemma NoDup_keys_eq {V} (l : list (Z * V)) a b :
  NoDup (keys l) -> In a l -> In b l -> fst a = fst b -> a = b.
Proof.
  induction l as [| x l IH]; simpl; [tauto |].
  intros Hnd Ha Hb E. inversion Hnd as [| ? ? Hn Hnd']; subst.
  destruct Ha as [-> | Ha], Hb as [-> | Hb].
  - reflexivity.
  - exfalso. apply Hn. rewrite E. now apply in_map.
  - exfalso. apply Hn. rewrite <- E. now apply in_map.
  - now apply IH.
Qed.

Lemma NoDup_keys_filter {V} (p : Z * V -> bool) (l : list (Z * V)) :
  NoDup (keys l) -> NoDup (keys (filter p l)).
Proof.
  induction l as [| x l IH]; simpl; [trivial |].
  intros Hnd. inversion Hnd as [| ? ? Hn Hnd']; subst.
  destruct (p x); simpl; [| now apply IH].
  constructor; [| now apply IH].
  intros Hin. apply Hn. unfold keys in *.
  apply in_map_iff in Hin. destruct Hin as (y & Hy & Hin).
  apply filter_In in Hin. rewrite <- Hy. apply in_map. tauto.
Qed.

Lemma rename_in_empty_ids tt (df : Pandas.DataFrame) row :
  NoDup (keys df) -> In row df ->
  rename_in tt (empty_ids df) row = rename tt row.
Proof.
  intros Hnd Hin. unfold rename_in, rename.
  assert (E : existsb (Z.eqb (fst row)) (empty_ids df)
              = Pandas.all_null taxonomy_cols (snd row)).
  { unfold empty_ids, Pandas.index_values, Pandas.rows_all_null.
    destruct (Pandas.all_null taxonomy_cols (snd row)) eqn:Hnull.
    - apply existsb_exists. exists (fst row). split; [| apply Z.eqb_refl].
      apply in_map. apply filter_In. tauto.
    - destruct (existsb _ _) eqn:Hex; [| reflexivity].
      apply existsb_exists in Hex. destruct Hex as (k & Hk & Hkeq).
      apply Z.eqb_eq in Hkeq. subst k.
      apply in_map_iff in Hk. destruct Hk as (row' & Hfst & Hin').
      apply filter_In in Hin'. destruct Hin' as [Hin' Hnull'].
      assert (row' = row) by (eapply NoDup_keys_eq; eauto).
      subst row'. congruence. }
  now rewrite E.
Qed.

Lemma name_empty_rows_outcome tt (df : Pandas.DataFrame) :
  NoDup (keys df) ->
  outcome (name_empty_rows tt taxonomy_cols df)
  = match find (unnamed tt) (empty_ids df) with
    | Some k => Raise (TaxonomyError (GetName k))
    | None => Return (map (rename tt) df)
    end.
Proof.
  intros Hnd. unfold name_empty_rows. fold (empty_ids df).
  rewrite name_loop_outcome.
  destruct (find (unnamed tt) (empty_ids df)); [reflexivity |].
  f_equal. apply map_ext_in. intros row Hin. now apply rename_in_empty_ids.
Qed.

Lemma to_csv_select (df : Pandas.DataFrame) :
  Pandas.to_csv TAB
    (Pandas.select (Pandas.C_hits_at_taxon :: map Pandas.C_rank taxonomy_cols) df)
  = map (fun row => krona_row (snd row)) df.
Proof.
  unfold Pandas.to_csv, Pandas.select. rewrite map_map.
  apply map_ext. intros [k r]. reflexivity.
Qed.

(** ** The whole run *)

Lemma parse_reports_wf tt fs files d :
  outcome (parse_reports files fs tt) = Return d -> wf tt d.
Proof.
  intros H. pose proof (parse_reports_summary tt fs files) as S.
  unfold summary in S. rewrite H in S. tauto.
Qed.

Lemma kraken2krona_outcome args fs tt :
  outcome (kraken2krona args fs tt)
  = match outcome (parse_reports (kraken_report args) fs tt) with
    | Raise e => Raise e
    | Return d => krona_table tt args d
    end.
Proof.
  unfold kraken2krona. rewrite outcome_bind.
  destruct (outcome (parse_reports (kraken_report args) fs tt)) as [e | d] eqn:Hp;
    [reflexivity |].
  pose proof (parse_reports_wf tt fs _ d Hp) as Hwf.
  rewrite (set_index_values tt d Hwf). unfold krona_table.
  destruct d as [| kv d]; [reflexivity |]. rewrite bind_ret.
  rewrite outcome_bind, drop_unclassified_eq, outcome_pair.
  rewrite outcome_bind. fold taxonomy_cols.
  rewrite name_empty_rows_outcome
    by (apply NoDup_keys_filter; apply Hwf).
  cbv zeta.
  destruct (find (unnamed tt) _); [reflexivity |].
  rewrite outcome_bind. unfold emit, ret. rewrite !outcome_pair.
  now rewrite to_csv_select.
Qed.

Lemma kraken2krona_trace args fs tt lines :
  outcome (kraken2krona args fs tt) = Return lines ->
  exists d,
    outcome (parse_reports (kraken_report args) fs tt) = Return d
    /\ trace (kraken2krona args fs tt)
       = trace (parse_reports (kraken_report args) fs tt)
         ++ finishing_trace args d.
Proof.
  rewrite kraken2krona_outcome.
  destruct (outcome (parse_reports (kraken_report args) fs tt)) as [e | d] eqn:Hp;
    [discriminate |].
  intros Hk. exists d. split; [reflexivity |].
  pose proof (parse_reports_wf tt fs _ d Hp) as Hwf.
  unfold kraken2krona. rewrite trace_bind, Hp. f_equal.
  rewrite (set_index_values tt d Hwf). unfold krona_table in Hk.
  destruct d as [| kv d]; [discriminate |]. rewrite bind_ret.
  rewrite trace_bind, drop_unclassified_eq, outcome_pair, trace_pair.
  unfold finishing_trace. f_equal.
  rewrite trace_bind. fold taxonomy_cols.
  cbv zeta in Hk.
  destruct (find (unnamed tt)
              (empty_ids (filter (keep (include_unclassified args)) (kv :: d))))
    eqn:Hf; [discriminate |].
  unfold name_empty_rows at 1.
  fold (empty_ids (filter (keep (include_unclassified args)) (kv :: d))).
  rewrite (name_loop_trace tt _ _ Hf). f_equal.
  rewrite name_empty_rows_outcome
    by (apply NoDup_keys_filter; apply Hwf).
  rewrite Hf. reflexivity.
Qed.

(** ** Reading back a written row *)

Section Reader.

Variable sep : ascii.
Hypothesis sep_not_quote : Ascii.eqb sep Pandas.quotechar = false.

Lemma read_nonempty st s : read sep st s <> [].
Proof.
  revert st. induction s as [| c s IH]; intros st; [discriminate |].
  assert (Hpush : forall l, push c l <> []) by (intros [| f l]; discriminate).
  destruct st; simpl;
    repeat match goal with
           | |- context [if ?b then _ else _] => destruct b
           end;
    try discriminate; try apply Hpush; apply IH.
Qed.

Lemma push_prepend c s l :
  l <> [] -> push c (prepend s l) = prepend (String c s) l.
Proof. destruct l; [congruence | reflexivity]. Qed.

Lemma prepend_empty l : l <> [] -> prepend EmptyString l = l.
Proof. destruct l; [congruence | reflexivity]. Qed.

Lemma special_sep c : Pandas.special sep c = false -> Ascii.eqb c sep = false.
Proof. unfold Pandas.special. now destruct (Ascii.eqb c sep). Qed.

Lemma special_quote c :
  Pandas.special sep c = false -> Ascii.eqb c Pandas.quotechar = false.
Proof.
  unfold Pandas.special.
  destruct (Ascii.eqb c sep), (Ascii.eqb c Pandas.quotechar);
    simpl; congruence.
Qed.

Lemma read_plain s rest :
  Pandas.needs_quote sep s = false ->
  read sep InField (String.append s rest)
  = prepend s (read sep InField rest).
Proof.
  induction s as [| c s IH]; simpl; intros H.
  - symmetry. apply prepend_empty, read_nonempty.
  - apply orb_false_iff in H. destruct H as [Hc Hs].
    rewrite (special_sep c Hc), (IH Hs).
    apply push_prepend, read_nonempty.
Qed.

Lemma read_start_end rest :
  field_end sep rest -> read sep StartField rest = read sep InField rest.
Proof.
  intros [-> | [r ->]]; [reflexivity |].
  simpl. now rewrite sep_not_quote.
Qed.

Lemma read_quote_end rest :
  field_end sep rest -> read sep QuoteInQuoted rest = read sep InField rest.
Proof.
  intros [-> | [r ->]]; [reflexivity |].
  simpl. now rewrite sep_not_quote.
Qed.

Lemma read_quoted s rest :
  read sep InQuoted
    (String.append (Pandas.double_quotes s) (String Pandas.quotechar rest))
  = prepend s (read sep QuoteInQuoted rest).
Proof.
  induction s as [| c s IH]; cbn [Pandas.double_quotes String.append].
  - cbn [read]. rewrite Ascii.eqb_refl.
    symmetry. apply prepend_empty, read_nonempty.
  - destruct (Ascii.eqb c Pandas.quotechar) eqn:E;
      cbn [String.append read]; rewrite E.
    + rewrite IH. apply push_prepend, read_nonempty.
    + rewrite IH. apply push_prepend, read_nonempty.
Qed.

Lemma append_assoc (a b c : string) :
  String.append (String.append a b) c = String.append a (String.append b c).
Proof. induction a as [| x a IH]; simpl; [reflexivity | now rewrite IH]. Qed.

Lemma append_empty_r (a : string) : String.append a EmptyString = a.
Proof. induction a as [| x a IH]; simpl; [reflexivity | now rewrite IH]. Qed.

(** A written field, followed by the end of the row or by a
    separator, is read back as it was. *)
Lemma read_field f rest :
  field_end sep rest ->
  read sep StartField (String.append (Pandas.csv_field sep f) rest)
  = prepend f (read sep InField rest).
Proof.
  intros Hend. unfold Pandas.csv_field.
  destruct (Pandas.needs_quote sep f) eqn:Hq.
  - cbn [String.append read]. rewrite Ascii.eqb_refl, append_assoc.
    cbn [String.append].
    now rewrite read_quoted, read_quote_end.
  - destruct f as [| c f].
    + cbn [String.append]. rewrite read_start_end by exact Hend.
      symmetry. apply prepend_empty, read_nonempty.
    + cbn [Pandas.needs_quote] in Hq.
      apply orb_false_iff in Hq. destruct Hq as [Hc Hs].
      cbn [String.append read].
      rewrite (special_quote c Hc), (special_sep c Hc).
      rewrite (read_plain f rest Hs). apply push_prepend, read_nonempty.
Qed.

Lemma read_concat f fs :
  read sep StartField
    (String.concat (String sep EmptyString)
       (map (Pandas.csv_field sep) (f :: fs)))
  = f :: fs.
Proof.
  revert f. induction fs as [| g fs IH]; intros f.
  - cbn [map String.concat].
    rewrite <- (append_empty_r (Pandas.csv_field sep f)).
    rewrite read_field by now left.
    cbn [read prepend]. now rewrite append_empty_r.
  - change (String.concat (String sep EmptyString)
              (map (Pandas.csv_field sep) (f :: g :: fs)))
      with (String.append (Pandas.csv_field sep f)
              (String sep
                 (String.concat (String sep EmptyString)
                    (map (Pandas.csv_field sep) (g :: fs))))).
    rewrite read_field by (right; eexists; reflexivity).
    cbn [read]. rewrite Ascii.eqb_refl, IH.
    cbn [prepend]. now rewrite append_empty_r.
Qed.

(** The fields of a written row are the fields that were written. *)
Lemma csv_fields_csv_row fs :
  fs <> [] -> csv_fields sep (Pandas.csv_row sep fs) = fs.
Proof.
  intros Hne. destruct fs as [| f fs]; [congruence |].
  unfold csv_fields, Pandas.csv_row.
  destruct f as [| c f]; [destruct fs as [| g fs] |]; try apply read_concat.
  cbn [read]. now rewrite !Ascii.eqb_refl.
Qed.

End Reader.

Lemma fields_krona_row r : fields (krona_row r) = krona_fields r.
Proof.
  unfold fields, krona_row. apply csv_fields_csv_row; [reflexivity | discriminate].
Qed.

(** ** The unclassified taxon *)

Lemma parse_line_lineage_queries tt line d :
  ~ In 0 (lineage_queries (trace (parse_line tt line d))).
Proof.
  destruct (line_fields line) as [[[c t] i] |] eqn:E.
  - rewrite (parse_line_entry tt line d c t i E).
    destruct (contains i d); [simpl; tauto |].
    rewrite trace_bind, lineage_queries_app, get_taxonomy_lineage_queries.
    rewrite in_app_iff. intros [Hin | Hin].
    + apply filter_In in Hin. destruct Hin as [_ Hin]. discriminate.
    + destruct (outcome (get_taxonomy i tt)); exact Hin.
  - destruct (parse_line_malformed tt line d E) as [e ->]. simpl. tauto.
Qed.

Lemma for_each_lineage_queries {A S} (body : A -> S -> M S) xs :
  (forall x acc, ~ In 0 (lineage_queries (trace (body x acc)))) ->
  forall acc, ~ In 0 (lineage_queries (trace (for_each xs acc body))).
Proof.
  intros Hbody. induction xs as [| x xs IH]; intros acc; [simpl; tauto |].
  cbn [for_each]. rewrite trace_bind, lineage_queries_app, in_app_iff.
  intros [H | H]; [now apply (Hbody x acc) |].
  destruct (outcome (body x acc)); [exact H | now apply (IH a)].
Qed.

Lemma parse_reports_lineage_queries tt fs files :
  ~ In 0 (lineage_queries (trace (parse_reports files fs tt))).
Proof.
  unfold parse_reports. apply for_each_lineage_queries.
  intros f d. unfold read_file. destruct (fs f) as [text |]; [| simpl; tauto].
  rewrite bind_ret. unfold parse_report.
  rewrite trace_bind, lineage_queries_app. simpl outcome.
  cbv iota. simpl lineage_queries at 1. rewrite app_nil_l.
  apply for_each_lineage_queries. intros line acc.
  apply parse_line_lineage_queries.
Qed.

Lemma finishing_lineage_queries args tt d :
  lineage_queries
    (trace (bind (Pandas.DataFrame_set_index (values d)) (fun df =>
            bind (drop_unclassified (include_unclassified args) df) (fun df =>
            bind (name_empty_rows tt (map snd taxonomy_ranks) df) (fun df =>
            bind (emit (LogSaving (output_file args))) (fun _ =>
            ret (Pandas.to_csv TAB
                   (Pandas.select
                      (Pandas.C_hits_at_taxon
                       :: map Pandas.C_rank (map snd taxonomy_ranks)) df))))))))
  = [].
Proof.
  unfold Pandas.DataFrame_set_index.
  destruct (values d) as [| r rs]; [reflexivity |]. rewrite bind_ret.
  rewrite trace_bind, drop_unclassified_eq, outcome_pair, trace_pair.
  rewrite lineage_queries_app, trace_bind, lineage_queries_app.
  unfold name_empty_rows at 1. rewrite name_loop_no_lineage.
  assert (H1 : forall b : bool,
             lineage_queries (if b then [LogRemoving] else []) = [])
    by (intros []; reflexivity).
  rewrite H1. simpl app.
  match goal with
  | |- context [outcome ?m] => now destruct (outcome m)
  end.
Qed.

(** C2: for every taxonomy tree, [get_taxonomy] on tax ID 0 returns
    the dict whose eight rank entries are all [None] and makes no call
    on the tree; and in a whole run, whether the unclassified row is
    kept in the output or not, the lineage of tax ID 0 is never asked
    of the tree. *)
Theorem unclassified_short_circuit :
  forall tt,
    get_taxonomy 0 tt = ([], Return empty_taxonomy_dict)
    /\ dict_values empty_taxonomy_dict = repeat None 8
    /\ forall args fs,
         ~ In 0 (lineage_queries (trace (kraken2krona args fs tt))).
Proof.
  intros tt. split; [reflexivity |]. split; [reflexivity |].
  intros args fs. unfold kraken2krona.
  rewrite trace_bind, lineage_queries_app, in_app_iff.
  intros [H | H];
    [now apply (parse_reports_lineage_queries tt fs (kraken_report args)) |].
  destruct (outcome (parse_reports (kraken_report args) fs tt)) as [e | d];
    [exact H |].
  cbv zeta in H. now rewrite finishing_lineage_queries in H.
Qed.

(** ** Sightings of a tax ID *)

Lemma ranks_add_hits c t r : ranks (add_hits c t r) = ranks r.
Proof. reflexivity. Qed.

(** C4: a line whose tax ID already has a record only adds its two
    counts to the counters of that record, in place: no call is made on
    the tree, the rank fields stay as they are and no other record
    changes; a line whose tax ID has no record yet resolves the lineage
    and inserts the new record.  Over a whole run the lineage of every
    tax ID other than 0 is asked of the tree exactly once, at its first
    sighting, and the rank fields of every record are the ones
    [get_taxonomy] gives for its tax ID. *)
Theorem lineage_resolved_once :
  (forall tt line d c t i r,
      line_fields line = Some (c, t, i) -> lookup i d = Some r ->
      parse_line tt line d = ([], Return (update i (add_hits c t) d))
      /\ lookup i (update i (add_hits c t) d) = Some (add_hits c t r)
      /\ ranks (add_hits c t r) = ranks r
      /\ hits_at_clade (add_hits c t r) = hits_at_clade r + c
      /\ hits_at_taxon (add_hits c t r) = hits_at_taxon r + t
      /\ keys (update i (add_hits c t) d) = keys d
      /\ forall k, k <> i -> lookup k (update i (add_hits c t) d) = lookup k d)
  /\ (forall tt line d c t i,
         line_fields line = Some (c, t, i) -> lookup i d = None ->
         parse_line tt line d
         = bind (get_taxonomy i tt)
             (fun td => ret (insert_new i (new_TaxonInfo td i c t) d)))
  /\ (forall tt fs files d,
         outcome (parse_reports files fs tt) = Return d ->
         NoDup (keys d)
         /\ lineage_queries (trace (parse_reports files fs tt))
            = filter nonzero (keys d)
         /\ forall k r, lookup k d = Some r ->
              outcome (get_taxonomy k tt) = Return (taxonomy_of r)).
Proof.
  split; [| split].
  - intros tt line d c t i r E Hr.
    rewrite (parse_line_entry tt line d c t i E).
    unfold contains. rewrite Hr. split; [reflexivity |].
    split; [now rewrite lookup_update, Z.eqb_refl, Hr |].
    repeat split; try apply keys_update.
    intros k Hk. rewrite lookup_update.
    destruct (Z.eqb_spec k i); [contradiction | reflexivity].
  - intros tt line d c t i E Hr.
    rewrite (parse_line_entry tt line d c t i E).
    unfold contains. now rewrite Hr.
  - intros tt fs files d H.
    pose proof (parse_reports_summary tt fs files) as S.
    unfold summary in S. rewrite H in S.
    destruct S as (_ & [Hnd Hall] & _ & new & Hk & Hq).
    simpl in Hk. subst new. split; [exact Hnd |]. split; [exact Hq |].
    intros k r Hr. apply lookup_In in Hr. rewrite Forall_forall in Hall.
    now destruct (Hall _ Hr) as [_ Hres].
Qed.

Lemma lineage_resolved_once_witness :
  parse_line Sample.tree " 28.00 28 7 G 99 Y"
    [(99, new_TaxonInfo empty_taxonomy_dict 99 20 5)]
  = ([], Return (update 99 (add_hits 28 7)
                   [(99, new_TaxonInfo empty_taxonomy_dict 99 20 5)]))
  /\ lineage_queries
       (trace (parse_reports ["b.report"; "c.report"; "b.report"]
                 Sample.files Sample.tree))
     = [99; 1].
Proof.
  destruct lineage_resolved_once as (H1 & _ & H3). split.
  - apply (H1 Sample.tree " 28.00 28 7 G 99 Y"
              [(99, new_TaxonInfo empty_taxonomy_dict 99 20 5)] 28 7 99
              (new_TaxonInfo empty_taxonomy_dict 99 20 5) eq_refl eq_refl).
  - destruct (H3 Sample.tree Sample.files
                ["b.report"; "c.report"; "b.report"] _ eq_refl)
      as (_ & Hq & _).
    rewrite Hq. reflexivity.
Defined.

(** ** Malformed lines *)

Lemma for_each_raises {A S} (body : A -> S -> M S) x :
  (forall acc, exists e, outcome (body x acc) = Raise e) ->
  forall xs acc, In x xs -> exists e, outcome (for_each xs acc body) = Raise e.
Proof.
  intros Hx. induction xs as [| y xs IH]; intros acc Hin; [contradiction |].
  cbn [for_each]. rewrite outcome_bind.
  destruct (outcome (body y acc)) as [e | acc'] eqn:E; [now exists e |].
  destruct Hin as [-> | Hin]; [| now apply IH].
  destruct (Hx acc) as [e He]. congruence.
Qed.

Lemma parse_report_raises tt line rf d :
  line_fields line = None -> In line (readlines rf) ->
  exists e, outcome (parse_report rf d tt) = Raise e.
Proof.
  intros Hl Hin. unfold parse_report. rewrite outcome_bind. simpl outcome at 2.
  cbv iota. apply for_each_raises with (x := line); [| exact Hin].
  intros acc. destruct (parse_line_malformed tt line acc Hl) as [e ->].
  now exists e.
Qed.

(** C5: a line with fewer than 5 fields, or with a non-integer in one
    of the positions 1, 2 and 4, makes the loop body raise; the report
    is then read no further (what comes after the line has no effect on
    the trace or the outcome of [parse_report]), and the whole run
    raises, so that no output is written. *)
Theorem malformed_line_is_fatal :
  forall tt line,
    malformed line ->
    (forall d, exists e, parse_line tt line d = ([], Raise e))
    /\ (forall file pre post d,
           parse_report {| name := file; readlines := pre ++ line :: post |} d tt
           = parse_report {| name := file; readlines := pre ++ [line] |} d tt
           /\ exists e,
                outcome (parse_report
                           {| name := file; readlines := pre ++ line :: post |}
                           d tt) = Raise e)
    /\ (forall args fs f text,
           In f (kraken_report args) -> fs f = Some text -> In line text ->
           exists e, outcome (kraken2krona args fs tt) = Raise e).
Proof.
  intros tt line Hm. apply malformed_no_entry in Hm.
  split; [| split].
  - intros d. now apply parse_line_malformed.
  - intros file pre post d.
    assert (Hr : exists e,
               outcome (for_each (pre ++ [line]) d (parse_line tt)) = Raise e).
    { apply for_each_raises with (x := line).
      - intros acc. destruct (parse_line_malformed tt line acc Hm) as [e ->].
        now exists e.
      - apply in_or_app. right. now left. }
    destruct Hr as [e He].
    assert (Heq : for_each (pre ++ line :: post) d (parse_line tt)
                  = for_each (pre ++ [line]) d (parse_line tt)).
    { change (line :: post) with ([line] ++ post). rewrite app_assoc.
      now apply for_each_raise_prefix with (e := e). }
    unfold parse_report. cbn [name readlines]. rewrite Heq.
    split; [reflexivity |]. exists e.
    rewrite outcome_bind. simpl outcome at 2. exact He.
  - intros args fs f text Hf Hfs Hin. rewrite kraken2krona_outcome.
    assert (Hr : exists e,
               outcome (parse_reports (kraken_report args) fs tt) = Raise e).
    { unfold parse_reports. apply for_each_raises with (x := f); [| exact Hf].
      intros acc. unfold read_file. rewrite Hfs, bind_ret.
      now apply parse_report_raises with (line := line). }
    destruct Hr as [e ->]. now exists e.
Qed.

Lemma malformed_line_is_fatal_witness :
  malformed "10.00 4 4"
  /\ exists e,
       outcome (kraken2krona (Sample.args ["b.report"; "short.report"] true)
                  Sample.files Sample.tree) = Raise e.
Proof.
  assert (Hm : malformed "10.00 4 4") by (left; vm_compute; lia).
  split; [exact Hm |].
  destruct (malformed_line_is_fatal Sample.tree "10.00 4 4" Hm) as (_ & _ & H).
  apply (H (Sample.args ["b.report"; "short.report"] true) Sample.files
           "short.report"
           [ " 20.00 20 5 G 99 Y"; "10.00 4 4"; " 80.00 80 1 R 1 root" ]).
  - right. now left.
  - reflexivity.
  - right. now left.
Defined.

(** ** Counters *)

(** C9, as stated, fails: a report line may carry negative counts,
    which [int] accepts, and the counters of its tax ID then
    decrease. *)
Lemma counters_can_decrease : ~ counters_never_decrease.
Proof.
  intros H.
  pose (td := {| d_superkingdom := Some "Bacteria"; d_kingdom := None;
                 d_phylum := None; d_class := None; d_order := None;
                 d_family := None; d_genus := Some "Y";
                 d_species := None |}).
  assert (Hwf : wf Sample.tree [(99, new_TaxonInfo td 99 20 5)]).
  { split.
    - constructor; [intros [] | constructor].
    - constructor; [split; reflexivity | constructor]. }
  destruct (H Sample.tree " 10.00 -3 -2 G 99 Y"
              [(99, new_TaxonInfo td 99 20 5)]
              [(99, new_TaxonInfo td 99 17 3)]
              99 (new_TaxonInfo td 99 20 5) (new_TaxonInfo td 99 17 3)
              Hwf eq_refl eq_refl eq_refl) as [Hc _].
  simpl in Hc. lia.
Qed.

(** C9, amended: when the two counts of a line are not negative,
    ingesting the line leaves every record in the dict, with each of
    its two counters greater than or equal to what it was. *)
Theorem counters_monotone :
  forall tt line d d' c t i,
    line_fields line = Some (c, t, i) -> 0 <= c -> 0 <= t ->
    outcome (parse_line tt line d) = Return d' ->
    forall k r,
      lookup k d = Some r ->
      exists r',
        lookup k d' = Some r'
        /\ hits_at_clade r <= hits_at_clade r'
        /\ hits_at_taxon r <= hits_at_taxon r'.
Proof.
  intros tt line d d' c t i E Hc Ht.
  rewrite (parse_line_entry tt line d c t i E).
  destruct (contains i d) eqn:Hi.
  - simpl. intros H. injection H as <-. intros k r Hr.
    rewrite lookup_update. destruct (Z.eqb_spec k i) as [-> | Hne].
    + rewrite Hr. simpl. eexists. split; [reflexivity |]. simpl. lia.
    + exists r. rewrite Hr. repeat split; lia.
  - rewrite outcome_bind.
    destruct (outcome (get_taxonomy i tt)) as [e | td]; [discriminate |].
    simpl. intros H. injection H as <-. intros k r Hr.
    rewrite lookup_insert_new, Hr. exists r. repeat split; lia.
Qed.

Lemma counters_monotone_witness :
  exists r',
    lookup 99 [(99, new_TaxonInfo empty_taxonomy_dict 99 48 12)] = Some r'
    /\ 20 <= hits_at_clade r' /\ 5 <= hits_at_taxon r'.
Proof.
  apply (counters_monotone Sample.tree " 28.00 28 7 G 99 Y"
           [(99, new_TaxonInfo empty_taxonomy_dict 99 20 5)]
           [(99, new_TaxonInfo empty_taxonomy_dict 99 48 12)] 28 7 99
           eq_refl ltac:(lia) ltac:(lia) eq_refl 99
           (new_TaxonInfo empty_taxonomy_dict 99 20 5) eq_refl).
Defined.

(** ** Empty input *)

Lemma parse_reports_empty fs tt files :
  (forall f, In f files -> fs f = Some []) ->
  parse_reports files fs tt = (map LogReading files, Return []).
Proof.
  unfold parse_reports. induction files as [| f files IH]; intros H.
  - reflexivity.
  - cbn [for_each]. unfold read_file at 1.
    rewrite (H f (or_introl eq_refl)), bind_ret.
    unfold parse_report at 1. cbn [name readlines for_each].
    unfold bind at 1 2, emit, ret.
    rewrite IH by (intros g Hg; apply H; now right).
    reflexivity.
Qed.

(** C10: when the main loop returns an empty dict the run raises
    [KeyError] when the frame is built, before anything is written; this
    is what happens when every report file has no line. *)
Theorem empty_input_fails :
  forall args fs tt,
    (outcome (parse_reports (kraken_report args) fs tt) = Return [] ->
     kraken2krona args fs tt
     = (trace (parse_reports (kraken_report args) fs tt), Raise KeyError))
    /\ ((forall f, In f (kraken_report args) -> fs f = Some []) ->
        kraken2krona args fs tt
        = (map LogReading (kraken_report args), Raise KeyError)).
Proof.
  intros args fs tt.
  assert (H1 : outcome (parse_reports (kraken_report args) fs tt) = Return [] ->
               kraken2krona args fs tt
               = (trace (parse_reports (kraken_report args) fs tt),
                  Raise KeyError)).
  { intros H. unfold kraken2krona.
    destruct (parse_reports (kraken_report args) fs tt) as [t r].
    simpl in H. subst r. simpl. now rewrite app_nil_r. }
  split; [exact H1 |].
  intros H. pose proof (parse_reports_empty fs tt _ H) as Hp.
  rewrite H1; now rewrite Hp.
Qed.

Lemma empty_input_fails_witness :
  kraken2krona (Sample.args ["empty.report"; "empty.report"] false)
    Sample.files Sample.tree
  = ([LogReading "empty.report"; LogReading "empty.report"], Raise KeyError).
Proof.
  apply (proj2 (empty_input_fails
                  (Sample.args ["empty.report"; "empty.report"] false)
                  Sample.files Sample.tree)).
  intros f [<- | [<- | []]]; reflexivity.
Defined.

(** ** Scenario A *)

Lemma parse_reports_single tt fs f line c t i td :
  fs f = Some [line] ->
  line_fields line = Some (c, t, i) ->
  outcome (get_taxonomy i tt) = Return td ->
  outcome (parse_reports [f] fs tt) = Return [(i, new_TaxonInfo td i c t)].
Proof.
  intros Hf Hl Ht. unfold parse_reports. cbn [for_each].
  unfold read_file. rewrite Hf, bind_ret.
  unfold parse_report. cbn [name readlines for_each].
  rewrite (parse_line_entry tt line [] c t i Hl). cbn [contains lookup].
  rewrite !outcome_bind. unfold emit. rewrite outcome_pair, Ht.
  reflexivity.
Qed.

(** C6, as stated, fails: on the sample tree, where tax ID 1234 has
    the lineage of the scenario, the run on the single line of the
    scenario does not emit the row the specification gives, which has
    an empty field between the count and "Bacteria". *)
Lemma scenario_A_row_differs :
  Sample.files "a.report" = Some [ScenarioA.line]
  /\ outcome (get_taxonomy 1234 Sample.tree) = Return ScenarioA.lineage
  /\ outcome (kraken2krona (Sample.args ["a.report"] false)
                Sample.files Sample.tree)
     <> Return [ScenarioA.row_of_spec].
Proof.
  split; [reflexivity |]. split; [reflexivity |].
  vm_compute. discriminate.
Qed.

(** C6, amended: for the single input line of scenario A and a tree
    that resolves tax ID 1234 to superkingdom "Bacteria" and species
    "X", the run emits exactly one row: the count 8, then "Bacteria" in
    the first rank field, six empty fields and "X" in the last. *)
Theorem scenario_A :
  forall tt fs f out inc,
    fs f = Some [ScenarioA.line] ->
    outcome (get_taxonomy 1234 tt) = Return ScenarioA.lineage ->
    outcome (kraken2krona {| kraken_report := [f]; output_file := out;
                             include_unclassified := inc |} fs tt)
    = Return [ScenarioA.row].
Proof.
  intros tt fs f out inc Hf Ht. rewrite kraken2krona_outcome.
  cbn [kraken_report].
  rewrite (parse_reports_single tt fs f ScenarioA.line 12 8 1234
             ScenarioA.lineage Hf eq_refl Ht).
  unfold krona_table. cbn [include_unclassified].
  assert (Hk : filter (keep inc)
                 [(1234, new_TaxonInfo ScenarioA.lineage 1234 12 8)]
               = [(1234, new_TaxonInfo ScenarioA.lineage 1234 12 8)])
    by (destruct inc; reflexivity).
  rewrite Hk. reflexivity.
Qed.

Lemma scenario_A_witness :
  outcome (kraken2krona (Sample.args ["a.report"] true)
             Sample.files Sample.tree)
  = Return [ScenarioA.row].
Proof.
  apply (scenario_A Sample.tree Sample.files "a.report" "krona.tsv" true
           eq_refl eq_refl).
Defined.

(** ** The columns *)

Lemma kraken2krona_rows args fs tt lines :
  outcome (kraken2krona args fs tt) = Return lines ->
  exists d,
    outcome (parse_reports (kraken_report args) fs tt) = Return d
    /\ wf tt d
    /\ find (unnamed tt) (empty_ids (filter (keep (include_unclassified args)) d))
       = None
    /\ lines = map (fun kv => krona_row (snd (rename tt kv)))
                 (filter (keep (include_unclassified args)) d).
Proof.
  rewrite kraken2krona_outcome.
  destruct (outcome (parse_reports (kraken_report args) fs tt)) as [e | d] eqn:Hp;
    [discriminate |].
  intros H. exists d. split; [reflexivity |].
  split; [now apply (parse_reports_wf tt fs (kraken_report args)) |].
  unfold krona_table in H. destruct d as [| kv d]; [discriminate |].
  cbv zeta in H.
  destruct (find (unnamed tt) _) eqn:Hf; [discriminate |].
  split; [reflexivity |]. injection H as <-. now rewrite map_map.
Qed.

Lemma csv_row_plain sep fs :
  Forall (fun f => Pandas.needs_quote sep f = false) fs ->
  fs <> [EmptyString] ->
  Pandas.csv_row sep fs = String.concat (String sep EmptyString) fs.
Proof.
  intros Hq Hne.
  assert (Hmap : map (Pandas.csv_field sep) fs = fs).
  { rewrite <- (map_id fs) at 2. apply map_ext_in. intros f Hf.
    rewrite Forall_forall in Hq. unfold Pandas.csv_field.
    now rewrite (Hq f Hf). }
  unfold Pandas.csv_row. rewrite Hmap.
  destruct fs as [| [| c f] [| g fs]]; try reflexivity. congruence.
Qed.

Lemma string_of_uint_digits d :
  all_chars decimal_char (NilEmpty.string_of_uint d) = true.
Proof. induction d; cbn [NilEmpty.string_of_uint all_chars]; auto. Qed.

Lemma no_sep_plain sep s :
  Pandas.needs_quote sep s = false ->
  all_chars (fun c => negb (Ascii.eqb c sep)) s = true.
Proof.
  induction s as [| c s IH]; cbn [Pandas.needs_quote all_chars];
    [reflexivity |].
  intros H. apply orb_false_iff in H. destruct H as [Hc Hs].
  unfold Pandas.special in Hc.
  destruct (Ascii.eqb c sep); [discriminate |]. now apply IH.
Qed.

Lemma split_on_field sep f : forall rest,
  all_chars (fun c => negb (Ascii.eqb c sep)) f = true ->
  split_on sep (String.append f rest) = prepend f (split_on sep rest).
Proof.
  induction f as [| c f IH]; intros rest; cbn [all_chars String.append].
  - intros _. now destruct rest as [| c r]; cbn [split_on];
      [| destruct (Ascii.eqb c sep); [| destruct (split_on sep r)]].
  - intros H. apply andb_true_iff in H. destruct H as [Hc Hf].
    apply negb_true_iff in Hc. cbn [split_on]. rewrite Hc, (IH rest Hf).
    now destruct (split_on sep rest).
Qed.

Lemma split_on_nonempty sep s : split_on sep s <> [].
Proof.
  destruct s as [| c s]; cbn [split_on]; [discriminate |].
  destruct (Ascii.eqb c sep); [discriminate |].
  now destruct (split_on sep s).
Qed.

(** Fields that hold no separator are what a row made of them splits
    into. *)
Lemma split_on_concat sep f fs :
  Forall (fun g => all_chars (fun c => negb (Ascii.eqb c sep)) g = true)
    (f :: fs) ->
  split_on sep (String.concat (String sep EmptyString) (f :: fs)) = f :: fs.
Proof.
  revert f. induction fs as [| g fs IH]; intros f H.
  - cbn [String.concat]. inversion H as [| ? ? Hf _]; subst.
    rewrite <- (append_empty_r f) at 1.
    rewrite (split_on_field sep f EmptyString Hf). cbn [split_on prepend].
    now rewrite append_empty_r.
  - inversion H as [| ? ? Hf Hrest]; subst.
    change (String.concat (String sep EmptyString) (f :: g :: fs))
      with (String.append f
              (String sep (String.concat (String sep EmptyString) (g :: fs)))).
    rewrite (split_on_field sep f _ Hf). cbn [split_on].
    rewrite Ascii.eqb_refl, (IH g Hrest). cbn [prepend].
    now rewrite append_empty_r.
Qed.

Lemma decimal_char_plain c : decimal_char c = true -> Pandas.special TAB c = false.
Proof.
  unfold decimal_char, Py.digit_value. set (n := N_of_ascii c).
  destruct ((48 <=? n) && (n <=? 57))%N eqn:E; [| discriminate].
  intros _. apply andb_true_iff in E. destruct E as [E1 E2].
  apply N.leb_le in E1, E2.
  unfold Pandas.special.
  assert (Hne : forall m, (m < 48)%N -> Ascii.eqb c (ascii_of_N m) = false).
  { intros m Hm. apply Ascii.eqb_neq. intros ->.
    unfold n in E1. rewrite N_ascii_embedding in E1; lia. }
  change TAB with (ascii_of_N 9).
  change Pandas.quotechar with (ascii_of_N 34).
  change Pandas.LF with (ascii_of_N 10).
  now rewrite !Hne by lia.
Qed.

Lemma digits_plain s :
  all_chars decimal_char s = true -> Pandas.needs_quote TAB s = false.
Proof.
  induction s as [| c s IH]; cbn [all_chars Pandas.needs_quote];
    [reflexivity |].
  intros H. apply andb_true_iff in H. destruct H as [Hc Hs].
  now rewrite (decimal_char_plain c Hc), (IH Hs).
Qed.

(** The decimal writing of a count is never quoted. *)
Lemma str_plain n : Pandas.needs_quote TAB (Py.str n) = false.
Proof.
  unfold Py.str. destruct n as [| p | p];
    cbn [Z.to_int NilEmpty.string_of_int]; [reflexivity | |].
  - apply digits_plain, string_of_uint_digits.
  - cbn [Pandas.needs_quote].
    now rewrite (digits_plain _ (string_of_uint_digits (Pos.to_uint p))).
Qed.

(** On a tree whose names need no quoting, no field of the row of a
    record does. *)
Lemma krona_fields_plain tt k r :
  (forall i s, get_name tt i = Some s -> Pandas.needs_quote TAB s = false) ->
  resolved tt (k, r) ->
  Forall (fun f => Pandas.needs_quote TAB f = false)
    (krona_fields (snd (rename tt (k, r)))).
Proof.
  intros Hname [_ Hres]. cbn [fst snd] in Hres.
  pose proof (get_taxonomy_from_tree tt k _ Hres) as Hft.
  assert (Hr : Forall (fun f => Pandas.needs_quote TAB f = false)
                 (map field_text (ranks r))).
  { unfold dict_values, taxonomy_of in Hft. cbn in Hft.
    apply Forall_map. unfold ranks.
    refine (Forall_impl _ _ Hft). intros [s |]; cbn [from_tree field_text];
      [| reflexivity].
    intros [i Hi]. now apply (Hname i). }
  unfold rename. cbn [fst snd].
  destruct (Pandas.all_null taxonomy_cols r);
    [| constructor; [apply str_plain | exact Hr]].
  unfold named, display_name. cbn [fst snd].
  assert (Hset : forall n,
             Pandas.needs_quote TAB n = false ->
             Forall (fun f => Pandas.needs_quote TAB f = false)
               (krona_fields (Pandas.set_superkingdom n r))).
  { intros n Hn. unfold krona_fields, ranks, Pandas.set_superkingdom.
    cbn. unfold ranks in Hr. cbn in Hr.
    inversion Hr as [| ? ? _ Hr']; subst.
    constructor; [apply str_plain |]. constructor; assumption. }
  destruct (Z.eqb_spec k 0) as [-> | _].
  - cbn [snd]. now apply Hset.
  - destruct (get_name tt k) as [n |] eqn:Hn; cbn [snd].
    + apply Hset. now apply (Hname k).
    + constructor; [apply str_plain | exact Hr].
Qed.

(** On such a tree the row of a record splits at its tabs into the
    nine fields of the record. *)
Lemma tab_separated_row tt k r :
  (forall i s, get_name tt i = Some s -> Pandas.needs_quote TAB s = false) ->
  resolved tt (k, r) ->
  tab_separated (krona_row (snd (rename tt (k, r))))
  = krona_fields (snd (rename tt (k, r))).
Proof.
  intros Hname Hres.
  pose proof (krona_fields_plain tt k r Hname Hres) as Hq.
  unfold krona_row, tab_separated.
  rewrite (csv_row_plain TAB _ Hq) by discriminate.
  unfold krona_fields in *. apply split_on_concat.
  refine (Forall_impl _ _ Hq). intros f. apply no_sep_plain.
Qed.

(** C7, as stated, fails: where the tree gives a taxon a name that
    holds a tab, here the species 1234, the name is written between
    quote characters with its tab, and the row of the taxon has nine
    tabs: ten tab-separated fields, not nine. *)
Lemma tab_in_a_name :
  exists lines row,
    outcome (kraken2krona (Sample.args ["a.report"] false)
               Sample.files Sample.tab_tree) = Return lines
    /\ In row lines
    /\ List.length (tab_separated row) = 10%nat.
Proof.
  exists [ Pandas.csv_row TAB
             [ "8"; "Bacteria"; ""; ""; ""; ""; ""; "";
               String "X" (String TAB "sp") ] ].
  eexists. split; [vm_compute; reflexivity |].
  split; [now left | reflexivity].
Qed.

(** C7, amended: provided no scientific name of the taxonomy holds a
    tab, a double quote or a line feed, every emitted row has exactly 9
    tab-separated fields: the taxon-level count, then the eight rank
    fields from superkingdom to species, an absent rank giving an empty
    field; there is one row per record that is kept, and the row of a
    record does not depend on its tax ID or on its clade-level
    count. *)
Theorem nine_tab_separated_fields :
  forall args fs tt lines,
    (forall i s, get_name tt i = Some s -> Pandas.needs_quote TAB s = false) ->
    outcome (kraken2krona args fs tt) = Return lines ->
    (exists d,
        outcome (parse_reports (kraken_report args) fs tt) = Return d
        /\ lines = map (fun kv => krona_row (snd (rename tt kv)))
                     (filter (keep (include_unclassified args)) d))
    /\ (forall row,
          In row lines ->
          List.length (tab_separated row) = 9%nat
          /\ exists r,
               tab_separated row
               = [ Py.str (hits_at_taxon r);
                   field_text (t_superkingdom r); field_text (t_kingdom r);
                   field_text (t_phylum r); field_text (t_class r);
                   field_text (t_order r); field_text (t_family r);
                   field_text (t_genus r); field_text (t_species r) ])
    /\ (forall r tax_id hits_clade,
          krona_row (relabel tax_id hits_clade r) = krona_row r).
Proof.
  intros args fs tt lines Hname H.
  destruct (kraken2krona_rows args fs tt lines H)
    as (d & Hp & [_ Hall] & _ & Hl).
  split; [now exists d |]. split; [| reflexivity].
  intros row Hin. rewrite Hl in Hin. apply in_map_iff in Hin.
  destruct Hin as ([k r] & <- & Hin). apply filter_In in Hin.
  destruct Hin as [Hin _]. rewrite Forall_forall in Hall.
  rewrite (tab_separated_row tt k r Hname (Hall _ Hin)).
  split; [reflexivity | now exists (snd (rename tt (k, r)))].
Qed.

Lemma nine_tab_separated_fields_witness :
  Forall (fun row => List.length (tab_separated row) = 9%nat)
    [ tab_row ["12"; "Bacteria"; ""; ""; ""; ""; ""; "Y"; ""];
      tab_row ["3"; "Unclassified"; ""; ""; ""; ""; ""; ""; ""];
      tab_row ["1"; "root"; ""; ""; ""; ""; ""; ""; ""] ].
Proof.
  assert (Hname : forall i s, get_name Sample.tree i = Some s ->
                              Pandas.needs_quote TAB s = false).
  { intros i s. simpl.
    repeat match goal with
           | |- context [if ?b then _ else _] => destruct b
           end; intros E; inversion E; reflexivity. }
  assert (H : outcome (kraken2krona (Sample.args ["b.report"; "c.report"] true)
                         Sample.files Sample.tree)
              = Return
                  [ tab_row ["12"; "Bacteria"; ""; ""; ""; ""; ""; "Y"; ""];
                    tab_row ["3"; "Unclassified"; ""; ""; ""; ""; ""; ""; ""];
                    tab_row ["1"; "root"; ""; ""; ""; ""; ""; ""; ""] ])
    by (vm_compute; reflexivity).
  apply Forall_forall. intros row Hin.
  exact (proj1 (proj1 (proj2 (nine_tab_separated_fields
                                (Sample.args ["b.report"; "c.report"] true)
                                Sample.files Sample.tree _ Hname H))
                  row Hin)).
Defined.

(** ** The unclassified row *)

Lemma first_field_row r :
  nth_error (fields (krona_row r)) 1 = Some (field_text (t_superkingdom r)).
Proof. now rewrite fields_krona_row. Qed.

Lemma all_null_superkingdom r :
  Pandas.all_null taxonomy_cols r = true -> t_superkingdom r = None.
Proof.
  unfold Pandas.all_null, taxonomy_cols. simpl.
  now destruct (t_superkingdom r).
Qed.

Lemma resolved_zero tt r :
  resolved tt (0, r) -> taxonomy_of r = empty_taxonomy_dict.
Proof.
  intros [_ H]. cbn [fst snd] in H.
  rewrite get_taxonomy_zero, outcome_pair in H. congruence.
Qed.

Lemma rename_zero tt r :
  taxonomy_of r = empty_taxonomy_dict ->
  fields (krona_row (snd (rename tt (0, r))))
  = Py.str (hits_at_taxon r) :: "Unclassified" :: repeat EmptyString 7.
Proof.
  intros H. rewrite fields_krona_row.
  destruct r. simpl in H. injection H as -> -> -> -> -> -> -> ->.
  reflexivity.
Qed.

Lemma rename_nonzero tt k r :
  (forall i, get_name tt i <> Some "Unclassified") ->
  resolved tt (k, r) -> k <> 0 ->
  ~ first_rank_is "Unclassified" (krona_row (snd (rename tt (k, r)))).
Proof.
  intros Hname [_ Hres] Hk. unfold first_rank_is. rewrite first_field_row.
  intros Heq. injection Heq as Heq. simpl in Hres.
  unfold rename in Heq. cbn [fst snd] in Heq.
  destruct (Pandas.all_null taxonomy_cols r) eqn:Hnull.
  - unfold named, display_name in Heq. cbn [fst snd] in Heq.
    destruct (Z.eqb_spec k 0) as [E | _]; [contradiction |].
    destruct (get_name tt k) as [n |] eqn:Hn; cbn [fst snd] in Heq.
    + simpl in Heq. subst n. now apply (Hname k).
    + rewrite (all_null_superkingdom r Hnull) in Heq. discriminate.
  - cbn [snd] in Heq.
    pose proof (get_taxonomy_from_tree tt k _ Hres) as Hft.
    unfold dict_values, taxonomy_of in Hft. cbn in Hft.
    inversion Hft as [| ? ? H1 _]; subst.
    destruct (t_superkingdom r) as [s |]; [| discriminate].
    simpl in Heq, H1. subst s. destruct H1 as [i Hi]. now apply (Hname i).
Qed.

(** C3, as stated, fails: where the tree gives the name
    "Unclassified" to a taxon without tracked ranks, here the root, a
    row has that value in its first rank field although the flag is
    unset, and two rows have it when the flag is set and tax ID 0 is in
    the input. *)
Lemma unclassified_name_in_tree :
  (exists lines row,
      outcome (kraken2krona (Sample.args ["c.report"] false)
                 Sample.files Sample.odd_tree) = Return lines
      /\ In row lines /\ first_rank_is "Unclassified" row)
  /\ (exists lines row1 row2,
         outcome (kraken2krona (Sample.args ["b.report"; "c.report"] true)
                    Sample.files Sample.odd_tree) = Return lines
         /\ seen 0 (report_entries Sample.files ["b.report"; "c.report"]) = true
         /\ In row1 lines /\ In row2 lines /\ row1 <> row2
         /\ first_rank_is "Unclassified" row1
         /\ first_rank_is "Unclassified" row2).
Proof.
  split.
  - exists [ tab_row ["7"; "Bacteria"; ""; ""; ""; ""; ""; "Y"; ""];
             tab_row ["1"; "Unclassified"; ""; ""; ""; ""; ""; ""; ""] ].
    exists (tab_row ["1"; "Unclassified"; ""; ""; ""; ""; ""; ""; ""]).
    split; [vm_compute; reflexivity |].
    split; [right; now left | reflexivity].
  - exists [ tab_row ["12"; "Bacteria"; ""; ""; ""; ""; ""; "Y"; ""];
             tab_row ["3"; "Unclassified"; ""; ""; ""; ""; ""; ""; ""];
             tab_row ["1"; "Unclassified"; ""; ""; ""; ""; ""; ""; ""] ].
    exists (tab_row ["3"; "Unclassified"; ""; ""; ""; ""; ""; ""; ""]).
    exists (tab_row ["1"; "Unclassified"; ""; ""; ""; ""; ""; ""; ""]).
    split; [vm_compute; reflexivity |].
    split; [reflexivity |].
    split; [right; now left |].
    split; [right; right; now left |].
    split; [discriminate |].
    split; reflexivity.
Qed.

(** C3, amended: provided the tree gives no taxon the scientific name
    "Unclassified": with the flag unset no emitted row has
    "Unclassified" in its first rank field; with the flag set and tax
    ID 0 in the input exactly one emitted row has it, and the count of
    that row is the sum of the taxon-level counts of all the input
    lines with tax ID 0. *)
Theorem unclassified_row :
  forall args fs tt lines,
    (forall i, get_name tt i <> Some "Unclassified") ->
    outcome (kraken2krona args fs tt) = Return lines ->
    (include_unclassified args = false ->
     forall row, In row lines -> ~ first_rank_is "Unclassified" row)
    /\ (include_unclassified args = true ->
        seen 0 (report_entries fs (kraken_report args)) = true ->
        exists pre row post,
          lines = pre ++ row :: post
          /\ fields row
             = Py.str (taxon_sum 0 (report_entries fs (kraken_report args)))
               :: "Unclassified" :: repeat EmptyString 7
          /\ forall other,
               In other (pre ++ post) -> ~ first_rank_is "Unclassified" other).
Proof.
  intros args fs tt lines Hname H.
  destruct (kraken2krona_rows args fs tt lines H)
    as (d & Hp & [Hnd Hall] & _ & Hl).
  rewrite Forall_forall in Hall. split.
  - intros Hinc row Hin. rewrite Hl, Hinc in Hin.
    apply in_map_iff in Hin. destruct Hin as ([k r] & <- & Hin).
    apply filter_In in Hin. destruct Hin as [Hin Hkeep].
    unfold keep, nonzero in Hkeep. simpl in Hkeep.
    apply rename_nonzero; [exact Hname | now apply Hall |].
    intros ->. discriminate.
  - intros Hinc Hseen. rewrite Hinc in Hl.
    rewrite filter_all in Hl by reflexivity.
    pose proof (parse_reports_counters tt fs _ d Hp 0) as Hc.
    unfold merge in Hc. rewrite Hseen in Hc. unfold counters in Hc.
    destruct (lookup 0 d) as [r |] eqn:Hr; [| discriminate].
    simpl in Hc. injection Hc as _ Ht.
    apply lookup_In in Hr. pose proof (Hall _ Hr) as Hres.
    destruct (in_split _ _ Hr) as (d1 & d2 & Hd).
    exists (map (fun kv => krona_row (snd (rename tt kv))) d1).
    exists (krona_row (snd (rename tt (0, r)))).
    exists (map (fun kv => krona_row (snd (rename tt kv))) d2).
    split; [now rewrite Hl, Hd, map_app |]. split.
    + rewrite rename_zero by now apply (resolved_zero tt). now rewrite Ht.
    + intros other Hin.
      assert (Hkv : exists kv, In kv (d1 ++ d2)
                               /\ other = krona_row (snd (rename tt kv))).
      { apply in_app_or in Hin.
        destruct Hin as [Hin | Hin]; apply in_map_iff in Hin;
          destruct Hin as (kv & <- & Hin); exists kv;
          (split; [apply in_or_app; tauto | reflexivity]). }
      destruct Hkv as ([k r'] & Hin' & ->).
      apply rename_nonzero; [exact Hname | |].
      * apply Hall. rewrite Hd. apply in_app_or in Hin'.
        apply in_or_app. simpl. tauto.
      * intros ->. rewrite Hd in Hnd. unfold keys in Hnd.
        rewrite map_app in Hnd. simpl in Hnd.
        apply NoDup_remove_2 in Hnd. apply Hnd.
        rewrite <- map_app. change 0 with (fst (0, r')). now apply in_map.
Qed.

Lemma unclassified_row_witness :
  (forall row,
      In row [ tab_row ["7"; "Bacteria"; ""; ""; ""; ""; ""; "Y"; ""];
               tab_row ["1"; "root"; ""; ""; ""; ""; ""; ""; ""] ] ->
      ~ first_rank_is "Unclassified" row)
  /\ exists pre row post,
       [ tab_row ["12"; "Bacteria"; ""; ""; ""; ""; ""; "Y"; ""];
         tab_row ["3"; "Unclassified"; ""; ""; ""; ""; ""; ""; ""];
         tab_row ["1"; "root"; ""; ""; ""; ""; ""; ""; ""] ]
       = pre ++ row :: post
       /\ fields row = "3" :: "Unclassified" :: repeat EmptyString 7
       /\ forall other,
            In other (pre ++ post) -> ~ first_rank_is "Unclassified" other.
Proof.
  assert (Hname : forall i, get_name Sample.tree i <> Some "Unclassified").
  { intros i. simpl.
    repeat match goal with
           | |- context [if ?b then _ else _] => destruct b
           end; discriminate. }
  split.
  - assert (H : outcome (kraken2krona (Sample.args ["c.report"] false)
                           Sample.files Sample.tree)
                = Return
                    [ tab_row ["7"; "Bacteria"; ""; ""; ""; ""; ""; "Y"; ""];
                      tab_row ["1"; "root"; ""; ""; ""; ""; ""; ""; ""] ])
      by (vm_compute; reflexivity).
    exact (proj1 (unclassified_row _ _ _ _ Hname H) eq_refl).
  - assert (H : outcome (kraken2krona
                           (Sample.args ["b.report"; "c.report"] true)
                           Sample.files Sample.tree)
                = Return
                    [ tab_row ["12"; "Bacteria"; ""; ""; ""; ""; ""; "Y"; ""];
                      tab_row ["3"; "Unclassified"; ""; ""; ""; ""; ""; ""; ""];
                      tab_row ["1"; "root"; ""; ""; ""; ""; ""; ""; ""] ])
      by (vm_compute; reflexivity).
    exact (proj2 (unclassified_row _ _ _ _ Hname H) eq_refl eq_refl).
Defined.

(** ** The order of the passes *)

Lemma filter_map_comm {A B} (p : B -> bool) (f : A -> B) (l : list A) :
  filter p (map f l) = map f (filter (fun x => p (f x)) l).
Proof.
  induction l as [| x l IH]; simpl; [reflexivity |].
  destruct (p (f x)); simpl; now rewrite IH.
Qed.

Lemma filter_comm {A} (p q : A -> bool) (l : list A) :
  filter p (filter q l) = filter q (filter p l).
Proof.
  induction l as [| x l IH]; simpl; [reflexivity |].
  destruct (p x) eqn:Hp, (q x) eqn:Hq; simpl;
    rewrite ?Hp, ?Hq, IH; reflexivity.
Qed.

Lemma fst_rename tt row : fst (rename tt row) = fst row.
Proof.
  unfold rename, named.
  destruct (Pandas.all_null taxonomy_cols (snd row)); [| reflexivity].
  now destruct (display_name tt (fst row)).
Qed.

Lemma empty_ids_filter inc (d : Pandas.DataFrame) :
  empty_ids (filter (keep inc) d)
  = filter (fun k => inc || nonzero k) (empty_ids d).
Proof.
  unfold empty_ids, Pandas.index_values, Pandas.rows_all_null.
  rewrite filter_comm, filter_map_comm. reflexivity.
Qed.

Lemma find_filter {A} (p q : A -> bool) (l : list A) :
  (forall x, p x = false -> q x = false) ->
  find q (filter p l) = find q l.
Proof.
  intros H. induction l as [| x l IH]; simpl; [reflexivity |].
  destruct (p x) eqn:Hp; simpl.
  - now rewrite IH.
  - now rewrite (H x Hp).
Qed.

Lemma find_unnamed_kept tt inc (d : Pandas.DataFrame) :
  find (unnamed tt) (empty_ids (filter (keep inc) d))
  = find (unnamed tt) (empty_ids d).
Proof.
  rewrite empty_ids_filter. apply find_filter.
  intros k Hk. apply orb_false_iff in Hk. destruct Hk as [_ Hk].
  unfold nonzero in Hk. apply negb_false_iff, Z.eqb_eq in Hk. now subst k.
Qed.

Lemma rename_kept tt inc (d : Pandas.DataFrame) :
  filter (keep inc) (map (rename tt) d) = map (rename tt) (filter (keep inc) d).
Proof.
  rewrite filter_map_comm. f_equal. apply filter_ext.
  intros row. unfold keep. now rewrite fst_rename.
Qed.

Lemma kraken2krona_naming_first_outcome args fs tt :
  outcome (kraken2krona_naming_first args fs tt)
  = match outcome (parse_reports (kraken_report args) fs tt) with
    | Raise e => Raise e
    | Return d =>
        match d with
        | [] => Raise KeyError
        | _ =>
            match find (unnamed tt) (empty_ids d) with
            | Some k => Raise (TaxonomyError (GetName k))
            | None =>
                Return (map (fun row => krona_row (snd row))
                          (filter (keep (include_unclassified args))
                             (map (rename tt) d)))
            end
        end
    end.
Proof.
  unfold kraken2krona_naming_first. rewrite outcome_bind.
  destruct (outcome (parse_reports (kraken_report args) fs tt)) as [e | d] eqn:Hp;
    [reflexivity |].
  pose proof (parse_reports_wf tt fs _ d Hp) as Hwf.
  rewrite (set_index_values tt d Hwf).
  destruct d as [| kv d]; [reflexivity |]. rewrite bind_ret.
  cbv zeta. rewrite outcome_bind. fold taxonomy_cols.
  rewrite name_empty_rows_outcome by apply Hwf.
  destruct (find (unnamed tt) (empty_ids (kv :: d))); [reflexivity |].
  rewrite outcome_bind, drop_unclassified_eq, outcome_pair.
  rewrite outcome_bind. unfold emit, ret. rewrite !outcome_pair.
  now rewrite to_csv_select.
Qed.

(** C8, as stated, fails: in the run below, where the flag is unset
    and tax ID 0 is in the input, the name of the root is asked of the
    tree, by the naming pass, after the unclassified row has been
    removed. *)
Lemma naming_follows_removal :
  trace (kraken2krona (Sample.args ["c.report"; "b.report"] false)
           Sample.files Sample.tree)
  = [ LogReading "c.report";
      Query (GetLineage 99); Query (GetRank 1); Query (GetRank 131567);
      Query (GetRank 2); Query (GetName 2); Query (GetRank 99);
      Query (GetName 99);
      Query (GetLineage 1); Query (GetRank 1);
      LogReading "b.report";
      LogRemoving; Query (GetName 1); LogSaving "krona.tsv" ]
  /\ ~ naming_before_removal
         (trace (kraken2krona (Sample.args ["c.report"; "b.report"] false)
                   Sample.files Sample.tree)).
Proof.
  assert (Ht : trace (kraken2krona (Sample.args ["c.report"; "b.report"] false)
                        Sample.files Sample.tree)
               = [ LogReading "c.report";
                   Query (GetLineage 99); Query (GetRank 1);
                   Query (GetRank 131567);
                   Query (GetRank 2); Query (GetName 2); Query (GetRank 99);
                   Query (GetName 99);
                   Query (GetLineage 1); Query (GetRank 1);
                   LogReading "b.report";
                   LogRemoving; Query (GetName 1); LogSaving "krona.tsv" ])
    by (vm_compute; reflexivity).
  split; [exact Ht |].
  rewrite Ht. intros H.
  specialize (H [ LogReading "c.report";
                  Query (GetLineage 99); Query (GetRank 1);
                  Query (GetRank 131567);
                  Query (GetRank 2); Query (GetName 2); Query (GetRank 99);
                  Query (GetName 99);
                  Query (GetLineage 1); Query (GetRank 1);
                  LogReading "b.report" ]
                [ Query (GetName 1); LogSaving "krona.tsv" ] eq_refl).
  discriminate H.
Qed.

(** C8, amended: in a completed run the naming pass runs once, after
    all the reports have been merged and after the unclassified row
    has been removed, before the output is saved: the trace is the
    trace of the main loop, then the removal message if the row of tax
    ID 0 is dropped, then one name look-up for each row without ranks
    that is kept, tax ID 0 excepted, each tax ID once, then the saving
    message.  The outcome of the run is the one it would have with the
    naming pass before the removal. *)
Theorem naming_pass_order :
  (forall args fs tt lines,
      outcome (kraken2krona args fs tt) = Return lines ->
      exists d,
        outcome (parse_reports (kraken_report args) fs tt) = Return d
        /\ trace (kraken2krona args fs tt)
           = trace (parse_reports (kraken_report args) fs tt)
             ++ (if negb (include_unclassified args) && contains 0 d
                 then [LogRemoving] else [])
             ++ map (fun k => Query (GetName k))
                  (filter nonzero
                     (empty_ids
                        (filter (keep (include_unclassified args)) d)))
             ++ [LogSaving (output_file args)]
        /\ NoDup (empty_ids (filter (keep (include_unclassified args)) d))
        /\ lines = map (fun kv => krona_row (snd (rename tt kv)))
                     (filter (keep (include_unclassified args)) d))
  /\ (forall args fs tt,
         outcome (kraken2krona_naming_first args fs tt)
         = outcome (kraken2krona args fs tt)).
Proof.
  split.
  - intros args fs tt lines H.
    destruct (kraken2krona_rows args fs tt lines H) as (d & Hp & Hwf & _ & Hl).
    destruct (kraken2krona_trace args fs tt lines H) as (d' & Hp' & Ht).
    assert (d' = d) by congruence. subst d'.
    exists d. split; [exact Hp |]. split; [exact Ht |]. split; [| exact Hl].
    unfold empty_ids, Pandas.index_values, Pandas.rows_all_null.
    apply (NoDup_keys_filter
             (fun row => Pandas.all_null taxonomy_cols (snd row))).
    apply NoDup_keys_filter. apply Hwf.
  - intros args fs tt.
    rewrite kraken2krona_naming_first_outcome, kraken2krona_outcome.
    destruct (outcome (parse_reports (kraken_report args) fs tt)) as [e | d];
      [reflexivity |].
    unfold krona_table. destruct d as [| kv d]; [reflexivity |].
    cbv zeta. rewrite find_unnamed_kept, rename_kept. reflexivity.
Qed.

Lemma naming_pass_order_witness :
  exists d,
    outcome (parse_reports ["c.report"; "b.report"] Sample.files Sample.tree)
    = Return d
    /\ trace (kraken2krona (Sample.args ["c.report"; "b.report"] false)
                Sample.files Sample.tree)
       = trace (parse_reports ["c.report"; "b.report"] Sample.files Sample.tree)
         ++ (if negb false && contains 0 d then [LogRemoving] else [])
         ++ map (fun k => Query (GetName k))
              (filter nonzero (empty_ids (filter (keep false) d)))
         ++ [LogSaving "krona.tsv"]
    /\ NoDup (empty_ids (filter (keep false) d))
    /\ [ tab_row ["12"; "Bacteria"; ""; ""; ""; ""; ""; "Y"; ""];
         tab_row ["1"; "root"; ""; ""; ""; ""; ""; ""; ""] ]
       = map (fun kv => krona_row (snd (rename Sample.tree kv)))
           (filter (keep false) d).
Proof.
  assert (H : outcome (kraken2krona (Sample.args ["c.report"; "b.report"] false)
                         Sample.files Sample.tree)
              = Return
                  [ tab_row ["12"; "Bacteria"; ""; ""; ""; ""; ""; "Y"; ""];
                    tab_row ["1"; "root"; ""; ""; ""; ""; ""; ""; ""] ])
    by (vm_compute; reflexivity).
  exact (proj1 naming_pass_order
           (Sample.args ["c.report"; "b.report"] false)
           Sample.files Sample.tree _ H).
Defined.

(** * Further properties of the code *)

(** ** get_taxonomy on a tax ID other than 0 *)

Lemma rank_attr_eqb_eq a b : rank_attr_eqb a b = true <-> a = b.
Proof. destruct a, b; simpl; split; congruence. Qed.

Lemma getitem_setitem a b v td :
  getitem a (setitem b v td) = if rank_attr_eqb b a then v else getitem a td.
Proof. destruct a, b; reflexivity. Qed.

Lemma rank_queries_app t1 t2 :
  rank_queries (t1 ++ t2) = rank_queries t1 ++ rank_queries t2.
Proof. apply flat_map_app. Qed.

(** One turn of the loop over the lineage, when it completes. *)
Lemma store_rank_return tt j td td' :
  outcome (store_rank tt j td) = Return td' ->
  (forall a, getitem a td'
             = if stored_under tt a j then get_name tt j else getitem a td)
  /\ rank_queries (trace (store_rank tt j td)) = [j]
  /\ name_queries (trace (store_rank tt j td))
     = if tracked tt j then [j] else [].
Proof.
  unfold store_rank, tt_get_rank, tt_get_name, stored_under, tracked, attr_of.
  rewrite outcome_bind, trace_bind, query_outcome, query_trace.
  destruct (get_rank tt j) as [rk |]; [| discriminate].
  destruct (assoc_string rk taxonomy_ranks) as [b |].
  - rewrite outcome_bind, trace_bind, query_outcome, query_trace.
    destruct (get_name tt j) as [n |]; [| discriminate].
    unfold ret. rewrite outcome_pair, trace_pair.
    intros H. injection H as <-. split; [| split; reflexivity].
    intros a. apply getitem_setitem.
  - unfold ret. rewrite outcome_pair, trace_pair.
    intros H. injection H as <-. split; [| split; reflexivity].
    reflexivity.
Qed.

Lemma rank_loop_return tt lineage : forall td td',
  outcome (for_each lineage td (store_rank tt)) = Return td' ->
  (forall a,
      (forall j, In j lineage -> stored_under tt a j = false) ->
      getitem a td' = getitem a td)
  /\ (forall a pre j post,
         lineage = pre ++ j :: post ->
         stored_under tt a j = true ->
         (forall k, In k post -> stored_under tt a k = false) ->
         getitem a td' = get_name tt j)
  /\ rank_queries (trace (for_each lineage td (store_rank tt))) = lineage
  /\ name_queries (trace (for_each lineage td (store_rank tt)))
     = filter (tracked tt) lineage.
Proof.
  induction lineage as [| i lineage IH]; intros td td'.
  - unfold for_each, ret. rewrite outcome_pair. intros H. injection H as <-.
    split; [reflexivity |]. split; [| split; reflexivity].
    intros a [| x pre] j post Hl; discriminate.
  - cbn [for_each]. rewrite outcome_bind, trace_bind.
    destruct (outcome (store_rank tt i td)) as [e | td1] eqn:Hs; [discriminate |].
    intros H. destruct (store_rank_return tt i td td1 Hs) as (Hg & Hr & Hn).
    destruct (IH td1 td' H) as (IH1 & IH2 & IH3 & IH4).
    split; [| split; [| split]].
    + intros a Hnone. rewrite IH1 by (intros j Hj; apply Hnone; now right).
      rewrite Hg, (Hnone i (or_introl eq_refl)). reflexivity.
    + intros a pre j post Hl Hj Hpost. destruct pre as [| x pre].
      * injection Hl as -> ->. rewrite IH1 by exact Hpost.
        now rewrite Hg, Hj.
      * injection Hl as -> ->. now apply (IH2 a pre j post).
    + rewrite rank_queries_app, Hr, IH3. reflexivity.
    + rewrite name_queries_app, Hn, IH4. cbn [filter].
      now destruct (tracked tt i).
Qed.

(** X1: for a tax ID other than 0, a completed [get_taxonomy] has
    asked the tree for the lineage once, for the rank of every member
    of the lineage, in the order of the lineage, and for the name of
    the members whose rank is one of the eight, and of no other. *)
Theorem get_taxonomy_queries :
  forall tt i td,
    i <> 0 ->
    outcome (get_taxonomy i tt) = Return td ->
    exists lineage,
      get_lineage tt i = Some lineage
      /\ lineage_queries (trace (get_taxonomy i tt)) = [i]
      /\ rank_queries (trace (get_taxonomy i tt)) = lineage
      /\ name_queries (trace (get_taxonomy i tt)) = filter (tracked tt) lineage.
Proof.
  intros tt i td Hi. pose proof (get_taxonomy_lineage_queries tt i) as Hq.
  revert Hq. unfold get_taxonomy, nonzero. simpl filter.
  destruct (Z.eqb_spec i 0) as [E | _]; [contradiction |]. simpl negb. cbv iota.
  unfold tt_get_lineage.
  rewrite outcome_bind, trace_bind, query_outcome, query_trace.
  destruct (get_lineage tt i) as [lineage |]; [| discriminate].
  intros Hq H. exists lineage. split; [reflexivity |]. split; [exact Hq |].
  destruct (rank_loop_return tt lineage _ td H) as (_ & _ & Hr & Hn).
  rewrite rank_queries_app, name_queries_app, Hr, Hn. now split.
Qed.

Lemma get_taxonomy_queries_witness :
  exists lineage,
    get_lineage Sample.tree 1234 = Some lineage
    /\ lineage_queries (trace (get_taxonomy 1234 Sample.tree)) = [1234]
    /\ rank_queries (trace (get_taxonomy 1234 Sample.tree)) = lineage
    /\ name_queries (trace (get_taxonomy 1234 Sample.tree))
       = filter (tracked Sample.tree) lineage.
Proof.
  apply (get_taxonomy_queries Sample.tree 1234 ScenarioA.lineage);
    [discriminate | reflexivity].
Defined.

(** X2: for a tax ID other than 0, the dict [get_taxonomy] returns
    has, under each rank attribute, the name of the last member of the
    lineage that has this rank, and [None] when no member has it:
    members with other ranks leave no mark, and of two members with the
    same rank the later one wins. *)
Theorem get_taxonomy_last_match :
  forall tt i td,
    i <> 0 ->
    outcome (get_taxonomy i tt) = Return td ->
    exists lineage,
      get_lineage tt i = Some lineage
      /\ (forall a,
             (forall j, In j lineage -> stored_under tt a j = false) ->
             getitem a td = None)
      /\ (forall a pre j post,
             lineage = pre ++ j :: post ->
             stored_under tt a j = true ->
             (forall k, In k post -> stored_under tt a k = false) ->
             getitem a td = get_name tt j /\ get_name tt j <> None).
Proof.
  intros tt i td Hi. unfold get_taxonomy.
  destruct (Z.eqb_spec i 0) as [E | _]; [contradiction |].
  unfold tt_get_lineage. rewrite outcome_bind, query_outcome.
  destruct (get_lineage tt i) as [lineage |]; [| discriminate].
  intros H. exists lineage. split; [reflexivity |].
  destruct (rank_loop_return tt lineage _ td H) as (H1 & H2 & _ & Hn).
  split.
  - intros a Hnone. rewrite (H1 a Hnone). now destruct a.
  - intros a pre j post Hl Hj Hpost.
    pose proof (H2 a pre j post Hl Hj Hpost) as Hg. split; [exact Hg |].
    (* the name of [j] was asked, and the loop completed *)
    clear H1 H2 Hn Hg Hpost. subst lineage. revert H.
    generalize empty_taxonomy_dict.
    induction pre as [| x pre IH]; intros td0; cbn [app for_each];
      rewrite outcome_bind.
    + unfold store_rank at 1, tt_get_rank, tt_get_name.
      rewrite outcome_bind, query_outcome.
      unfold stored_under, attr_of in Hj.
      destruct (get_rank tt j) as [rk |]; [| discriminate].
      destruct (assoc_string rk taxonomy_ranks) as [b |]; [| discriminate].
      rewrite outcome_bind, query_outcome.
      destruct (get_name tt j); [discriminate | discriminate].
    + destruct (outcome (store_rank tt x td0)) as [e | td1]; [discriminate |].
      apply IH.
Qed.

Lemma get_taxonomy_last_match_witness :
  exists lineage,
    get_lineage Sample.tree 99 = Some lineage
    /\ (forall a,
           (forall j, In j lineage -> stored_under Sample.tree a j = false) ->
           getitem a (match outcome (get_taxonomy 99 Sample.tree) with
                      | Return td => td
                      | Raise _ => empty_taxonomy_dict
                      end) = None)
    /\ (forall a pre j post,
           lineage = pre ++ j :: post ->
           stored_under Sample.tree a j = true ->
           (forall k, In k post -> stored_under Sample.tree a k = false) ->
           getitem a (match outcome (get_taxonomy 99 Sample.tree) with
                      | Return td => td
                      | Raise _ => empty_taxonomy_dict
                      end) = get_name Sample.tree j
           /\ get_name Sample.tree j <> None).
Proof.
  apply (get_taxonomy_last_match Sample.tree 99); [discriminate | reflexivity].
Defined.

(** ** A tax ID the tree cannot resolve *)

(** X3: when the tree has no lineage for a tax ID other than 0,
    [get_taxonomy] raises after that one look-up; and a run that meets
    a line whose tax ID cannot be resolved raises, so that no output is
    written. *)
Theorem unresolvable_taxon_is_fatal :
  (forall tt i,
      i <> 0 -> get_lineage tt i = None ->
      get_taxonomy i tt
      = ([Query (GetLineage i)], Raise (TaxonomyError (GetLineage i))))
  /\ (forall args fs tt f text line e ex,
         In f (kraken_report args) -> fs f = Some text -> In line text ->
         line_fields line = Some e ->
         outcome (get_taxonomy (entry_id e) tt) = Raise ex ->
         exists ex', outcome (kraken2krona args fs tt) = Raise ex').
Proof.
  split.
  - intros tt i Hi Hl. unfold get_taxonomy.
    destruct (Z.eqb_spec i 0) as [E | _]; [contradiction |].
    unfold tt_get_lineage. now rewrite Hl.
  - intros args fs tt f text line e ex Hf Hfs Hin Hl Hex.
    rewrite kraken2krona_outcome.
    pose proof (parse_reports_summary tt fs (kraken_report args)) as S.
    unfold summary in S.
    destruct (outcome (parse_reports (kraken_report args) fs tt)) as [e' | d];
      [now exists e' |].
    destruct S as (Hok & _). exfalso.
    rewrite forallb_forall in Hok. specialize (Hok f Hf).
    unfold file_ok in Hok. rewrite Hfs, forallb_forall in Hok.
    specialize (Hok line Hin). unfold line_ok, is_return in Hok.
    rewrite Hl, Hex in Hok. discriminate.
Qed.

Lemma unresolvable_taxon_is_fatal_witness :
  get_taxonomy 7 Sample.tree
  = ([Query (GetLineage 7)], Raise (TaxonomyError (GetLineage 7)))
  /\ exists ex',
       outcome (kraken2krona (Sample.args ["a.report"] true)
                  (fun f => if String.eqb f "a.report"
                            then Some ["50.00 12 8 S 1234 X"; "1.00 1 1 S 7 Z"]
                            else None)
                  Sample.tree) = Raise ex'.
Proof.
  destruct unresolvable_taxon_is_fatal as [H1 H2]. split.
  - apply H1; [discriminate | reflexivity].
  - apply (H2 (Sample.args ["a.report"] true) _ Sample.tree "a.report"
              ["50.00 12 8 S 1234 X"; "1.00 1 1 S 7 Z"] "1.00 1 1 S 7 Z"
              (1, 1, 7) (TaxonomyError (GetLineage 7))).
    + now left.
    + reflexivity.
    + right. now left.
    + reflexivity.
    + reflexivity.
Defined.

(** ** The records in closed form *)

Lemma sight_contains (d : TaxonInfoDict) i :
  sight (keys d) i = if contains i d then keys d else keys d ++ [i].
Proof.
  unfold sight. now rewrite <- (index_contains_contains d i).
Qed.

Lemma parse_line_keys tt line d d' :
  outcome (parse_line tt line d) = Return d' ->
  keys d'
  = fold_left sight
      (map entry_id (match line_fields line with Some e => [e] | None => [] end))
      (keys d).
Proof.
  destruct (line_fields line) as [[[c t] i] |] eqn:E.
  - rewrite (parse_line_entry tt line d c t i E). cbn [map fold_left].
    unfold entry_id. cbn [snd]. rewrite sight_contains.
    destruct (contains i d).
    + unfold ret. rewrite outcome_pair. intros H. injection H as <-.
      apply keys_update.
    + rewrite outcome_bind.
      destruct (outcome (get_taxonomy i tt)); [discriminate |].
      unfold ret. rewrite outcome_pair. intros H. injection H as <-.
      apply keys_insert_new.
  - destruct (parse_line_malformed tt line d E) as [e ->]. discriminate.
Qed.

Lemma for_each_keys {A} (body : A -> TaxonInfoDict -> M TaxonInfoDict)
    (ids : A -> list Z) :
  (forall x d d', outcome (body x d) = Return d' ->
                  keys d' = fold_left sight (ids x) (keys d)) ->
  forall xs d d',
    outcome (for_each xs d body) = Return d' ->
    keys d' = fold_left sight (flat_map ids xs) (keys d).
Proof.
  intros Hbody. induction xs as [| x xs IH]; intros d d'.
  - unfold for_each, ret. rewrite outcome_pair. intros H. now injection H as <-.
  - cbn [for_each flat_map]. rewrite outcome_bind.
    destruct (outcome (body x d)) as [e | d1] eqn:Hx; [discriminate |].
    intros H. rewrite fold_left_app, <- (Hbody x d d1 Hx). now apply IH.
Qed.

Lemma map_flat_map {A B C} (g : B -> C) (f : A -> list B) (l : list A) :
  map g (flat_map f l) = flat_map (fun x => map g (f x)) l.
Proof.
  induction l as [| x l IH]; simpl; [reflexivity |].
  now rewrite map_app, IH.
Qed.

Lemma parse_reports_keys tt fs files d :
  outcome (parse_reports files fs tt) = Return d ->
  keys d = first_sightings (map entry_id (report_entries fs files)).
Proof.
  intros H. unfold first_sightings, report_entries. rewrite map_flat_map.
  change (@nil Z) with (keys (@nil (Z * TaxonInfo))).
  revert H. unfold parse_reports. apply for_each_keys.
  intros f d0 d' H. unfold read_file in H.
  destruct (fs f) as [text |]; [| discriminate].
  rewrite bind_ret in H. unfold parse_report in H. cbn [name readlines] in H.
  rewrite outcome_bind in H. unfold emit in H. rewrite outcome_pair in H.
  unfold entries. rewrite map_flat_map. revert H. apply for_each_keys.
  intros line d1 d2. apply parse_line_keys.
Qed.

Lemma sight_In acc i k : In k (sight acc i) <-> In k acc \/ k = i.
Proof.
  unfold sight. destruct (existsb (Z.eqb i) acc) eqn:E.
  - split; [tauto |]. intros [H | ->]; [exact H |].
    apply existsb_exists in E. destruct E as (x & Hx & Hix).
    apply Z.eqb_eq in Hix. now subst x.
  - rewrite in_app_iff. simpl. intuition auto.
Qed.

Lemma sight_NoDup acc i : NoDup acc -> NoDup (sight acc i).
Proof.
  intros H. unfold sight. destruct (existsb (Z.eqb i) acc) eqn:E; [exact H |].
  apply NoDup_snoc; [exact H |]. intros Hin.
  assert (Ht : existsb (Z.eqb i) acc = true)
    by (apply existsb_exists; exists i; split; [exact Hin | apply Z.eqb_refl]).
  congruence.
Qed.

Lemma sightings_In ids : forall acc k,
  In k (fold_left sight ids acc) <-> In k acc \/ In k ids.
Proof.
  induction ids as [| i ids IH]; intros acc k; simpl; [tauto |].
  rewrite IH, sight_In. split; intros H; intuition auto.
Qed.

Lemma sightings_NoDup ids : forall acc,
  NoDup acc -> NoDup (fold_left sight ids acc).
Proof.
  induction ids as [| i ids IH]; intros acc H; simpl; [exact H |].
  now apply IH, sight_NoDup.
Qed.

Lemma TaxonInfo_eta r :
  r = new_TaxonInfo (taxonomy_of r) (t_id r) (hits_at_clade r) (hits_at_taxon r).
Proof. now destruct r. Qed.

Lemma record_closed_form tt fs files d k r :
  outcome (parse_reports files fs tt) = Return d ->
  In (k, r) d ->
  r = record_of tt (report_entries fs files) k.
Proof.
  intros H Hin. pose proof (parse_reports_wf tt fs files d H) as [Hnd Hall].
  rewrite Forall_forall in Hall. destruct (Hall _ Hin) as [Hid Hres].
  cbn [fst snd] in Hid, Hres.
  pose proof (parse_reports_counters tt fs files d H k) as Hc.
  unfold counters in Hc. rewrite (In_lookup d k r Hnd Hin) in Hc.
  unfold merge in Hc. cbn [option_map] in Hc.
  destruct (seen k (report_entries fs files)); [| discriminate].
  injection Hc as Hcl Hta.
  rewrite (TaxonInfo_eta r). unfold record_of, lineage_of.
  now rewrite Hres, Hid, Hcl, Hta.
Qed.

Lemma dict_of_keys {V} (h : Z -> Z * V) (d : list (Z * V)) :
  (forall kv, In kv d -> kv = h (fst kv)) -> d = map h (keys d).
Proof.
  induction d as [| kv d IH]; intros H; simpl; [reflexivity |].
  rewrite <- (H kv (or_introl eq_refl)). f_equal.
  apply IH. intros x Hx. apply H. now right.
Qed.

Lemma dict_closed_form tt fs files d :
  outcome (parse_reports files fs tt) = Return d ->
  d = map (fun k => (k, record_of tt (report_entries fs files) k))
        (first_sightings (map entry_id (report_entries fs files))).
Proof.
  intros H. rewrite <- (parse_reports_keys tt fs files d H).
  apply dict_of_keys. intros [k r] Hin. cbn [fst]. f_equal.
  now apply (record_closed_form tt fs files d).
Qed.

Lemma rows_closed_form args fs tt lines :
  outcome (kraken2krona args fs tt) = Return lines ->
  lines = expected_rows tt (include_unclassified args)
            (report_entries fs (kraken_report args)).
Proof.
  intros H.
  destruct (kraken2krona_rows args fs tt lines H) as (d & Hp & _ & _ & ->).
  rewrite (dict_closed_form tt fs _ d Hp) at 1.
  unfold expected_rows. rewrite filter_map_comm, map_map. reflexivity.
Qed.

(** X4: after a completed main loop the dict holds one record per
    distinct tax ID of the reports, in the order in which the tax IDs
    are first seen; the record of a tax ID has the sums of the clade
    and taxon counts of its lines and the rank fields [get_taxonomy]
    gives for it. *)
Theorem merged_records :
  forall tt fs files d,
    outcome (parse_reports files fs tt) = Return d ->
    d = map (fun k => (k, record_of tt (report_entries fs files) k))
          (first_sightings (map entry_id (report_entries fs files)))
    /\ NoDup (first_sightings (map entry_id (report_entries fs files)))
    /\ forall k,
         In k (first_sightings (map entry_id (report_entries fs files)))
         <-> exists e, In e (report_entries fs files) /\ entry_id e = k.
Proof.
  intros tt fs files d H. split; [now apply dict_closed_form |].
  split; [apply sightings_NoDup; constructor |].
  intros k. unfold first_sightings. rewrite sightings_In, in_map_iff.
  simpl. split.
  - intros [[] | (e & He & Hin)]. exists e. tauto.
  - intros (e & Hin & He). right. exists e. tauto.
Qed.

Lemma merged_records_witness :
  NoDup (first_sightings
           (map entry_id
              (report_entries Sample.files ["c.report"; "b.report"]))).
Proof.
  destruct (outcome (parse_reports ["c.report"; "b.report"]
                       Sample.files Sample.tree)) as [e | d] eqn:H.
  - vm_compute in H. discriminate H.
  - exact (proj1 (proj2 (merged_records Sample.tree Sample.files
                           ["c.report"; "b.report"] d H))).
Defined.

(** X5: the table of a completed run has one row per distinct tax ID
    of the reports, in the order in which the tax IDs are first seen,
    without tax ID 0 unless the flag is set; the row of a tax ID has the
    sum of the taxon counts of its lines, then its resolved ranks, or
    its display name when it has no rank. *)
Theorem krona_table_closed_form :
  forall args fs tt lines,
    outcome (kraken2krona args fs tt) = Return lines ->
    lines = expected_rows tt (include_unclassified args)
              (report_entries fs (kraken_report args))
    /\ List.length lines
       = List.length
           (filter (fun k => include_unclassified args || nonzero k)
              (first_sightings
                 (map entry_id (report_entries fs (kraken_report args))))).
Proof.
  intros args fs tt lines H. rewrite (rows_closed_form args fs tt lines H).
  split; [reflexivity |]. unfold expected_rows. apply length_map.
Qed.

Lemma krona_table_closed_form_witness :
  [ tab_row ["12"; "Bacteria"; ""; ""; ""; ""; ""; "Y"; ""];
    tab_row ["1"; "root"; ""; ""; ""; ""; ""; ""; ""] ]
  = expected_rows Sample.tree false
      (report_entries Sample.files ["c.report"; "b.report"]).
Proof.
  assert (H : outcome (kraken2krona (Sample.args ["c.report"; "b.report"] false)
                         Sample.files Sample.tree)
              = Return
                  [ tab_row ["12"; "Bacteria"; ""; ""; ""; ""; ""; "Y"; ""];
                    tab_row ["1"; "root"; ""; ""; ""; ""; ""; ""; ""] ])
    by (vm_compute; reflexivity).
  exact (proj1 (krona_table_closed_form _ _ _ _ H)).
Defined.

(** ** The clade counts and the output *)

Lemma taxon_sum_cons k e es :
  taxon_sum k (e :: es)
  = (if entry_id e =? k then entry_taxon e else 0) + taxon_sum k es.
Proof.
  unfold taxon_sum, for_id. cbn [filter].
  destruct (entry_id e =? k); reflexivity.
Qed.

Lemma taxon_part_eq es : forall es',
  map taxon_part es = map taxon_part es' ->
  map entry_id es = map entry_id es'
  /\ forall k, taxon_sum k es = taxon_sum k es'.
Proof.
  induction es as [| e es IH]; intros [| e' es'] H; try discriminate.
  - split; reflexivity.
  - injection H as Ht Hi Hrest. destruct (IH es' Hrest) as [Hids Hsum].
    split; [simpl; now rewrite Hi, Hids |].
    intros k. now rewrite !taxon_sum_cons, Hi, Ht, Hsum.
Qed.

Lemma row_ignores_clade tt k td c c' n :
  krona_row (snd (rename tt (k, new_TaxonInfo td k c n)))
  = krona_row (snd (rename tt (k, new_TaxonInfo td k c' n))).
Proof.
  unfold rename, named. cbn [fst snd].
  change (Pandas.all_null taxonomy_cols (new_TaxonInfo td k c' n))
    with (Pandas.all_null taxonomy_cols (new_TaxonInfo td k c n)).
  destruct (Pandas.all_null taxonomy_cols (new_TaxonInfo td k c n));
    [| reflexivity].
  destruct (display_name tt k); reflexivity.
Qed.

(** X6: the clade-level counts have no effect on the table: two
    completed runs with the same flag, on reports whose lines carry the
    same taxon counts and tax IDs in the same order, write the same
    rows, whatever the clade counts. *)
Theorem clade_counts_have_no_effect :
  forall args args' fs fs' tt lines lines',
    include_unclassified args = include_unclassified args' ->
    map taxon_part (report_entries fs (kraken_report args))
    = map taxon_part (report_entries fs' (kraken_report args')) ->
    outcome (kraken2krona args fs tt) = Return lines ->
    outcome (kraken2krona args' fs' tt) = Return lines' ->
    lines = lines'.
Proof.
  intros args args' fs fs' tt lines lines' Hinc Hes H H'.
  rewrite (rows_closed_form args fs tt lines H).
  rewrite (rows_closed_form args' fs' tt lines' H').
  destruct (taxon_part_eq _ _ Hes) as [Hids Hsum].
  unfold expected_rows. rewrite Hinc, Hids. apply map_ext. intros k.
  unfold record_of. rewrite (Hsum k). apply row_ignores_clade.
Qed.

Lemma clade_counts_have_no_effect_witness :
  [ tab_row ["8"; "Bacteria"; ""; ""; ""; ""; ""; ""; "X"] ]
  = [ tab_row ["8"; "Bacteria"; ""; ""; ""; ""; ""; ""; "X"] ].
Proof.
  apply (clade_counts_have_no_effect
           (Sample.args ["a.report"] false) (Sample.args ["a.report"] false)
           Sample.files
           (fun f => if String.eqb f "a.report"
                     then Some ["50.00 700 8 S 1234 Some name"] else None)
           Sample.tree);
    [reflexivity | reflexivity | vm_compute; reflexivity
    | vm_compute; reflexivity].
Defined.

(** ** A report given twice *)

Lemma sightings_again ids : forall acc,
  (forall i, In i ids -> In i acc) -> fold_left sight ids acc = acc.
Proof.
  induction ids as [| i ids IH]; intros acc H; simpl; [reflexivity |].
  assert (Hs : sight acc i = acc).
  { unfold sight.
    assert (Ht : existsb (Z.eqb i) acc = true).
    { apply existsb_exists. exists i.
      split; [apply H; now left | apply Z.eqb_refl]. }
    now rewrite Ht. }
  rewrite Hs. apply IH. intros j Hj. apply H. now right.
Qed.

Lemma merge_twice k es :
  merge None k (es ++ es) = option_map twice (merge None k es).
Proof.
  unfold merge, twice. rewrite seen_app, clade_sum_app, taxon_sum_app.
  destruct (seen k es); cbn [orb option_map fst snd]; [| reflexivity].
  f_equal. f_equal; lia.
Qed.

(** X7: a list of reports given twice on the command line is counted
    twice: the run completes when it completes for the list given once,
    with the same tax IDs in the same order and both counters of every
    tax ID doubled. *)
Theorem reports_given_twice :
  forall tt fs files d1,
    outcome (parse_reports files fs tt) = Return d1 ->
    exists d2,
      outcome (parse_reports (files ++ files) fs tt) = Return d2
      /\ keys d2 = keys d1
      /\ forall k, counters d2 k = option_map twice (counters d1 k).
Proof.
  intros tt fs files d1 H1.
  pose proof (parse_reports_summary tt fs files) as S1.
  pose proof (parse_reports_summary tt fs (files ++ files)) as S2.
  unfold summary in S1, S2. rewrite H1 in S1. destruct S1 as (Hok & _).
  rewrite forallb_app, Hok in S2.
  destruct (outcome (parse_reports (files ++ files) fs tt)) as [e | d2] eqn:H2;
    [discriminate |].
  exists d2. split; [reflexivity |]. split.
  - rewrite (parse_reports_keys tt fs _ d2 H2).
    rewrite (parse_reports_keys tt fs _ d1 H1).
    unfold report_entries, first_sightings.
    rewrite flat_map_app, map_app, fold_left_app.
    apply sightings_again. intros i Hi. apply sightings_In. now right.
  - intros k. rewrite (parse_reports_counters tt fs _ d2 H2 k).
    rewrite (parse_reports_counters tt fs _ d1 H1 k).
    unfold report_entries. rewrite flat_map_app. apply merge_twice.
Qed.

Lemma reports_given_twice_witness :
  exists d2,
    outcome (parse_reports (["b.report"] ++ ["b.report"])
               Sample.files Sample.tree) = Return d2
    /\ keys d2 = [99; 0]
    /\ forall k,
         counters d2 k
         = option_map twice
             (counters [ (99, new_TaxonInfo (lineage_of Sample.tree 99) 99 20 5);
                         (0, new_TaxonInfo empty_taxonomy_dict 0 10 3) ] k).
Proof.
  apply (reports_given_twice Sample.tree Sample.files ["b.report"]
           [ (99, new_TaxonInfo (lineage_of Sample.tree 99) 99 20 5);
             (0, new_TaxonInfo empty_taxonomy_dict 0 10 3) ]).
  vm_compute. reflexivity.
Defined.

(** ** Where a report ends *)

Lemma parse_reports_lines tt fs files :
  (forall f, In f files -> fs f <> None) ->
  outcome (parse_reports files fs tt)
  = outcome (for_each (report_lines fs files) [] (parse_line tt)).
Proof.
  unfold parse_reports, report_lines. generalize (@nil (Z * TaxonInfo)).
  induction files as [| f files IH]; intros d Hfs; [reflexivity |].
  cbn [for_each flat_map]. unfold read_file at 1.
  destruct (fs f) as [text |] eqn:Hf.
  - rewrite bind_ret. unfold parse_report at 1. cbn [name readlines].
    rewrite for_each_app, !outcome_bind. unfold emit. rewrite outcome_pair.
    cbv beta iota. unfold TaxonInfoDict.
    destruct (outcome (for_each text d (parse_line tt))); [reflexivity |].
    apply IH. intros g Hg. apply Hfs. now right.
  - exfalso. apply (Hfs f); [now left | exact Hf].
Qed.

(** X8: the outcome of a run depends on the report files only
    through the sequence of all their lines: two lists of readable
    files with the same lines in the same order, however the lines are
    spread over the files, give the same rows, or the same
    exception. *)
Theorem file_boundaries_are_irrelevant :
  forall tt args args' fs fs',
    include_unclassified args = include_unclassified args' ->
    (forall f, In f (kraken_report args) -> fs f <> None) ->
    (forall f, In f (kraken_report args') -> fs' f <> None) ->
    report_lines fs (kraken_report args) = report_lines fs' (kraken_report args') ->
    outcome (kraken2krona args fs tt) = outcome (kraken2krona args' fs' tt).
Proof.
  intros tt args args' fs fs' Hinc Hfs Hfs' Hlines.
  rewrite !kraken2krona_outcome.
  rewrite (parse_reports_lines tt fs _ Hfs), (parse_reports_lines tt fs' _ Hfs').
  rewrite Hlines. unfold krona_table. now rewrite Hinc.
Qed.

Lemma file_boundaries_are_irrelevant_witness :
  outcome (kraken2krona (Sample.args ["b.report"; "c.report"] true)
             Sample.files Sample.tree)
  = outcome (kraken2krona (Sample.args ["all.report"] true)
               (fun f => if String.eqb f "all.report"
                         then Some [ " 20.00 20 5 G 99 Y";
                                     " 10.00 10 3 U 0 unclassified";
                                     " 28.00 28 7 G 99 Y";
                                     " 80.00 80 1 R 1 root" ]
                         else None)
               Sample.tree).
Proof.
  apply file_boundaries_are_irrelevant.
  - reflexivity.
  - intros f [<- | [<- | []]]; discriminate.
  - intros f [<- | []]; discriminate.
  - reflexivity.
Defined.

(** ** The naming pass on its own *)

Lemma find_none_iff {A} (p : A -> bool) (l : list A) :
  find p l = None <-> forall x, In x l -> p x = false.
Proof.
  split; [apply find_none |].
  induction l as [| x l IH]; intros H; simpl; [reflexivity |].
  rewrite (H x (or_introl eq_refl)). apply IH. intros y Hy. apply H. now right.
Qed.

Lemma empty_ids_In (df : Pandas.DataFrame) k :
  In k (empty_ids df)
  <-> exists r, In (k, r) df /\ Pandas.all_null taxonomy_cols r = true.
Proof.
  unfold empty_ids, Pandas.index_values, Pandas.rows_all_null.
  rewrite in_map_iff. split.
  - intros ([k' r] & <- & Hin). apply filter_In in Hin. exists r. exact Hin.
  - intros (r & Hin & Hnull). exists (k, r). split; [reflexivity |].
    apply filter_In. now split.
Qed.

(** X9: on a frame whose index has no duplicate, the naming pass
    leaves the order, the index and the counts as they are; a row with
    at least one rank is unchanged, a row without ranks gets
    "Unclassified" (tax ID 0) or the name of its tax ID as superkingdom,
    with one name look-up per such row other than row 0.  The pass
    raises exactly when the tree has no name for one of these rows. *)
Theorem naming_pass :
  forall tt df,
    NoDup (keys df) ->
    ((forall k r, In (k, r) df -> Pandas.all_null taxonomy_cols r = true ->
                  k <> 0 -> get_name tt k <> None) ->
     name_empty_rows tt taxonomy_cols df
     = (map (fun k => Query (GetName k)) (filter nonzero (empty_ids df)),
        Return (map (rename tt) df)))
    /\ (forall k r, In (k, r) df -> Pandas.all_null taxonomy_cols r = true ->
                    k <> 0 -> get_name tt k = None ->
                    exists k', outcome (name_empty_rows tt taxonomy_cols df)
                               = Raise (TaxonomyError (GetName k')))
    /\ keys (map (rename tt) df) = keys df
    /\ map (fun row => (hits_at_clade (snd row), hits_at_taxon (snd row)))
         (map (rename tt) df)
       = map (fun row => (hits_at_clade (snd row), hits_at_taxon (snd row))) df.
Proof.
  intros tt df Hnd. split; [| split; [| split]].
  - intros Hnames.
    assert (Hf : find (unnamed tt) (empty_ids df) = None).
    { apply find_none_iff. intros k Hk. apply empty_ids_In in Hk.
      destruct Hk as (r & Hin & Hnull). unfold unnamed, display_name.
      destruct (Z.eqb_spec k 0) as [E | Hne]; [reflexivity |].
      specialize (Hnames k r Hin Hnull Hne).
      now destruct (get_name tt k). }
    pose proof (name_empty_rows_outcome tt df Hnd) as Ho. rewrite Hf in Ho.
    rewrite (surjective_pairing (name_empty_rows tt taxonomy_cols df)).
    f_equal; [| exact Ho].
    unfold name_empty_rows. fold (empty_ids df).
    exact (name_loop_trace tt (empty_ids df) df Hf).
  - intros k r Hin Hnull Hne Hname.
    rewrite (name_empty_rows_outcome tt df Hnd).
    destruct (find (unnamed tt) (empty_ids df)) as [k' |] eqn:Hf;
      [now exists k' |].
    exfalso. rewrite find_none_iff in Hf.
    assert (Hk : In k (empty_ids df)) by (apply empty_ids_In; now exists r).
    specialize (Hf k Hk). unfold unnamed, display_name in Hf.
    destruct (Z.eqb_spec k 0); [contradiction |].
    rewrite Hname in Hf. discriminate.
  - unfold keys. rewrite map_map. apply map_ext. intros row. apply fst_rename.
  - rewrite map_map. apply map_ext. intros [k r]. unfold rename, named.
    cbn [fst snd]. destruct (Pandas.all_null taxonomy_cols r); [| reflexivity].
    now destruct (display_name tt k).
Qed.

Lemma naming_pass_witness :
  name_empty_rows Sample.tree taxonomy_cols
    [ (0, new_TaxonInfo empty_taxonomy_dict 0 10 3);
      (1, new_TaxonInfo empty_taxonomy_dict 1 80 1);
      (1234, new_TaxonInfo ScenarioA.lineage 1234 12 8) ]
  = ([Query (GetName 1)],
     Return [ (0, Pandas.set_superkingdom "Unclassified"
                    (new_TaxonInfo empty_taxonomy_dict 0 10 3));
              (1, Pandas.set_superkingdom "root"
                    (new_TaxonInfo empty_taxonomy_dict 1 80 1));
              (1234, new_TaxonInfo ScenarioA.lineage 1234 12 8) ]).
Proof.
  assert (Hnd : NoDup (keys [ (0, new_TaxonInfo empty_taxonomy_dict 0 10 3);
                              (1, new_TaxonInfo empty_taxonomy_dict 1 80 1);
                              (1234, new_TaxonInfo ScenarioA.lineage 1234 12 8) ])).
  { repeat constructor; simpl; intuition discriminate. }
  apply (proj1 (naming_pass Sample.tree _ Hnd)).
  intros k r [H | [H | [H | []]]] _ Hk; injection H as <- _;
    [contradiction | discriminate | discriminate].
Defined.

(** ** Reports with unclassified reads only *)




(** ** What is logged *)

Lemma log_messages_app t1 t2 :
  log_messages (t1 ++ t2) = log_messages t1 ++ log_messages t2.
Proof. apply filter_app. Qed.

Lemma store_rank_log tt j td : log_messages (trace (store_rank tt j td)) = [].
Proof.
  unfold store_rank, tt_get_rank, tt_get_name.
  rewrite trace_bind, query_trace, query_outcome.
  destruct (get_rank tt j) as [rk |]; [| reflexivity].
  destruct (assoc_string rk taxonomy_ranks); [| reflexivity].
  rewrite trace_bind, query_trace, query_outcome.
  now destruct (get_name tt j).
Qed.

Lemma for_each_log {A S} (body : A -> S -> M S) xs :
  (forall x acc, log_messages (trace (body x acc)) = []) ->
  forall acc, log_messages (trace (for_each xs acc body)) = [].
Proof.
  intros Hbody. induction xs as [| x xs IH]; intros acc; [reflexivity |].
  cbn [for_each]. rewrite trace_bind, log_messages_app, Hbody.
  destruct (outcome (body x acc)); [reflexivity | apply IH].
Qed.

Lemma get_taxonomy_log tt i : log_messages (trace (get_taxonomy i tt)) = [].
Proof.
  unfold get_taxonomy. destruct (i =? 0); [reflexivity |].
  unfold tt_get_lineage.
  rewrite trace_bind, query_trace, query_outcome, log_messages_app.
  destruct (get_lineage tt i) as [lineage |]; [| reflexivity].
  cbn [log_messages filter app]. apply for_each_log. apply store_rank_log.
Qed.

Lemma parse_line_log tt line d : log_messages (trace (parse_line tt line d)) = [].
Proof.
  destruct (line_fields line) as [[[c t] i] |] eqn:E.
  - rewrite (parse_line_entry tt line d c t i E).
    destruct (contains i d); [reflexivity |].
    rewrite trace_bind, log_messages_app, get_taxonomy_log.
    now destruct (outcome (get_taxonomy i tt)).
  - destruct (parse_line_malformed tt line d E) as [e ->]. reflexivity.
Qed.

Lemma read_report_log tt fs f d d1 :
  outcome (bind (read_file fs f)
             (fun report_file_object => parse_report report_file_object d tt))
  = Return d1 ->
  log_messages
    (trace (bind (read_file fs f)
              (fun report_file_object => parse_report report_file_object d tt)))
  = [LogReading f].
Proof.
  unfold read_file. destruct (fs f) as [text |]; [| discriminate].
  rewrite bind_ret. unfold parse_report. cbn [name readlines]. intros _.
  rewrite trace_bind, log_messages_app. unfold emit.
  rewrite outcome_pair, trace_pair. cbv beta iota.
  rewrite for_each_log by apply parse_line_log. reflexivity.
Qed.

Lemma for_each_messages {A S} (body : A -> S -> M S) (msg : A -> list event) xs :
  (forall x acc acc', outcome (body x acc) = Return acc' ->
                      log_messages (trace (body x acc)) = msg x) ->
  forall acc acc',
    outcome (for_each xs acc body) = Return acc' ->
    log_messages (trace (for_each xs acc body)) = flat_map msg xs.
Proof.
  intros Hbody. induction xs as [| x xs IH]; intros acc acc'; [reflexivity |].
  cbn [for_each flat_map]. rewrite outcome_bind, trace_bind, log_messages_app.
  destruct (outcome (body x acc)) as [e | acc1] eqn:E; [discriminate |].
  intros H. now rewrite (Hbody x acc acc1 E), (IH acc1 acc' H).
Qed.

Lemma parse_reports_log tt fs files d :
  outcome (parse_reports files fs tt) = Return d ->
  log_messages (trace (parse_reports files fs tt)) = map LogReading files.
Proof.
  intros H. unfold parse_reports in *.
  pose proof (for_each_messages
                (fun f acc =>
                   bind (read_file fs f)
                     (fun report_file_object =>
                        parse_report report_file_object acc tt))
                (fun f => [LogReading f]) files
                (fun f acc acc' => read_report_log tt fs f acc acc')
                [] d H) as Hm.
  etransitivity; [exact Hm |]. clear.
  induction files as [| f files IH]; [reflexivity |].
  simpl. now rewrite IH.
Qed.

Lemma contains_seen tt fs files d k :
  outcome (parse_reports files fs tt) = Return d ->
  contains k d = seen k (report_entries fs files).
Proof.
  intros H. pose proof (parse_reports_counters tt fs files d H k) as Hc.
  unfold counters, merge, contains in *.
  destruct (lookup k d), (seen k (report_entries fs files));
    try reflexivity; discriminate.
Qed.

(** X11: a completed run logs one "Reading report file" message per
    report, in the order of the command line, then "Removing row for
    unclassified reads" when the flag is unset and a line for tax ID 0
    was read, then "Saving output", and nothing else. *)
Theorem messages_of_a_run :
  forall args fs tt lines,
    outcome (kraken2krona args fs tt) = Return lines ->
    log_messages (trace (kraken2krona args fs tt))
    = map LogReading (kraken_report args)
      ++ (if negb (include_unclassified args)
             && seen 0 (report_entries fs (kraken_report args))
          then [LogRemoving] else [])
      ++ [LogSaving (output_file args)].
Proof.
  intros args fs tt lines H.
  destruct (kraken2krona_trace args fs tt lines H) as (d & Hp & ->).
  rewrite log_messages_app. f_equal.
  - now apply (parse_reports_log tt fs _ d).
  - unfold finishing_trace. rewrite !log_messages_app.
    rewrite (contains_seen tt fs _ d 0 Hp). f_equal.
    + now destruct (negb (include_unclassified args)
                    && seen 0 (report_entries fs (kraken_report args))).
    + f_equal. induction (filter nonzero _) as [| k ks IH]; [reflexivity |].
      exact IH.
Qed.

Lemma messages_of_a_run_witness :
  log_messages (trace (kraken2krona (Sample.args ["c.report"; "b.report"] false)
                         Sample.files Sample.tree))
  = map LogReading ["c.report"; "b.report"]
    ++ (if negb false && seen 0 (report_entries Sample.files
                                   ["c.report"; "b.report"])
        then [LogRemoving] else [])
    ++ [LogSaving "krona.tsv"].
Proof.
  assert (H : outcome (kraken2krona (Sample.args ["c.report"; "b.report"] false)
                         Sample.files Sample.tree)
              = Return
                  [ tab_row ["12"; "Bacteria"; ""; ""; ""; ""; ""; "Y"; ""];
                    tab_row ["1"; "root"; ""; ""; ""; ""; ""; ""; ""] ])
    by (vm_compute; reflexivity).
  exact (messages_of_a_run _ _ _ _ H).
Defined.

(** ** Lines in the format of a report *)

Lemma split_blank ws s :
  blank ws -> Py.split_from None (String.append ws s) = Py.split_from None s.
Proof.
  unfold blank. induction ws as [| c ws IH]; cbn [all_chars String.append];
    [reflexivity |].
  intros H. apply andb_true_iff in H. destruct H as [Hc Hws].
  cbn [Py.split_from]. rewrite Hc. now apply IH.
Qed.

Lemma split_word w : forall acc s,
  all_chars (fun c => negb (Py.isspace c)) w = true ->
  Py.split_from (Some acc) (String.append w s)
  = Py.split_from (Some (String.append acc w)) s.
Proof.
  induction w as [| c w IH]; intros acc s; cbn [all_chars String.append].
  - intros _. now rewrite append_empty_r.
  - intros H. apply andb_true_iff in H. destruct H as [Hc Hw].
    apply negb_true_iff in Hc. cbn [Py.split_from]. rewrite Hc.
    rewrite (IH _ s Hw), append_assoc. reflexivity.
Qed.

Lemma split_token w s :
  token w -> token_end s ->
  Py.split_from None (String.append w s) = w :: Py.split_from None s.
Proof.
  intros [Hne Hw] Hend. destruct w as [| c w]; [congruence |].
  cbn [all_chars] in Hw. apply andb_true_iff in Hw. destruct Hw as [Hc Hw].
  apply negb_true_iff in Hc. cbn [String.append Py.split_from]. rewrite Hc.
  rewrite (split_word w _ s Hw). cbn [String.append].
  destruct Hend as [-> | (sp & r & -> & Hsp)]; cbn [Py.split_from];
    [reflexivity | now rewrite Hsp].
Qed.

Lemma separator_end ws s : separator ws -> token_end (String.append ws s).
Proof.
  intros [Hb Hne]. destruct ws as [| c ws]; [congruence |].
  unfold blank in Hb. cbn [all_chars] in Hb.
  apply andb_true_iff in Hb. destruct Hb as [Hc _].
  right. exists c, (String.append ws s). now split.
Qed.

Ltac eval_digit :=
  cbn [Py.int_digits];
  match goal with
  | |- context [Py.digit_value ?c] =>
      let v := eval vm_compute in (Py.digit_value c) in
      change (Py.digit_value c) with v
  end;
  cbv beta iota.

Lemma int_digits_acc d : forall acc,
  Py.int_digits (Zpos acc) true (NilEmpty.string_of_uint d)
  = Some (Zpos (Pos.of_uint_acc d acc)).
Proof.
  induction d; intros acc; cbn [NilEmpty.string_of_uint Pos.of_uint_acc];
    [reflexivity | ..];
    eval_digit; rewrite <- IHd; f_equal; lia.
Qed.

Lemma int_digits_uint d :
  Py.int_digits 0 true (NilEmpty.string_of_uint d)
  = Some (Z.of_N (Pos.of_uint d)).
Proof.
  induction d; cbn [NilEmpty.string_of_uint Pos.of_uint];
    [reflexivity | eval_digit; exact IHd | ..];
    eval_digit;
    match goal with
    | |- _ = Some (Z.of_N (N.pos (Pos.of_uint_acc ?l ?k))) =>
        exact (int_digits_acc l k)
    end.
Qed.

Lemma int_digits_start d b :
  d <> Decimal.Nil ->
  Py.int_digits 0 b (NilEmpty.string_of_uint d)
  = Some (Z.of_N (Pos.of_uint d)).
Proof.
  intros Hne. rewrite <- int_digits_uint.
  destruct d; [congruence | ..]; reflexivity.
Qed.

Lemma all_chars_impl (p q : ascii -> bool) s :
  (forall c, p c = true -> q c = true) ->
  all_chars p s = true -> all_chars q s = true.
Proof.
  intros Hpq. induction s as [| c s IH]; cbn [all_chars]; [trivial |].
  intros H. apply andb_true_iff in H. destruct H as [Hc Hs].
  now rewrite (Hpq c Hc), (IH Hs).
Qed.

Lemma decimal_char_not_space c :
  decimal_char c = true -> Py.isspace c = false /\ Py.int_space c = false.
Proof.
  unfold decimal_char, Py.digit_value, Py.isspace, Py.int_space.
  set (n := N_of_ascii c).
  destruct ((48 <=? n) && (n <=? 57))%N eqn:E; [| discriminate].
  intros _. apply andb_true_iff in E. destruct E as [E1 E2].
  apply N.leb_le in E1, E2.
  split;
    repeat match goal with
           | |- context [(?a <=? ?b)%N] => destruct (N.leb_spec a b)
           | |- context [(?a =? ?b)%N] => destruct (N.eqb_spec a b)
           end; try reflexivity; lia.
Qed.

Lemma skip_spaces_none s :
  all_chars (fun c => negb (Py.int_space c)) s = true -> Py.skip_spaces s = s.
Proof.
  destruct s as [| c s]; cbn [all_chars Py.skip_spaces]; [reflexivity |].
  intros H. apply andb_true_iff in H. destruct H as [Hc _].
  apply negb_true_iff in Hc. now rewrite Hc.
Qed.

Lemma drop_final_spaces_none s :
  all_chars (fun c => negb (Py.int_space c)) s = true ->
  Py.drop_final_spaces s = s.
Proof.
  induction s as [| c s IH]; cbn [all_chars Py.drop_final_spaces];
    [reflexivity |].
  intros H. apply andb_true_iff in H. destruct H as [Hc Hs].
  apply negb_true_iff in Hc. rewrite (IH Hs), Hc. now destruct s.
Qed.

Lemma uint_no_space d :
  all_chars (fun c => negb (Py.int_space c)) (NilEmpty.string_of_uint d) = true
  /\ all_chars (fun c => negb (Py.isspace c)) (NilEmpty.string_of_uint d) = true.
Proof.
  split; apply (all_chars_impl decimal_char); try apply string_of_uint_digits;
    intros c Hc; destruct (decimal_char_not_space c Hc) as [H1 H2];
    now rewrite ?H1, ?H2.
Qed.

Lemma int_of_uint d :
  d <> Decimal.Nil ->
  (Py.digit_count (NilEmpty.string_of_uint d) <= Py.int_max_str_digits)%N ->
  Py.int (NilEmpty.string_of_uint d) = Some (Z.of_N (Pos.of_uint d)).
Proof.
  intros Hne Hd. apply N.ltb_ge in Hd. unfold Py.int. cbv zeta.
  rewrite !(skip_spaces_none _ (proj1 (uint_no_space d))).
  rewrite !(drop_final_spaces_none _ (proj1 (uint_no_space d))).
  rewrite Hd.
  destruct d; [congruence | ..];
    match goal with
    | |- _ = Some (Z.of_N (Pos.of_uint ?x)) =>
        exact (int_digits_start x false Hne)
    end.
Qed.

Lemma str_no_space n :
  all_chars (fun c => negb (Py.int_space c)) (Py.str n) = true.
Proof.
  unfold Py.str. destruct n as [| p | p];
    cbn [Z.to_int NilEmpty.string_of_int]; [reflexivity | |].
  - apply uint_no_space.
  - cbn [all_chars]. now rewrite (proj1 (uint_no_space (Pos.to_uint p))).
Qed.

(** [int] reads back the decimal writing of an integer that has no
    more digits than [int] accepts. *)
Lemma int_str n :
  (digits n <= Py.int_max_str_digits)%N -> Py.int (Py.str n) = Some n.
Proof.
  unfold digits. destruct n as [| p | p].
  - reflexivity.
  - unfold Py.str. cbn [Z.to_int NilEmpty.string_of_int]. intros Hd.
    rewrite int_of_uint;
      [| apply DecimalPos.Unsigned.to_uint_nonnil | exact Hd].
    now rewrite DecimalPos.Unsigned.of_to.
  - intros Hd. apply N.ltb_ge in Hd.
    pose proof (str_no_space (Zneg p)) as Hs.
    unfold Py.int. cbv zeta.
    rewrite !(skip_spaces_none _ Hs), !(drop_final_spaces_none _ Hs).
    rewrite Hd.
    unfold Py.str. cbn [Z.to_int NilEmpty.string_of_int].
    cbv iota beta.
    rewrite int_digits_start by apply DecimalPos.Unsigned.to_uint_nonnil.
    now rewrite DecimalPos.Unsigned.of_to.
Qed.

(** [int] refuses the decimal writing of an integer with more
    digits. *)
Lemma int_str_too_long n :
  (Py.int_max_str_digits < digits n)%N -> Py.int (Py.str n) = None.
Proof.
  intros Hd. unfold digits in Hd. apply N.ltb_lt in Hd.
  unfold Py.int. cbv zeta.
  rewrite !(skip_spaces_none _ (str_no_space n)).
  rewrite !(drop_final_spaces_none _ (str_no_space n)).
  now rewrite Hd.
Qed.

Lemma str_token n : token (Py.str n).
Proof.
  unfold token, Py.str. destruct n as [| p | p];
    cbn [Z.to_int NilEmpty.string_of_int].
  - split; [discriminate | reflexivity].
  - split; [| apply uint_no_space].
    pose proof (DecimalPos.Unsigned.to_uint_nonnil p) as Hne.
    destruct (Pos.to_uint p); [congruence | ..]; discriminate.
  - split; [discriminate |]. cbn [all_chars].
    now rewrite (proj2 (uint_no_space (Pos.to_uint p))).
Qed.

Lemma report_line_split ws0 pct ws1 c ws2 t ws3 code ws4 i rest :
  blank ws0 -> token pct -> separator ws1 -> separator ws2 ->
  separator ws3 -> token code -> separator ws4 -> token_end rest ->
  Py.split (report_line ws0 pct ws1 c ws2 t ws3 code ws4 i rest)
  = pct :: Py.str c :: Py.str t :: code :: Py.str i
      :: Py.split_from None rest.
Proof.
  intros H0 Hpct H1 H2 H3 Hcode H4 Hrest. unfold report_line, Py.split.
  rewrite (split_blank ws0 _ H0).
  rewrite (split_token pct _ Hpct (separator_end ws1 _ H1)).
  rewrite (split_blank ws1 _ (proj1 H1)).
  rewrite (split_token _ _ (str_token c) (separator_end ws2 _ H2)).
  rewrite (split_blank ws2 _ (proj1 H2)).
  rewrite (split_token _ _ (str_token t) (separator_end ws3 _ H3)).
  rewrite (split_blank ws3 _ (proj1 H3)).
  rewrite (split_token code _ Hcode (separator_end ws4 _ H4)).
  rewrite (split_blank ws4 _ (proj1 H4)).
  now rewrite (split_token _ _ (str_token i) Hrest).
Qed.

(** X12: a line in the format of a report (percentage, clade count,
    taxon count, rank code, tax ID and whatever follows, the counts and
    the ID written in decimal, the fields separated by any whitespace,
    with or without whitespace at the start) whose three integers have
    no more than 4300 digits each is read as these three integers, and
    is then processed as the loop body processes them.  A clade count
    of more than 4300 digits is refused by [int]: the line raises
    [ValueError] before any call on the tree. *)
Theorem report_line_is_read :
  forall tt d ws0 pct ws1 c ws2 t ws3 code ws4 i rest,
    blank ws0 -> token pct -> separator ws1 -> separator ws2 ->
    separator ws3 -> token code -> separator ws4 -> token_end rest ->
    ((digits c <= Py.int_max_str_digits)%N ->
     (digits t <= Py.int_max_str_digits)%N ->
     (digits i <= Py.int_max_str_digits)%N ->
     line_fields (report_line ws0 pct ws1 c ws2 t ws3 code ws4 i rest)
     = Some (c, t, i)
     /\ parse_line tt (report_line ws0 pct ws1 c ws2 t ws3 code ws4 i rest) d
        = if contains i d then ret (update i (add_hits c t) d)
          else bind (get_taxonomy i tt)
                 (fun td => ret (insert_new i (new_TaxonInfo td i c t) d)))
    /\ ((Py.int_max_str_digits < digits c)%N ->
        parse_line tt (report_line ws0 pct ws1 c ws2 t ws3 code ws4 i rest) d
        = ([], Raise ValueError)).
Proof.
  intros tt d ws0 pct ws1 c ws2 t ws3 code ws4 i rest
    H0 Hpct H1 H2 H3 Hcode H4 Hrest.
  pose proof (report_line_split ws0 pct ws1 c ws2 t ws3 code ws4 i rest
                H0 Hpct H1 H2 H3 Hcode H4 Hrest) as Hsplit.
  split.
  - intros Hc Ht Hi.
    assert (Hl : line_fields
                   (report_line ws0 pct ws1 c ws2 t ws3 code ws4 i rest)
                 = Some (c, t, i)).
    { unfold line_fields. rewrite Hsplit. cbn [nth_error].
      now rewrite (int_str c Hc), (int_str t Ht), (int_str i Hi). }
    split; [exact Hl | now apply parse_line_entry].
  - intros Hc. unfold parse_line, int_field. cbv zeta.
    rewrite Hsplit. cbn [nth_error].
    now rewrite (int_str_too_long c Hc).
Qed.

Lemma report_line_is_read_witness :
  line_fields
    (report_line " " "20.00" (String (ascii_of_nat 9) EmptyString) 20
       (String (ascii_of_nat 9) EmptyString) 5
       (String (ascii_of_nat 9) EmptyString) "G"
       (String (ascii_of_nat 9) EmptyString) 99
       (String (ascii_of_nat 9) "    Y"))
  = Some (20, 5, 99).
Proof.
  assert (Htab : separator (String (ascii_of_nat 9) EmptyString))
    by (split; [reflexivity | discriminate]).
  assert (H0 : blank " ") by reflexivity.
  assert (Hpct : token "20.00") by (split; [discriminate | reflexivity]).
  assert (Hcode : token "G") by (split; [discriminate | reflexivity]).
  assert (Hrest : token_end (String (ascii_of_nat 9) "    Y")).
  { right. exists (ascii_of_nat 9), "    Y". split; reflexivity. }
  assert (Hc : (digits 20 <= Py.int_max_str_digits)%N)
    by (vm_compute; discriminate).
  assert (Ht : (digits 5 <= Py.int_max_str_digits)%N)
    by (vm_compute; discriminate).
  assert (Hi : (digits 99 <= Py.int_max_str_digits)%N)
    by (vm_compute; discriminate).
  exact (proj1 (proj1 (report_line_is_read Sample.tree []
                         " " "20.00" (String (ascii_of_nat 9) EmptyString) 20
                         (String (ascii_of_nat 9) EmptyString) 5
                         (String (ascii_of_nat 9) EmptyString) "G"
                         (String (ascii_of_nat 9) EmptyString) 99
                         (String (ascii_of_nat 9) "    Y")
                         H0 Hpct Htab Htab Htab Hcode Htab Hrest)
                  Hc Ht Hi)).
Defined.

(** ** Which exception a malformed line raises *)

(** X13: a line with fewer than 5 fields whose fields 1 and 2, where
    present, are integers raises [IndexError]; a line with at least 5
    fields, one of the fields 1, 2 and 4 not being an integer, raises
    [ValueError]; and since field 1 is converted first, a line whose
    field 1 is not an integer raises [ValueError] however short it
    is.  In each case no call is made on the tree. *)
Theorem malformed_line_exception :
  forall tt line d,
    ((List.length (Py.split line) < 5)%nat ->
     (forall i s, (i = 1 \/ i = 2)%nat ->
                  nth_error (Py.split line) i = Some s -> Py.int s <> None) ->
     parse_line tt line d = ([], Raise IndexError))
    /\ ((5 <= List.length (Py.split line))%nat -> malformed line ->
        parse_line tt line d = ([], Raise ValueError))
    /\ (not_an_integer line 1 ->
        parse_line tt line d = ([], Raise ValueError)).
Proof.
  intros tt line d. unfold parse_line, int_field. split; [| split].
  - intros Hlen Hint.
    assert (H4 : nth_error (Py.split line) 4 = None)
      by (apply nth_error_None; lia).
    rewrite H4.
    destruct (nth_error (Py.split line) 1) as [a |] eqn:E1; [| reflexivity].
    pose proof (Hint 1%nat a (or_introl eq_refl) E1) as Ha.
    destruct (Py.int a) as [x |]; [| congruence]. rewrite bind_ret.
    destruct (nth_error (Py.split line) 2) as [b |] eqn:E2; [| reflexivity].
    pose proof (Hint 2%nat b (or_intror eq_refl) E2) as Hb.
    destruct (Py.int b) as [y |]; [| congruence]. now rewrite bind_ret.
  - intros Hlen Hm.
    destruct (nth_error (Py.split line) 1) as [a |] eqn:E1;
      [| apply nth_error_None in E1; lia].
    destruct (nth_error (Py.split line) 2) as [b |] eqn:E2;
      [| apply nth_error_None in E2; lia].
    destruct (nth_error (Py.split line) 4) as [c |] eqn:E4;
      [| apply nth_error_None in E4; lia].
    destruct (Py.int a) as [x |] eqn:Ia; [| reflexivity]. rewrite bind_ret.
    destruct (Py.int b) as [y |] eqn:Ib; [| reflexivity]. rewrite bind_ret.
    destruct (Py.int c) as [z |] eqn:Ic; [| reflexivity].
    exfalso. unfold malformed, not_an_integer in Hm.
    destruct Hm as [H | [(s & Hs & Hi) | [(s & Hs & Hi) | (s & Hs & Hi)]]];
      [lia | congruence | congruence | congruence].
  - intros (s & Hs & Hi). now rewrite Hs, Hi.
Qed.

Lemma malformed_line_exception_witness :
  parse_line Sample.tree "10.00 4 4" [] = ([], Raise IndexError)
  /\ parse_line Sample.tree "10.00 4 four S 99 Y" [] = ([], Raise ValueError)
  /\ parse_line Sample.tree "10.00 many" [] = ([], Raise ValueError).
Proof.
  split; [| split].
  - apply (proj1 (malformed_line_exception Sample.tree "10.00 4 4" [])).
    + vm_compute. lia.
    + intros i s [-> | ->] H; vm_compute in H; injection H as <-; discriminate.
  - apply (proj1 (proj2 (malformed_line_exception Sample.tree
                           "10.00 4 four S 99 Y" []))).
    + vm_compute. lia.
    + right. right. left. exists "four". split; reflexivity.
  - apply (proj2 (proj2 (malformed_line_exception Sample.tree
                           "10.00 many" []))).
    exists "many". split; reflexivity.
Defined.

(** ** Removing the unclassified row *)

(** X14: the removal of the unclassified row never raises: the frame
    is searched for the label 0 before the row is dropped.  With the
    flag unset the outcome is the frame without its row 0, the other
    rows in their order, and the removal is logged only when there was
    such a row; with the flag set the frame is returned as it is and
    nothing is logged. *)
Theorem removal_is_safe :
  forall inc df,
    drop_unclassified inc df
    = ((if negb inc && contains 0 df then [LogRemoving] else []),
       Return (filter (keep inc) df))
    /\ (inc = true -> filter (keep inc) df = df)
    /\ (inc = false ->
        ~ In 0 (keys (filter (keep inc) df))
        /\ forall row, fst row <> 0 ->
             (In row (filter (keep inc) df) <-> In row df)).
Proof.
  intros inc df. split; [apply drop_unclassified_eq |]. split.
  - intros ->. now apply filter_all.
  - intros ->. split.
    + unfold keys. rewrite in_map_iff. intros ([k r] & Hk & Hin).
      apply filter_In in Hin. destruct Hin as [_ Hkeep].
      simpl in Hk. subst k. discriminate.
    + intros [k r] Hk. rewrite filter_In. unfold keep, nonzero.
      simpl in *. destruct (Z.eqb_spec k 0); [contradiction |]. tauto.
Qed.

Lemma removal_is_safe_witness :
  drop_unclassified false [(1, new_TaxonInfo empty_taxonomy_dict 1 80 1)]
  = ([], Return [(1, new_TaxonInfo empty_taxonomy_dict 1 80 1)])
  /\ ~ In 0 (keys (filter (keep false)
                     [ (0, new_TaxonInfo empty_taxonomy_dict 0 10 3);
                       (1, new_TaxonInfo empty_taxonomy_dict 1 80 1) ])).
Proof.
  split.
  - apply (proj1 (removal_is_safe false
                    [(1, new_TaxonInfo empty_taxonomy_dict 1 80 1)])).
  - apply (proj1 (proj2 (proj2 (removal_is_safe false
                                  [ (0, new_TaxonInfo empty_taxonomy_dict 0 10 3);
                                    (1, new_TaxonInfo empty_taxonomy_dict 1 80 1) ]))
                    eq_refl)).
Defined.

(** ** What a completed run implies *)

(** X15: a run completes only if every report file could be opened,
    every line had its three integers (each within the digits [int]
    accepts) and a tax ID whose lineage the tree resolved, the reports
    gave at least one record, and the tree had a name for every row
    that is kept, has no rank and is not row 0.  Where one of these
    fails, the run raises. *)
Theorem run_completes_only_if :
  forall args fs tt lines,
    outcome (kraken2krona args fs tt) = Return lines ->
    forallb (file_ok tt fs) (kraken_report args) = true
    /\ exists d,
         outcome (parse_reports (kraken_report args) fs tt) = Return d
         /\ d <> []
         /\ forall k r,
              In (k, r) d ->
              keep (include_unclassified args) (k, r) = true ->
              Pandas.all_null taxonomy_cols r = true ->
              k <> 0 -> get_name tt k <> None.
Proof.
  intros args fs tt lines H.
  destruct (kraken2krona_rows args fs tt lines H) as (d & Hp & _ & Hf & Hl).
  split.
  - pose proof (parse_reports_summary tt fs (kraken_report args)) as S.
    unfold summary in S. rewrite Hp in S. apply S.
  - exists d. split; [exact Hp |]. split.
    + intros ->. rewrite kraken2krona_outcome, Hp in H. discriminate.
    + intros k r Hin Hkeep Hnull Hk.
      rewrite find_none_iff in Hf.
      assert (Hid : In k (empty_ids
                            (filter (keep (include_unclassified args)) d))).
      { apply empty_ids_In. exists r. split; [| exact Hnull].
        apply filter_In. now split. }
      specialize (Hf k Hid). unfold unnamed, display_name in Hf.
      destruct (Z.eqb_spec k 0); [contradiction |].
      now destruct (get_name tt k).
Qed.

Lemma run_completes_only_if_witness :
  forallb (file_ok Sample.tree Sample.files) ["a.report"] = true
  /\ exists d,
       outcome (parse_reports ["a.report"] Sample.files Sample.tree) = Return d
       /\ d <> []
       /\ forall k r,
            In (k, r) d ->
            keep false (k, r) = true ->
            Pandas.all_null taxonomy_cols r = true ->
            k <> 0 -> get_name Sample.tree k <> None.
Proof.
  assert (H : outcome (kraken2krona (Sample.args ["a.report"] false)
                         Sample.files Sample.tree)
              = Return [ScenarioA.row])
    by (vm_compute; reflexivity).
  exact (run_completes_only_if (Sample.args ["a.report"] false)
           Sample.files Sample.tree [ScenarioA.row] H).
Defined.
